(** * apcups-serial-test: the Microlink frame codec, checksum and
      connection state machine of [apcserial.py], embedded and verified.

    Sources embedded here:
    - [src/checksum/fletcherNbit.py]  (class [Fletcher])
    - [src/checksum/testFletcher.py]  (the regression samples)
    - [src/apcserial.py]              (classes [ApcComm] and [ApcCLI])

    Bytes are integers in [0, 256) carried as [Z]; a [bytearray] is a
    [list Z], and every place where Python builds a [bytearray] from
    integers is modelled with the range check that raises [ValueError]. *)

From Stdlib Require Import ZArith Lia Ascii DecimalString HexadecimalString
  HexadecimalN HexadecimalPos.
From stdpp Require Import gmap strings list.

Local Open Scope Z_scope.

(** ** Python primitives used by the sources *)

Module Py.

(** Exceptions the embedded code can raise. *)
Inductive exn :=
| IndexError | KeyError | ValueError | TypeError | AttributeError
| OverflowError | UnicodeDecodeError.

(** Clamping of one slice bound, as CPython's [PySlice_AdjustIndices]
    does for a step of 1. *)
Definition adjust_index (len i : Z) : Z :=
  if i <? 0 then Z.max 0 (len + i) else Z.min len i.

(** [l[start:stop]]; [stop = None] is an omitted upper bound. *)
Definition slice {A} (l : list A) (start : Z) (stop : option Z) : list A :=
  let len := Z.of_nat (length l) in
  let a := adjust_index len start in
  let b := match stop with Some j => adjust_index len j | None => len end in
  take (Z.to_nat (b - a)) (drop (Z.to_nat a) l).

(** [range(0, n)] *)
Definition range (n : Z) : list Z := Z.of_nat <$> seq 0 (Z.to_nat n).

(** [int.from_bytes(bs, byteorder="little")] *)
Fixpoint from_bytes_little (bs : list Z) : Z :=
  match bs with
  | [] => 0
  | b :: bs' => b + 256 * from_bytes_little bs'
  end.

(** [int.from_bytes(bs, byteorder='big', signed=False)] *)
Definition from_bytes_big (bs : list Z) : Z :=
  fold_left (fun acc b => acc * 256 + b) bs 0.

(** [int.from_bytes(bs, byteorder='big', signed=True)] *)
Definition from_bytes_big_signed (bs : list Z) : Z :=
  let v := from_bytes_big bs in
  let w := 8 * Z.of_nat (length bs) in
  if (0 <? w) && (2 ^ (w - 1) <=? v) then v - 2 ^ w else v.

(** Big-endian digits of [v] on [n] bytes (no range check). *)
Fixpoint be_digits (n : nat) (v : Z) : list Z :=
  match n with
  | O => []
  | S n' => be_digits n' (v / 256) ++ [v mod 256]
  end.

(** [v.to_bytes(n, byteorder='big', signed=False)] *)
Definition to_bytes_big (n : nat) (v : Z) : exn + list Z :=
  if (0 <=? v) && (v <? 256 ^ Z.of_nat n) then inr (be_digits n v)
  else inl OverflowError.

Definition is_byte (b : Z) : bool := (0 <=? b) && (b <? 256).

(** [bytearray(ints)]: every element must be in [range(256)]. *)
Definition bytearray (ints : list Z) : exn + list Z :=
  if forallb is_byte ints then inr ints else inl ValueError.

End Py.

(** ** [checksum/fletcherNbit.py] *)

(** Class attributes of [Fletcher] and its subclasses. *)
Record FletcherClass := {
  modulus : Z;
  bitshift : Z;
  bytes_read : Z
}.

Definition FletcherBase : FletcherClass :=
  {| modulus := 255; bitshift := 8; bytes_read := 1 |}.
Definition Fletcher16 : FletcherClass :=
  {| modulus := 255; bitshift := 8; bytes_read := 1 |}.
Definition Fletcher32 : FletcherClass :=
  {| modulus := 65535; bitshift := 16; bytes_read := 2 |}.
Definition Fletcher64 : FletcherClass :=
  {| modulus := 4294967295; bitshift := 32; bytes_read := 4 |}.

(** Instance attributes. *)
Record Fletcher := {
  c0 : Z;
  c1 : Z;
  cb0 : Z;
  cb1 : Z
}.

(** [Fletcher.__init__] *)
Definition Fletcher_new : Fletcher :=
  {| c0 := 0; c1 := 0; cb0 := 0; cb1 := 0 |}.

Section FletcherUpdate.
Variable cls : FletcherClass.

(** Body of the [for i in range(0, iterations)] loop of [update]. *)
Definition update_body (bytestring : list Z) (f : Fletcher) (i : Z)
  : Fletcher :=
  let start := bytes_read cls * i in
  let stop := bytes_read cls * (i + 1) in
  let bytepart := Py.from_bytes_little (Py.slice bytestring start (Some stop)) in
  let c0' := (c0 f + bytepart) mod modulus cls in
  let c1' := (c1 f + c0') mod modulus cls in
  {| c0 := c0'; c1 := c1'; cb0 := cb0 f; cb1 := cb1 f |}.

(** [Fletcher.update] *)
Definition update (f : Fletcher) (bytestring : list Z) : Fletcher :=
  let iterations :=
    (Z.of_nat (length bytestring) - 1) / bytes_read cls + 1 in
  let f' := fold_left (update_body bytestring) (Py.range iterations) f in
  let cb0' := modulus cls - ((c0 f' + c1 f') mod modulus cls) in
  let cb1' := modulus cls - ((c0 f' + cb0') mod modulus cls) in
  {| c0 := c0 f'; c1 := c1 f'; cb0 := cb0'; cb1 := cb1' |}.

(** The check-byte combination [(f8.cb0 << 8) + f8.cb1] of
    [cb_hexdigest], [testFletcher.py] and [apcserial.py]. *)
Definition check_value (f : Fletcher) : Z :=
  Z.shiftl (cb0 f) (bitshift cls) + cb1 f.
End FletcherUpdate.

(** ** [checksum/testFletcher.py]: the samples *)

Definition sample_1 : list Z :=
  [0x7f;0x00;0x00;0x00;0x00;0x19;0xc9;0x00;0x13;0x00;0x4e;0x00;0x00;0x01;0x79;0x00;0x00].
Definition sample_2 : list Z :=
  [0x7f;0x00;0x00;0x00;0x00;0x19;0xcb;0x00;0x13;0x00;0x4e;0x00;0x00;0x01;0x79;0x00;0x00].
Definition sample_13 : list Z :=
  [0x7f;0x00;0x00;0x00;0x00;0x1c;0x67;0x00;0x15;0x00;0x53;0x00;0x00;0x01;0x7c;0x00;0x00].

(** One iteration of the sample loop: a fresh engine, one [update],
    [result = (f8.cb0 << 8) + f8.cb1]. *)
Definition sample_result (sample : list Z) : Z :=
  check_value FletcherBase (update FletcherBase Fletcher_new sample).

(** ** A state-and-exception monad for the stateful code

    A Python method either returns a value or raises; in both cases the
    mutations done so far stay visible, so both results carry the state. *)

Inductive res (S A : Type) : Type :=
| Ret (a : A) (st : S)
| Raise (e : Py.exn) (st : S).
Arguments Ret {S A} a st.
Arguments Raise {S A} e st.

Definition M (S A : Type) : Type := S -> res S A.

Definition ret {S A} (a : A) : M S A := fun st => Ret a st.
Definition raise {S A} (e : Py.exn) : M S A := fun st => Raise e st.
Definition bind {S A B} (c : M S A) (k : A -> M S B) : M S B :=
  fun st => match c st with
            | Ret a st' => k a st'
            | Raise e st' => Raise e st'
            end.
Definition gets {S A} (f : S -> A) : M S A := fun st => Ret (f st) st.
Definition modify {S} (f : S -> S) : M S unit := fun st => Ret tt (f st).

Notation "x <- c ;; k" := (bind c (fun x => k))
  (at level 100, c at next level, k at level 200, right associativity).
Notation "c ;; k" := (bind c (fun _ => k))
  (at level 100, k at level 200, right associativity).

(** A pure computation that may raise, run inside the monad. *)
Definition lift_exn {S A} (r : Py.exn + A) : M S A :=
  match r with
  | inl e => raise e
  | inr a => ret a
  end.

(** Run a computation on a component of the state. *)
Definition zoom {S T A} (get : S -> T) (set : T -> S -> S) (c : M T A)
  : M S A :=
  fun st => match c (get st) with
            | Ret a t' => Ret a (set t' st)
            | Raise e t' => Raise e (set t' st)
            end.

(** [seq[i]] for a constant, non-negative [i]. *)
Definition index {S} (l : list Z) (i : nat) : M S Z :=
  match l !! i with
  | Some x => ret x
  | None => raise Py.IndexError
  end.

(** ** Values stored in [ups_state] *)

Inductive value :=
| VInt (n : Z)
| VFloat (num : Z) (frac_pos : Z)
    (** the float [num / 2**frac_pos]; exact, [num] has at most 32 bits *)
| VStr (str : string)
    (** a [str], carried as its UTF-8 encoding *)
| VBytes (b : list Z)
| VList (l : list string)
| VDate (days : Z).
    (** [datetime(2000,1,1) + timedelta(days)] *)

Abbreviation dict := (gmap string value).

(** [self.ups_state[key] = v] *)
Definition setitem (key : string) (v : value) : M dict unit :=
  modify (fun d => <[key := v]> d).

(** [self.ups_state[key]] *)
Definition getitem (key : string) : M dict value :=
  fun d => match d !! key with
           | Some v => Ret v d
           | None => Raise Py.KeyError d
           end.

(** [self.ups_state[key].append(name)] with a [str] argument.  The
    decoders only append under keys they have just set to [[]]. *)
Definition list_append (key name : string) : M dict unit :=
  v <- getitem key ;;
  match v with
  | VList l => setitem key (VList (l ++ [name]))
  | VBytes _ => raise Py.TypeError
  | _ => raise Py.AttributeError
  end.

(** [self.ups_state[key] += rhs] for a [str] operand: the old value is
    read first, then [rhs] is evaluated, then the sum is stored.  The
    two keys this is used on only ever hold a [str]. *)
Definition iadd_str (key : string) (rhs : M dict string) : M dict unit :=
  v <- getitem key ;;
  text <- rhs ;;
  match v with
  | VStr old => setitem key (VStr (old +:+ text))
  | _ => raise Py.TypeError
  end.

(** [if raw & mask == mask: self.ups_state[key].append(name)] *)
Definition flag (raw mask : Z) (key name : string) : M dict unit :=
  if Z.land raw mask =? mask then list_append key name else ret tt.

(** [if raw == code: self.ups_state[key] = v] *)
Definition when_eq (raw code : Z) (key : string) (v : value) : M dict unit :=
  if raw =? code then setitem key v else ret tt.

(** *** [bytearray.decode()] (UTF-8, strict) *)

Definition utf8_cont (b : Z) : bool := (0x80 <=? b) && (b <=? 0xBF).

Definition utf8_second3 (b0 b1 : Z) : bool :=
  if b0 =? 0xE0 then (0xA0 <=? b1) && (b1 <=? 0xBF)
  else if b0 =? 0xED then (0x80 <=? b1) && (b1 <=? 0x9F)
  else utf8_cont b1.

Definition utf8_second4 (b0 b1 : Z) : bool :=
  if b0 =? 0xF0 then (0x90 <=? b1) && (b1 <=? 0xBF)
  else if b0 =? 0xF4 then (0x80 <=? b1) && (b1 <=? 0x8F)
  else utf8_cont b1.

Fixpoint utf8_valid (bs : list Z) : bool :=
  match bs with
  | [] => true
  | b0 :: r0 =>
    if b0 <? 0x80 then utf8_valid r0
    else
      match r0 with
      | [] => false
      | b1 :: r1 =>
        if (0xC2 <=? b0) && (b0 <=? 0xDF) then utf8_cont b1 && utf8_valid r1
        else
          match r1 with
          | [] => false
          | b2 :: r2 =>
            if (0xE0 <=? b0) && (b0 <=? 0xEF)
            then utf8_second3 b0 b1 && utf8_cont b2 && utf8_valid r2
            else
              match r2 with
              | [] => false
              | b3 :: r3 =>
                if (0xF0 <=? b0) && (b0 <=? 0xF4)
                then utf8_second4 b0 b1 && utf8_cont b2 && utf8_cont b3
                     && utf8_valid r3
                else false
              end
          end
      end
  end.

Definition string_of_bytes (bs : list Z) : string :=
  fold_right (fun b acc => String (Ascii.ascii_of_N (Z.to_N b)) acc)
             EmptyString bs.

Definition decode {S} (bs : list Z) : M S string :=
  if utf8_valid bs then ret (string_of_bytes bs)
  else raise Py.UnicodeDecodeError.

(** ** [apcserial.py]: conversions and the per-message decoders *)

(** [msg_data[a:b]] with both bounds given. *)
Abbreviation sl l a b := (Py.slice l a (Some b)).

(** [ApcComm.convert_from_bp] *)
Definition convert_from_bp (data : list Z) (frac_pos : Z) (signed : bool)
  : value :=
  let data := if signed then Py.from_bytes_big_signed data
              else Py.from_bytes_big data in
  VFloat data frac_pos.

(** [int(x)] of a float: truncation towards zero. *)
Definition py_int (v : value) : value :=
  match v with
  | VFloat num frac_pos => VInt (Z.quot num (2 ^ frac_pos))
  | _ => v
  end.

(** [ApcComm.convert_to_datetime] *)
Definition convert_to_datetime (v : Z) : value := VDate v.

(** [msg_id == 0x00] *)
Definition branch_0x00 (msg_data : list Z) : M dict unit :=
  b <- index msg_data 0 ;; setitem "protocol_version" (VInt b) ;;
  b <- index msg_data 1 ;; setitem "msg_size" (VInt b) ;;
  b <- index msg_data 2 ;; setitem "num_ids" (VInt b) ;;
  setitem "series_id" (VInt (Py.from_bytes_big (sl msg_data 3 5))) ;;
  setitem "series_id_raw" (VBytes (sl msg_data 3 5)) ;;
  b <- index msg_data 5 ;; setitem "series_data_version" (VInt b) ;;
  b <- index msg_data 6 ;; setitem "unknown_3" (VInt b) ;;
  b <- index msg_data 7 ;; setitem "unknown_4" (VInt b) ;;
  setitem "header_raw" (VBytes (sl msg_data 0 8)).

(** [msg_id == 0x40] *)
Definition branch_0x40 (msg_data : list Z) : M dict unit :=
  text <- decode (sl msg_data 0 14) ;; setitem "serial_nb" (VStr text) ;;
  setitem "serial_nb_raw" (VBytes (sl msg_data 0 14)) ;;
  setitem "production_date" (convert_to_datetime (Py.from_bytes_big (sl msg_data 14 16))).

(** [msg_id == 0x41] *)
Definition branch_0x41 (msg_data : list Z) : M dict unit :=
  text <- decode msg_data ;; setitem "ups_type" (VStr text).

(** [msg_id == 0x42] *)
Definition branch_0x42 (msg_data : list Z) : M dict unit :=
  iadd_str "ups_type" (decode msg_data).

(** [msg_id == 0x43] *)
Definition branch_0x43 (msg_data : list Z) : M dict unit :=
  text <- decode msg_data ;; setitem "ups_sku" (VStr text).

(** [msg_id == 0x44] *)
Definition branch_0x44 (msg_data : list Z) : M dict unit :=
  iadd_str "ups_sku" (decode (sl msg_data 0 4)).

(** [msg_id == 0x45] *)
Definition branch_0x45 (msg_data : list Z) : M dict unit :=
  text <- decode (sl msg_data 0 8) ;; setitem "fw_version_1" (VStr text) ;;
  text <- decode (Py.slice msg_data 8 None) ;; setitem "fw_version_2" (VStr text).

(** [msg_id == 0x46] *)
Definition branch_0x46 (msg_data : list Z) : M dict unit :=
  text <- decode (sl msg_data 0 8) ;; setitem "fw_version_3" (VStr text) ;;
  text <- decode (Py.slice msg_data 8 None) ;; setitem "fw_version_4" (VStr text).

(** [msg_id == 0x47] *)
Definition branch_0x47 (msg_data : list Z) : M dict unit :=
  setitem "battery_install_date" (convert_to_datetime (Py.from_bytes_big (sl msg_data 0 2))) ;;
  setitem "battery_lifetime" (VInt (Py.from_bytes_big (sl msg_data 2 4))) ;;
  setitem "battery_near_eol_alarm_notification" (VInt (Py.from_bytes_big (sl msg_data 4 6))) ;;
  setitem "battery_near_eol_alarm_reminder" (VInt (Py.from_bytes_big (sl msg_data 6 8))).

(** [msg_id == 0x48] *)
Definition branch_0x48 (msg_data : list Z) : M dict unit :=
  text <- decode msg_data ;; setitem "battery_sku" (VStr text).

(** [msg_id == 0x49] *)
Definition branch_0x49 (msg_data : list Z) : M dict unit :=
  text <- decode msg_data ;; setitem "ups_name" (VStr text).

(** [msg_id == 0x4a] *)
Definition branch_0x4a (msg_data : list Z) : M dict unit :=
  setitem "allowed_operating_mode" (VInt (Py.from_bytes_big (sl msg_data 0 2))) ;;
  setitem "power_quality_config" (VInt (Py.from_bytes_big (sl msg_data 2 4))) ;;
  let battery_replacetest_interval_raw := Py.from_bytes_big (sl msg_data 4 6) in
  setitem "battery_replacetest_interval_raw" (VInt battery_replacetest_interval_raw) ;;
  setitem "battery_replacetest_interval" (VList []) ;;
  flag battery_replacetest_interval_raw 1 "battery_replacetest_interval" "DISABLED" ;;
  flag battery_replacetest_interval_raw 2 "battery_replacetest_interval" "STARTUP" ;;
  flag battery_replacetest_interval_raw 4 "battery_replacetest_interval" "EACH 7 DAYS SINCE STARTUP" ;;
  flag battery_replacetest_interval_raw 8 "battery_replacetest_interval" "EACH 14 DAYS SINCE STARTUP" ;;
  flag battery_replacetest_interval_raw 16 "battery_replacetest_interval" "EACH 7 DAYS SINCE LAST" ;;
  flag battery_replacetest_interval_raw 32 "battery_replacetest_interval" "EACH 14 DAYS SINCE LAST" ;;
  setitem "battery_replacement_due" (convert_to_datetime (Py.from_bytes_big (sl msg_data 6 8))) ;;
  setitem "low_runtime_alarm_config" (VInt (Py.from_bytes_big (sl msg_data 8 10))) ;;
  setitem "voltage_accept_max" (VInt (Py.from_bytes_big (sl msg_data 10 12))) ;;
  setitem "voltage_accept_min" (VInt (Py.from_bytes_big (sl msg_data 12 14))) ;;
  let voltage_sens := Py.from_bytes_big (sl msg_data 15 16) in
  setitem "voltage_sensitivity_raw" (VInt voltage_sens) ;;
  (if voltage_sens =? 1 then setitem "voltage_sensitivity" (VStr "HIGH")
   else if voltage_sens =? 2 then setitem "voltage_sensitivity" (VStr "MEDIUM")
   else if voltage_sens =? 4 then setitem "voltage_sensitivity" (VStr "LOW")
   else ret tt).

(** [msg_id == 0x4b] *)
Definition branch_0x4b (msg_data : list Z) : M dict unit :=
  setitem "apparent_power_rating" (VInt (Py.from_bytes_big (sl msg_data 0 2))) ;;
  setitem "real_power_rating" (VInt (Py.from_bytes_big (sl msg_data 2 4))) ;;
  let voltage_config := Py.from_bytes_big (sl msg_data 4 6) in
  setitem "voltage_config_raw" (VInt voltage_config) ;;
  (if voltage_config =? 1 then setitem "voltage_config" (VInt 100)
   else if voltage_config =? 2 then setitem "voltage_config" (VInt 120)
   else if voltage_config =? 4 then setitem "voltage_config" (VInt 200)
   else if voltage_config =? 8 then setitem "voltage_config" (VInt 208)
   else if voltage_config =? 16 then setitem "voltage_config" (VInt 220)
   else if voltage_config =? 32 then setitem "voltage_config" (VInt 230)
   else if voltage_config =? 64 then setitem "voltage_config" (VInt 240)
   else if voltage_config =? 2048 then setitem "voltage_config" (VInt 115)
   else ret tt).

(** [msg_id == 0x4c] *)
Definition branch_0x4c (msg_data : list Z) : M dict unit :=
  setitem "power_on_delay" (VInt (Py.from_bytes_big (sl msg_data 0 2))) ;;
  setitem "power_off_delay" (VInt (Py.from_bytes_big (sl msg_data 2 4))) ;;
  setitem "reboot_delay" (VInt (Py.from_bytes_big (sl msg_data 4 8))) ;;
  setitem "runtime_minimum_return" (convert_from_bp (sl msg_data 8 10) 0 false) ;;
  let load_shed_config_raw := Py.from_bytes_big (sl msg_data 10 12) in
  setitem "loadshed_config_raw" (VInt load_shed_config_raw) ;;
  setitem "loadshed_config" (VList []) ;;
  flag load_shed_config_raw 1 "loadshed_config" "USE_OFF_DELAY" ;;
  flag load_shed_config_raw 2 "loadshed_config" "MANUAL_RESTART_REQUIRED" ;;
  flag load_shed_config_raw 4 "loadshed_config" "RESERVED_BIT" ;;
  flag load_shed_config_raw 8 "loadshed_config" "TIME_ON_BATTERY" ;;
  flag load_shed_config_raw 16 "loadshed_config" "RUNTIME_REMAINING" ;;
  flag load_shed_config_raw 16 "loadshed_config" "ON_OVERLOAD" ;;
  setitem "loadshed_runtime_remaining" (convert_from_bp (sl msg_data 12 14) 0 false) ;;
  setitem "loadshed_runtime_limit" (convert_from_bp (sl msg_data 14 16) 0 false).

(** [msg_id == 0x4d] *)
Definition branch_0x4d (msg_data : list Z) : M dict unit :=
  text <- decode msg_data ;; setitem "outlet_name" (VStr text).

(** [msg_id == 0x4e] *)
Definition branch_0x4e (msg_data : list Z) : M dict unit :=
  setitem "InterfaceDisable_BF" (VInt (Py.from_bytes_big (sl msg_data 4 6))).

(** [msg_id == 0x5c] *)
Definition branch_0x5c (msg_data : list Z) : M dict unit :=
  setitem "CommunicationMethod_EN" (VInt (Py.from_bytes_big (sl msg_data 8 10))).

(** [msg_id == 0x6c] *)
Definition branch_0x6c (msg_data : list Z) : M dict unit :=
  let battery_lifetime_status_raw := Py.from_bytes_big (sl msg_data 6 8) in
  setitem "battery_lifetime_status_raw" (VInt battery_lifetime_status_raw) ;;
  setitem "battery_lifetime_status" (VList []) ;;
  flag battery_lifetime_status_raw 1 "battery_lifetime_status" "OK" ;;
  flag battery_lifetime_status_raw 2 "battery_lifetime_status" "NEAR EOL" ;;
  flag battery_lifetime_status_raw 4 "battery_lifetime_status" "OVER EOL" ;;
  flag battery_lifetime_status_raw 8 "battery_lifetime_status" "NEAR EOL ACK" ;;
  flag battery_lifetime_status_raw 16 "battery_lifetime_status" "OVER EOL ACK".

(** [msg_id == 0x6d] *)
Definition branch_0x6d (msg_data : list Z) : M dict unit :=
  setitem "battery_voltage" (convert_from_bp (sl msg_data 0 2) 5 true) ;;
  setitem "battery_soc" (convert_from_bp (sl msg_data 2 4) 9 false) ;;
  setitem "battery_replacetest_cmd" (VInt (Py.from_bytes_big (sl msg_data 4 6))) ;;
  let battery_replacetest_status := Py.from_bytes_big (sl msg_data 6 8) in
  setitem "battery_replacetest_status_raw" (VInt battery_replacetest_status) ;;
  setitem "battery_replacetest_status" (VList []) ;;
  (if battery_replacetest_status =? 0 then list_append "battery_replacetest_status" "UNKNOWN"
   else ret tt) ;;
  flag battery_replacetest_status 1 "battery_replacetest_status" "PENDING" ;;
  flag battery_replacetest_status 2 "battery_replacetest_status" "IN PROGRESS" ;;
  flag battery_replacetest_status 4 "battery_replacetest_status" "PASSED" ;;
  flag battery_replacetest_status 8 "battery_replacetest_status" "FAILED" ;;
  flag battery_replacetest_status 16 "battery_replacetest_status" "REFUSED" ;;
  flag battery_replacetest_status 32 "battery_replacetest_status" "ABORTED" ;;
  flag battery_replacetest_status 64 "battery_replacetest_status" "SOURCE PROTOCOL" ;;
  flag battery_replacetest_status 128 "battery_replacetest_status" "SOURCE UI" ;;
  flag battery_replacetest_status 256 "battery_replacetest_status" "SOURCE INTERNAL" ;;
  flag battery_replacetest_status 512 "battery_replacetest_status" "INVALID STATE" ;;
  flag battery_replacetest_status 1024 "battery_replacetest_status" "INTERNAL FAULT" ;;
  flag battery_replacetest_status 2048 "battery_replacetest_status" "SOC UNACCEPTABLE" ;;
  let runtime_calibration_status := Py.from_bytes_big (sl msg_data 10 12) in
  setitem "runtime_calibration_status_raw" (VInt runtime_calibration_status) ;;
  setitem "runtime_calibration_status" (VList []) ;;
  flag battery_replacetest_status 1 "runtime_calibration_status" "PENDING" ;;
  flag battery_replacetest_status 2 "runtime_calibration_status" "IN PROGRESS" ;;
  flag battery_replacetest_status 4 "runtime_calibration_status" "PASSED" ;;
  flag battery_replacetest_status 8 "runtime_calibration_status" "FAILED" ;;
  flag battery_replacetest_status 16 "runtime_calibration_status" "REFUSED" ;;
  flag battery_replacetest_status 32 "runtime_calibration_status" "ABORTED" ;;
  flag battery_replacetest_status 64 "battery_replacetest_status" "SOURCE PROTOCOL" ;;
  flag battery_replacetest_status 128 "battery_replacetest_status" "SOURCE UI" ;;
  flag battery_replacetest_status 256 "battery_replacetest_status" "SOURCE INTERNAL" ;;
  flag battery_replacetest_status 512 "battery_replacetest_status" "INVALID STATE" ;;
  flag battery_replacetest_status 1024 "battery_replacetest_status" "INTERNAL FAULT" ;;
  flag battery_replacetest_status 2048 "battery_replacetest_status" "SOC UNACCEPTABLE" ;;
  flag battery_replacetest_status 4096 "battery_replacetest_status" "LOAD CHANGED" ;;
  flag battery_replacetest_status 8192 "battery_replacetest_status" "AC INPUT NOT ACCEPTABLE" ;;
  flag battery_replacetest_status 16384 "battery_replacetest_status" "LOAD TOO LOW" ;;
  flag battery_replacetest_status 32768 "battery_replacetest_status" "OVERCHARGE IN PROGRESS" ;;
  setitem "runtime_remaining" (py_int (convert_from_bp (sl msg_data 14 16) 0 false)).

(** [msg_id == 0x6e] *)
Definition branch_0x6e (msg_data : list Z) : M dict unit :=
  setitem "runtime_remaining_2" (py_int (convert_from_bp (sl msg_data 0 4) 0 false)).

(** [msg_id == 0x6f] *)
Definition branch_0x6f (msg_data : list Z) : M dict unit :=
  setitem "temperature" (convert_from_bp (sl msg_data 0 2) 7 true) ;;
  setitem "user_interface_cmd" (VInt (Py.from_bytes_big (sl msg_data 2 4))) ;;
  let user_interface_status_raw := Py.from_bytes_big (sl msg_data 4 6) in
  setitem "user_interface_status_raw" (VInt user_interface_status_raw) ;;
  setitem "user_interface_status" (VList []) ;;
  flag user_interface_status_raw 1 "user_interface_status" "CONT. TEST IN PROGRESS" ;;
  flag user_interface_status_raw 2 "user_interface_status" "AUDIBLE ALARM IN PROGRESS" ;;
  flag user_interface_status_raw 4 "user_interface_status" "AUDIBLE ALARM MUTED" ;;
  setitem "voltage_out" (convert_from_bp (sl msg_data 6 8) 6 false) ;;
  setitem "current_out" (convert_from_bp (sl msg_data 8 10) 5 false) ;;
  setitem "frequency_out" (convert_from_bp (sl msg_data 10 12) 7 false) ;;
  setitem "apparent_power_pctused" (convert_from_bp (sl msg_data 12 14) 8 false) ;;
  setitem "real_power_pctused" (convert_from_bp (sl msg_data 14 16) 8 false).

(** [msg_id == 0x70] *)
Definition branch_0x70 (msg_data : list Z) : M dict unit :=
  let input_status := Py.from_bytes_big (sl msg_data 2 4) in
  setitem "input_status_raw" (VInt input_status) ;;
  setitem "input_status" (VList []) ;;
  flag input_status 1 "input_status" "ACCEPTABLE" ;;
  flag input_status 2 "input_status" "PENDING ACCEPTABLE" ;;
  flag input_status 4 "input_status" "LOW VOLTAGE" ;;
  flag input_status 8 "input_status" "HIGH VOLTAGE" ;;
  flag input_status 16 "input_status" "DISTORTED" ;;
  flag input_status 32 "input_status" "BOOST" ;;
  flag input_status 64 "input_status" "TRIM" ;;
  flag input_status 128 "input_status" "LOW FREQUENCY" ;;
  flag input_status 256 "input_status" "HIGH FREQUENCY" ;;
  flag input_status 512 "input_status" "PHASE NOT LOCKED" ;;
  flag input_status 1024 "input_status" "DELTA PHASE OUT OF RANGE" ;;
  flag input_status 2048 "input_status" "NEUTRAL NOT CONNECTED" ;;
  flag input_status 4096 "input_status" "NOT ACCEPTABLE" ;;
  flag input_status 8192 "input_status" "PLUG RATING EXCEEDED" ;;
  setitem "voltage_in" (convert_from_bp (sl msg_data 4 6) 6 false) ;;
  setitem "frequency_in" (convert_from_bp (sl msg_data 6 8) 7 false) ;;
  setitem "green_mode" (VInt (Py.from_bytes_big_signed (sl msg_data 8 10))) ;;
  let powsys_error := Py.from_bytes_big (sl msg_data 10 12) in
  setitem "powsys_error_raw" (VInt powsys_error) ;;
  setitem "powsys_error" (VList []) ;;
  flag powsys_error 1 "powsys_error" "OUTPUT OVERLOAD" ;;
  flag powsys_error 2 "powsys_error" "OUTPUT SHORT CIRCUIT" ;;
  flag powsys_error 4 "powsys_error" "OUTPUT OVERVOLTAGE" ;;
  flag powsys_error 8 "powsys_error" "TRANSFORMER DC IMBALANCE" ;;
  flag powsys_error 16 "powsys_error" "OVERTEMPERATURE" ;;
  flag powsys_error 32 "powsys_error" "BACKFEEDING" ;;
  flag powsys_error 64 "powsys_error" "AVR RELAY FAULT" ;;
  flag powsys_error 128 "powsys_error" "PFC INPUT RELAY FAULT" ;;
  flag powsys_error 256 "powsys_error" "OUTPUT RELAY FAULT" ;;
  flag powsys_error 512 "powsys_error" "BYPASS RELAY FAULT" ;;
  flag powsys_error 1024 "powsys_error" "FAN FAULT" ;;
  flag powsys_error 2048 "powsys_error" "PFC FAULT" ;;
  flag powsys_error 4096 "powsys_error" "DC BUS OVERVOLTAGE" ;;
  flag powsys_error 4096 "powsys_error" "INVERTER FAULT" ;;
  let general_error := Py.from_bytes_big (sl msg_data 12 14) in
  setitem "general_error_raw" (VInt general_error) ;;
  setitem "general_error" (VList []) ;;
  flag general_error 1 "general_error" "SITE WIRING FAULT" ;;
  flag general_error 2 "general_error" "EEPROM ERROR" ;;
  flag general_error 4 "general_error" "AD CONVERTER ERROR" ;;
  flag general_error 8 "general_error" "LOGIC PSU FAULT" ;;
  flag general_error 16 "general_error" "INTERNAL COMM FAULT" ;;
  flag general_error 32 "general_error" "UI BUTTON FAULT" ;;
  flag general_error 128 "general_error" "EPO ACTIVE" ;;
  let batt_error := Py.from_bytes_big (sl msg_data 14 16) in
  setitem "battery_error_raw" (VInt batt_error) ;;
  setitem "battery_error" (VList []) ;;
  flag batt_error 1 "battery_error" "DISCONNECTED" ;;
  flag batt_error 2 "battery_error" "OVERVOLTAGE" ;;
  flag batt_error 4 "battery_error" "NEEDS REPLACEMENT" ;;
  flag batt_error 8 "battery_error" "OVERTEMPERATURE" ;;
  flag batt_error 16 "battery_error" "CHARGER FAULT" ;;
  flag batt_error 32 "battery_error" "TEMP SENSOR FAULT" ;;
  flag batt_error 64 "battery_error" "BATTERY BUS SOFT START FAULT" ;;
  flag batt_error 128 "battery_error" "HIGH TEMPERATURE" ;;
  flag batt_error 256 "battery_error" "GENERAL ERROR" ;;
  flag batt_error 512 "battery_error" "COMM ERROR".

(** [msg_id == 0x71] *)
Definition branch_0x71 (msg_data : list Z) : M dict unit :=
  setitem "ups_cmd" (VInt (Py.from_bytes_big (sl msg_data 0 2))) ;;
  setitem "outlet_cmd" (VInt (Py.from_bytes_big (sl msg_data 8 10))).

(** [msg_id == 0x72] *)
Definition branch_0x72 (msg_data : list Z) : M dict unit :=
  let status_value := Py.from_bytes_big (sl msg_data 0 2) in
  setitem "outlet_status_raw" (VInt status_value) ;;
  setitem "outlet_status" (VList []) ;;
  flag status_value 1 "outlet_status" "OUTLET ON" ;;
  flag status_value 2 "outlet_status" "OUTLET OFF" ;;
  flag status_value 4 "outlet_status" "REBOOTING" ;;
  flag status_value 8 "outlet_status" "SHUTTING DOWN" ;;
  flag status_value 16 "outlet_status" "SLEEPING" ;;
  flag status_value 128 "outlet_status" "OUTLET OVERLOAD" ;;
  flag status_value 256 "outlet_status" "PENDING OUTLET ON" ;;
  flag status_value 512 "outlet_status" "PENDING OUTLET OFF" ;;
  flag status_value 1024 "outlet_status" "WAIT ON AC" ;;
  flag status_value 2048 "outlet_status" "WAIT ON MIN RUNTIME" ;;
  flag status_value 4096 "outlet_status" "LOW RUNTIME".

(** [msg_id == 0x76] *)
Definition branch_0x76 (msg_data : list Z) : M dict unit :=
  let status_value := Py.from_bytes_big (sl msg_data 8 10) in
  setitem "ups_status_raw" (VInt status_value) ;;
  setitem "ups_status" (VList []) ;;
  flag status_value 1 "ups_status" "RESERVED BIT" ;;
  flag status_value 2 "ups_status" "ONLINE" ;;
  flag status_value 4 "ups_status" "ON BATTERY" ;;
  flag status_value 8 "ups_status" "BYPASS ON" ;;
  flag status_value 16 "ups_status" "OUTPUT OFF" ;;
  flag status_value 32 "ups_status" "FAULT" ;;
  flag status_value 64 "ups_status" "INPUT BAD" ;;
  flag status_value 128 "ups_status" "TESTING" ;;
  flag status_value 256 "ups_status" "PENDING OUTPUT ON" ;;
  flag status_value 512 "ups_status" "PENDING OUTPUT OFF" ;;
  flag status_value 8192 "ups_status" "GREEN MODE" ;;
  flag status_value 16384 "ups_status" "InformationalAlert" ;;
  let status_chg_cause_raw := Py.from_bytes_big (sl msg_data 10 12) in
  setitem "status_chg_cause_raw" (VInt status_chg_cause_raw) ;;
  when_eq status_chg_cause_raw 0 "status_chg_cause" (VStr "SystemInitialization") ;;
  when_eq status_chg_cause_raw 1 "status_chg_cause" (VStr "HighInputVoltage") ;;
  when_eq status_chg_cause_raw 2 "status_chg_cause" (VStr "LowInputVoltage") ;;
  when_eq status_chg_cause_raw 3 "status_chg_cause" (VStr "DistortedInput") ;;
  when_eq status_chg_cause_raw 4 "status_chg_cause" (VStr "RapidChangeOfInputVoltage") ;;
  when_eq status_chg_cause_raw 5 "status_chg_cause" (VStr "HighInputFrequency") ;;
  when_eq status_chg_cause_raw 6 "status_chg_cause" (VStr "LowInputFrequency") ;;
  when_eq status_chg_cause_raw 7 "status_chg_cause" (VStr "FreqAndOrPhaseDifference") ;;
  when_eq status_chg_cause_raw 8 "status_chg_cause" (VStr "AcceptableInput") ;;
  when_eq status_chg_cause_raw 9 "status_chg_cause" (VStr "AutomaticTest") ;;
  when_eq status_chg_cause_raw 10 "status_chg_cause" (VStr "TestEnded") ;;
  when_eq status_chg_cause_raw 11 "status_chg_cause" (VStr "LocalUICommand") ;;
  when_eq status_chg_cause_raw 12 "status_chg_cause" (VStr "ProtocolCommand") ;;
  when_eq status_chg_cause_raw 13 "status_chg_cause" (VStr "LowBatteryVoltage") ;;
  when_eq status_chg_cause_raw 14 "status_chg_cause" (VStr "GeneralError") ;;
  when_eq status_chg_cause_raw 15 "status_chg_cause" (VStr "PowerSystemError") ;;
  when_eq status_chg_cause_raw 16 "status_chg_cause" (VStr "BatterySystemError") ;;
  when_eq status_chg_cause_raw 17 "status_chg_cause" (VStr "ErrorCleared") ;;
  when_eq status_chg_cause_raw 18 "status_chg_cause" (VStr "AutomaticRestart") ;;
  when_eq status_chg_cause_raw 19 "status_chg_cause" (VStr "DistortedInverterOutput") ;;
  when_eq status_chg_cause_raw 20 "status_chg_cause" (VStr "InverterOutputAcceptable") ;;
  when_eq status_chg_cause_raw 21 "status_chg_cause" (VStr "EPOInterface") ;;
  when_eq status_chg_cause_raw 22 "status_chg_cause" (VStr "InputPhaseDeltaOutOfRange") ;;
  when_eq status_chg_cause_raw 23 "status_chg_cause" (VStr "InputNeutralNotConnected") ;;
  when_eq status_chg_cause_raw 24 "status_chg_cause" (VStr "ATSTransfer") ;;
  when_eq status_chg_cause_raw 25 "status_chg_cause" (VStr "ConfigurationChange") ;;
  when_eq status_chg_cause_raw 26 "status_chg_cause" (VStr "AlertAsserted") ;;
  when_eq status_chg_cause_raw 27 "status_chg_cause" (VStr "AlertCleared") ;;
  when_eq status_chg_cause_raw 28 "status_chg_cause" (VStr "PlugRatingExceeded") ;;
  when_eq status_chg_cause_raw 29 "status_chg_cause" (VStr "OutletGroupStateChange") ;;
  when_eq status_chg_cause_raw 30 "status_chg_cause" (VStr "FailureBypassExpired").

(** [msg_id == 0x79] *)
Definition branch_0x79 (msg_data : list Z) : M dict unit :=
  setitem "temperature_2" (convert_from_bp (sl msg_data 4 6) 7 true) ;;
  setitem "humidity_pct" (convert_from_bp (sl msg_data 6 8) 9 false) ;;
  setitem "temperature_3" (convert_from_bp (sl msg_data 14 16) 7 true).

(** [msg_id == 0x7a] *)
Definition branch_0x7a (msg_data : list Z) : M dict unit :=
  setitem "humidity_pct_2" (convert_from_bp (sl msg_data 0 2) 9 false).

(** [msg_id == 0x7e] *)
Definition branch_0x7e (msg_data : list Z) : M dict unit :=
  setitem "password_1" (VBytes (sl msg_data 8 12)) ;;
  setitem "password_2" (VBytes (sl msg_data 12 16)).

(** ** [apcserial.py]: constants, connection state, the serial port *)

Definition APC_CMD_INIT : list Z := [0xF7; 0xFD].
Definition APC_CMD_BACK : list Z := [0xF7].
Definition APC_CMD_RESET : list Z := [0xFD].
Definition APC_CMD_NEXT : list Z := [0xFE].

Inductive CommState := INIT | INIT_RESET | MODE0 | MODE1.

Global Instance CommState_eq_dec : EqDecision CommState.
Proof. solve_decision. Defined.

(** The objects [next_apc_msg] can refer to.  [send_apc_msg] and [run]
    compare with [is] / [is not], that is by identity: the four
    module-level lists are four distinct objects, and a caller's frame
    is never one of them, whatever bytes it holds. *)
Inductive pyobj :=
| The_APC_CMD_INIT
| The_APC_CMD_BACK
| The_APC_CMD_RESET
| The_APC_CMD_NEXT
| Frame (frame : list Z)
| PyNone.

(** The bytes an object holds ([None] holds none). *)
Definition contents (o : pyobj) : option (list Z) :=
  match o with
  | The_APC_CMD_INIT => Some APC_CMD_INIT
  | The_APC_CMD_BACK => Some APC_CMD_BACK
  | The_APC_CMD_RESET => Some APC_CMD_RESET
  | The_APC_CMD_NEXT => Some APC_CMD_NEXT
  | Frame frame => Some frame
  | PyNone => None
  end.


(** [o is None] *)
Definition is_None (o : pyobj) : bool :=
  match o with PyNone => true | _ => false end.

(** The serial port, an external collaborator: [rx] lists what each
    coming receive window will deliver (nothing once it is exhausted),
    [tx] logs what was written, oldest first. *)
Record Serial := {
  rx : list (list Z);
  tx : list pyobj
}.

(** Attributes of an [ApcComm] instance ([ser] is [self.s]). *)
Record ApcComm := {
  ser : Serial;
  state : CommState;
  prev_state : CommState;
  next_apc_msg : pyobj;
  running : bool;
  ups_state : dict
}.

Definition set_ser (x : Serial) (a : ApcComm) : ApcComm :=
  {| ser := x; state := state a; prev_state := prev_state a;
     next_apc_msg := next_apc_msg a; running := running a;
     ups_state := ups_state a |}.
Definition set_state (x : CommState) (a : ApcComm) : ApcComm :=
  {| ser := ser a; state := x; prev_state := prev_state a;
     next_apc_msg := next_apc_msg a; running := running a;
     ups_state := ups_state a |}.
Definition set_prev_state (x : CommState) (a : ApcComm) : ApcComm :=
  {| ser := ser a; state := state a; prev_state := x;
     next_apc_msg := next_apc_msg a; running := running a;
     ups_state := ups_state a |}.
Definition set_next_apc_msg (x : pyobj) (a : ApcComm) : ApcComm :=
  {| ser := ser a; state := state a; prev_state := prev_state a;
     next_apc_msg := x; running := running a;
     ups_state := ups_state a |}.
Definition set_ups_state (x : dict) (a : ApcComm) : ApcComm :=
  {| ser := ser a; state := state a; prev_state := prev_state a;
     next_apc_msg := next_apc_msg a; running := running a;
     ups_state := x |}.

(** [ApcComm.__init__] *)
Definition ApcComm_new (serial_port : Serial) : ApcComm :=
  {| ser := serial_port; state := INIT; prev_state := INIT;
     next_apc_msg := The_APC_CMD_NEXT; running := true;
     ups_state := {[ "comm_state" := VStr "offline" ]} |}.

(** Code of the dictionary part, run on [self.ups_state]. *)
Definition on_ups_state {A} (c : M dict A) : M ApcComm A :=
  zoom ups_state set_ups_state c.

(** [self.s.write(o)] *)
Definition write (o : pyobj) : M ApcComm unit :=
  modify (fun a => set_ser {| rx := rx (ser a); tx := tx (ser a) ++ [o] |} a).

(** [ApcComm.receive_msg]: everything [self.s.read] delivers during one
    [APC_RCV_TIMEOUT] window, as one list. *)
Definition receive_msg : M ApcComm (list Z) :=
  fun a => match rx (ser a) with
           | [] => Ret [] a
           | data :: rest =>
               Ret data (set_ser {| rx := rest; tx := tx (ser a) |} a)
           end.

(** ** [apcserial.py]: checksum of a frame *)

(** [ApcComm.verify_msg_checksum] *)
Definition verify_msg_checksum (raw_msg : list Z) : bool :=
  let msg_chksum := Py.from_bytes_big (Py.slice raw_msg (-2) None) in
  let f8 := update FletcherBase Fletcher_new (sl raw_msg 0 (-2)) in
  let checksum := Z.shiftl (cb0 f8) 8 + cb1 f8 in
  if msg_chksum =? checksum then true else false.

(** [ApcComm.calc_checksum] *)
Definition calc_checksum (raw_msg : list Z) : Z :=
  let f8 := update FletcherBase Fletcher_new (sl raw_msg 0 15) in
  let checksum := Z.shiftl (cb0 f8) 8 + cb1 f8 in
  checksum.

(** [ApcComm.create_msg_data]; [msg_data] is a [bytearray]. *)
Definition create_msg_data (msg_id offset : Z) (msg_data : list Z)
  : Py.exn + list Z :=
  let length := Z.of_nat (length msg_data) in
  match Py.bytearray [msg_id; offset; length] with
  | inl e => inl e
  | inr head =>
      let raw_msg := head ++ msg_data in
      match Py.to_bytes_big 2 (calc_checksum raw_msg) with
      | inl e => inl e
      | inr chk => inr (raw_msg ++ chk)
      end
  end.

(** ** [apcserial.py]: the challenge *)

(** One round of the three [for] loops of [calculate_challenge]:
    [b0 = (b0 + x) % 255; b1 = (b1 + b0) % 255]. *)
Definition challenge_round (b : Z * Z) (x : Z) : Z * Z :=
  let b0 := (fst b + x) mod 255 in
  let b1 := (snd b + b0) mod 255 in
  (b0, b1).

(** The stored value as a byte sequence; the keys read by
    [calculate_challenge] are only ever assigned slices of [msg_data]. *)
Definition as_bytes (v : value) : M dict (list Z) :=
  match v with
  | VBytes b => ret b
  | _ => raise Py.TypeError
  end.

(** [ApcComm.calculate_challenge] *)
Definition calculate_challenge : M dict (list Z) :=
  v <- getitem "series_id_raw" ;; sid <- as_bytes v ;;
  b0 <- index sid 1 ;;
  v <- getitem "series_id_raw" ;; sid <- as_bytes v ;;
  b1 <- index sid 0 ;;
  v <- getitem "header_raw" ;; header_raw <- as_bytes v ;;
  let b := fold_left challenge_round header_raw (b0, b1) in
  v <- getitem "serial_nb_raw" ;; serial_nb_raw <- as_bytes v ;;
  let b := fold_left challenge_round serial_nb_raw b in
  v <- getitem "password_1" ;; password_1 <- as_bytes v ;;
  let b := fold_left challenge_round (sl password_1 0 2) b in
  lift_exn (Py.bytearray [1; 1; fst b; snd b]).

(** ** [apcserial.py]: [handle_apc_msg] *)

(** The [msg_id == 0x7f] branch.  The result says whether control falls
    through to the default behaviour ([true]) or leaves by the branch's
    own [return False] ([false]). *)
Definition branch_0x7f (msg_data : list Z) : M ApcComm bool :=
  on_ups_state (setitem "challenge_status" (VBytes (sl msg_data 14 16))) ;;
  st <- gets state ;;
  if decide (st = MODE0) then
    challenge <- on_ups_state calculate_challenge ;;
    challenge_msg <- lift_exn (create_msg_data 0x7e 12 challenge) ;;
    write (Frame challenge_msg) ;;
    rcv_data <- receive_msg ;;
    match rcv_data with
    | b :: _ =>
        if b =? 0x7e then modify (set_state MODE1) ;; ret true
        else ret false
    | [] => ret false
    end
  else ret true.

(** The [if msg_id == ... elif ...] chain, but for [0x7f]: these
    branches only touch [self.ups_state]. *)
Definition decode_fields (msg_id : Z) (msg_data : list Z) : M dict unit :=
  if msg_id =? 0x00 then branch_0x00 msg_data
  else if msg_id =? 0x40 then branch_0x40 msg_data
  else if msg_id =? 0x41 then branch_0x41 msg_data
  else if msg_id =? 0x42 then branch_0x42 msg_data
  else if msg_id =? 0x43 then branch_0x43 msg_data
  else if msg_id =? 0x44 then branch_0x44 msg_data
  else if msg_id =? 0x45 then branch_0x45 msg_data
  else if msg_id =? 0x46 then branch_0x46 msg_data
  else if msg_id =? 0x47 then branch_0x47 msg_data
  else if msg_id =? 0x48 then branch_0x48 msg_data
  else if msg_id =? 0x49 then branch_0x49 msg_data
  else if msg_id =? 0x4a then branch_0x4a msg_data
  else if msg_id =? 0x4b then branch_0x4b msg_data
  else if msg_id =? 0x4c then branch_0x4c msg_data
  else if msg_id =? 0x4d then branch_0x4d msg_data
  else if msg_id =? 0x4e then branch_0x4e msg_data
  else if msg_id =? 0x5c then branch_0x5c msg_data
  else if msg_id =? 0x6c then branch_0x6c msg_data
  else if msg_id =? 0x6d then branch_0x6d msg_data
  else if msg_id =? 0x6e then branch_0x6e msg_data
  else if msg_id =? 0x6f then branch_0x6f msg_data
  else if msg_id =? 0x70 then branch_0x70 msg_data
  else if msg_id =? 0x71 then branch_0x71 msg_data
  else if msg_id =? 0x72 then branch_0x72 msg_data
  else if msg_id =? 0x76 then branch_0x76 msg_data
  else if msg_id =? 0x79 then branch_0x79 msg_data
  else if msg_id =? 0x7a then branch_0x7a msg_data
  else if msg_id =? 0x7e then branch_0x7e msg_data
  else ret tt.

(** [ApcComm.handle_apc_msg]; [None] is Python's [None]. *)
Definition handle_apc_msg (raw_msg : option (list Z)) : M ApcComm bool :=
  match raw_msg with
  | Some ((_ :: _) as raw_msg) =>
      raw_msg <- lift_exn (Py.bytearray raw_msg) ;;
      msg_id <- index raw_msg 0 ;;
      let msg_data := sl raw_msg 1 (-2) in
      if negb (verify_msg_checksum raw_msg) then
        modify (set_next_apc_msg The_APC_CMD_BACK) ;;
        ret true
      else
        fall_through <-
          (if msg_id =? 0x7f then branch_0x7f msg_data
           else on_ups_state (decode_fields msg_id msg_data) ;; ret true) ;;
        if (fall_through : bool) then
          modify (set_next_apc_msg The_APC_CMD_NEXT) ;;
          ret true
        else ret false
  | _ =>
      modify (set_next_apc_msg The_APC_CMD_RESET) ;;
      ret false
  end.

(** ** [apcserial.py]: [run] and [send_apc_msg] *)

(** The [MODE1] branch up to and including the reset of the slot: the
    write, the receive and [if self.next_apc_msg is not None]. *)
Definition mode1_exchange : M ApcComm (list Z) :=
  o <- gets next_apc_msg ;;
  write o ;;
  rcv_data <- receive_msg ;;
  o <- gets next_apc_msg ;;
  (if negb (is_None o) then modify (set_next_apc_msg The_APC_CMD_NEXT)
   else ret tt) ;;
  ret rcv_data.

(** The rest of the [MODE1] branch. *)
Definition mode1_handle (rcv_data : list Z) : M ApcComm unit :=
  ok <- handle_apc_msg (Some rcv_data) ;;
  if negb ok then modify (set_state INIT) else ret tt.

(** The [if ... elif ...] on [self.state] in the loop of [run]. *)
Definition run_branch : M ApcComm unit :=
  st <- gets state ;;
  match st with
  | INIT =>
      write The_APC_CMD_INIT ;;
      rcv_data <- receive_msg ;;
      ok <- handle_apc_msg (Some rcv_data) ;;
      if negb ok then modify (set_state INIT_RESET)
      else modify (set_state MODE0)
  | INIT_RESET =>
      (* time.sleep(1) *)
      write The_APC_CMD_RESET ;;
      rcv_data <- receive_msg ;;
      ok <- handle_apc_msg (Some rcv_data) ;;
      if negb ok then modify (set_state INIT)
      else modify (set_state MODE0)
  | MODE0 =>
      o <- gets next_apc_msg ;;
      write o ;;
      rcv_data <- receive_msg ;;
      ok <- handle_apc_msg (Some rcv_data) ;;
      if negb ok then modify (set_state INIT) else ret tt
  | MODE1 =>
      rcv_data <- mode1_exchange ;;
      mode1_handle rcv_data
  end.

(** The end of the loop body: the [comm_state] bookkeeping. *)
Definition run_status : M ApcComm unit :=
  st <- gets state ;;
  pst <- gets prev_state ;;
  (if negb (bool_decide (st = pst)) then
     if bool_decide (st = MODE0) || bool_decide (st = MODE1)
     then on_ups_state (setitem "comm_state" (VStr "online"))
     else on_ups_state (setitem "comm_state" (VStr "offline"))
   else ret tt) ;;
  st <- gets state ;;
  modify (set_prev_state st).

(** One pass through the body of [while (self.running)]: a poll cycle. *)
Definition run_cycle : M ApcComm unit :=
  run_branch ;; run_status.

(** [ApcComm.run], for at most [fuel] cycles.  An exception ends the
    thread: no later cycle runs. *)
Fixpoint run (fuel : nat) : M ApcComm unit :=
  match fuel with
  | O => ret tt
  | S fuel' =>
      r <- gets running ;;
      if (r : bool) then run_cycle ;; run fuel' else ret tt
  end.

(** [send_apc_msg] runs in the caller's thread.  It either returns at
    once or starts to wait; while it waits it evaluates the condition
    of its [while] loop once per [APC_RCV_TIMEOUT]. *)
Inductive send_progress :=
| Returned (result : bool)
| Waiting.

(** [ApcComm.send_apc_msg] up to the [while] loop. *)
Definition send_apc_msg (raw_msg : pyobj) (a : ApcComm)
  : send_progress * ApcComm :=
  if negb (bool_decide (state a = MODE1)) then (Returned false, a)
  else (Waiting, set_next_apc_msg raw_msg a).


(** The state of an engine that ran normally, or [None] if it raised. *)
Definition final_state {A} (r : res ApcComm A) : option ApcComm :=
  match r with
  | Ret _ a => Some a
  | Raise _ _ => None
  end.

(** ** The specification's formulas, for comparison with the code *)

(** "[c0 = (c0 + byte) mod 255], [c1 = (c1 + c0) mod 255]", one byte. *)
Definition spec_accumulate (c : Z * Z) (byte : Z) : Z * Z :=
  let c0 := (fst c + byte) mod 255 in
  let c1 := (snd c + c0) mod 255 in
  (c0, c1).

(** "[cb0 = (255 - (c0 + c1) mod 255) mod 255]" *)
Definition spec_cb0 (c0 c1 : Z) : Z := (255 - (c0 + c1) mod 255) mod 255.

(** "[cb1 = (255 - (c0 + cb0) mod 255) mod 255]" *)
Definition spec_cb1 (c0 cb0 : Z) : Z := (255 - (c0 + cb0) mod 255) mod 255.

(** ** Concrete inputs *)

(** Identity fields as the decoders store them: series id [03 ed], the
    header bytes of a captured id-[0x00] message, the serial number
    quoted in [apcserial.py], and a four-byte password fragment. *)
Definition identity_example : dict :=
  <["series_id_raw" := VBytes [0x03; 0xed]]>
  (<["header_raw" := VBytes [0x0a; 0x10; 0x80; 0x03; 0xed; 0x07; 0x09; 0x00]]>
  (<["serial_nb_raw" :=
       VBytes [0x33; 0x53; 0x31; 0x36; 0x30; 0x37; 0x58; 0x30; 0x30; 0x35;
               0x38; 0x38; 0x20; 0x20]]>
  (<["password_1" := VBytes [0x12; 0x34; 0x56; 0x78]]>
  (ups_state (ApcComm_new {| rx := []; tx := [] |}))))).

(** The first sample with its check bytes [31 90], and the same frame
    with the last bit flipped. *)
Definition sample_1_frame : list Z := sample_1 ++ [0x31; 0x90].
Definition sample_1_corrupted : list Z := sample_1 ++ [0x31; 0x91].

(** An engine that has reached [MODE1] and holds [o] in its slot. *)
Definition engine_in_mode1 (port : Serial) (o : pyobj) : ApcComm :=
  {| ser := port; state := MODE1; prev_state := MODE1;
     next_apc_msg := o; running := true;
     ups_state := {[ "comm_state" := VStr "online" ]} |}.

(** A caller's frame: outlet command, id [0x71], offset 8. *)
Definition caller_frame : list Z := [0x71; 0x08; 0x02; 0x00; 0x01; 0x25; 0x5e].

(** ** Vocabulary for statements about poll cycles *)

(** The state a computation ends in, whether it returned or raised. *)
Definition res_state {S A} (r : res S A) : S :=
  match r with
  | Ret _ st => st
  | Raise _ st => st
  end.

(** What the next call of [receive_msg] will return. *)
Definition next_window (a : ApcComm) : list Z :=
  match rx (ser a) with
  | [] => []
  | data :: _ => data
  end.

(** Every coming receive returns an empty byte sequence. *)
Definition always_empty (p : Serial) : bool :=
  forallb (fun data => bool_decide (data = [])) (rx p).

(** What the cycle starting in [a] writes first. *)
Definition outgoing (a : ApcComm) : pyobj :=
  match state a with
  | INIT => The_APC_CMD_INIT
  | INIT_RESET => The_APC_CMD_RESET
  | MODE0 | MODE1 => next_apc_msg a
  end.

(** The engine after the write and the receive of a cycle (and, in
    [MODE1], the reset of the slot), before the response is handled. *)
Definition after_exchange (a : ApcComm) : ApcComm :=
  let a1 := set_ser {| rx := tail (rx (ser a));
                       tx := tx (ser a) ++ [outgoing a] |} a in
  match state a with
  | MODE1 => if is_None (next_apc_msg a) then a1
             else set_next_apc_msg The_APC_CMD_NEXT a1
  | _ => a1
  end.

(** The state update that follows [handle_apc_msg] in the branch of
    [run] for state [st]. *)
Definition settle (st : CommState) (ok : bool) (a : ApcComm) : ApcComm :=
  match st, ok with
  | INIT, false => set_state INIT_RESET a
  | INIT_RESET, false => set_state INIT a
  | (INIT | INIT_RESET), true => set_state MODE0 a
  | (MODE0 | MODE1), false => set_state INIT a
  | (MODE0 | MODE1), true => a
  end.

(** Where a cycle whose receive comes back empty leaves the state. *)
Definition bounce (st : CommState) : CommState :=
  match st with
  | INIT => INIT_RESET
  | _ => INIT
  end.

(** [a'] differs from [a] at most in [ups_state] and [next_apc_msg]. *)
Definition same_link (a a' : ApcComm) : Prop :=
  ser a' = ser a /\ state a' = state a /\ prev_state a' = prev_state a
  /\ running a' = running a.

(** ** Vocabulary for statements about the checksum *)

(** The plain sum of the bytes. *)
Definition byte_sum (bs : list Z) : Z := fold_right Z.add 0 bs.

(** ** [checksum/fletcherNbit.py]: the digests *)

(** [hex(n)]: lower-case digits, no leading zero, ["0x0"] for zero. *)
Definition hex (n : Z) : string :=
  if n <? 0
  then "-0x" +:+ HexadecimalString.NilZero.string_of_uint
                   (N.to_hex_uint (Z.to_N (- n)))
  else "0x" +:+ HexadecimalString.NilZero.string_of_uint
                  (N.to_hex_uint (Z.to_N n)).

(** [text[start:]] on a [str]. *)
Definition str_from (text : string) (start : Z) : string :=
  String.string_of_list_ascii (Py.slice (String.list_ascii_of_string text) start None).

(** [Fletcher.hexdigest] *)
Definition hexdigest (cls : FletcherClass) (f : Fletcher) : string :=
  let translated_number := hex (Z.shiftl (c1 f) (bitshift cls) + c0 f) in
  if Z.of_nat (String.length translated_number) mod 2 =? 0
  then "0x" +:+ str_from translated_number 2
  else "0x0" +:+ str_from translated_number 2.

(** [Fletcher.cb_hexdigest] *)
Definition cb_hexdigest (cls : FletcherClass) (f : Fletcher) : string :=
  let translated_number := hex (Z.shiftl (cb0 f) (bitshift cls) + cb1 f) in
  if Z.of_nat (String.length translated_number) mod 2 =? 0
  then "0x" +:+ str_from translated_number 2
  else "0x0" +:+ str_from translated_number 2.

(** The number a string of lower-case hexadecimal digits denotes. *)
Definition hex_value (digits : string) : option N :=
  N.of_hex_uint <$> HexadecimalString.NilEmpty.uint_of_string digits.

(** ** Vocabulary for statements about the decoders *)

(** A conditional assignment [ups_state[key] = v], done when [cond]. *)
Definition entry : Type := string * bool * value.

Definition apply_entry (e : entry) (d : dict) : dict :=
  if e.1.2 then <[e.1.1 := e.2]> d else d.

(** The dictionary after a list of assignments, the latest first. *)
Definition overlay (ov : list entry) (d : dict) : dict :=
  foldr apply_entry d ov.

(** The value the assignments leave under [key], if they set it. *)
Fixpoint last_value (ov : list entry) (key : string) : option value :=
  match ov with
  | [] => None
  | (k, c, v) :: rest =>
      if String.eqb k key
      then (if c then Some v else last_value rest key)
      else last_value rest key
  end.

(** The assignments of a branch taken only when [b]. *)
Definition guard (b : bool) (ov : list entry) : list entry :=
  map (fun e : entry => (e.1.1, b && e.1.2, e.2)) ov.

(** [l] with [name] appended when [b]. *)
Definition snoc_if (l : list string) (b : bool) (name : string) : list string :=
  l ++ (if b then [name] else []).

Definition outcome (r : option Py.exn) (d : dict) : res dict unit :=
  match r with
  | None => Ret tt d
  | Some e => Raise e d
  end.

(** Run after the assignments [pre], [c] does the assignments [post]
    and then returns ([r = None]) or raises ([r = Some e]), whatever
    the dictionary was before. *)
Definition step (pre : list entry) (c : M dict unit) (post : list entry)
    (r : option Py.exn) : Prop :=
  forall d, c (overlay pre d) = outcome r (overlay (post ++ pre) d).

(** Whether the decoder of [msg_id] gets through [msg_data]: the header
    needs its eight bytes, the strings must be UTF-8; the second halves
    [0x42] and [0x44] also depend on the state and are left out. *)
Definition decodable (msg_id : Z) (msg_data : list Z) : bool :=
  if msg_id =? 0x00 then Nat.leb 8 (length msg_data)
  else if msg_id =? 0x40 then utf8_valid (sl msg_data 0 14)
  else if (msg_id =? 0x41) || (msg_id =? 0x43) || (msg_id =? 0x48)
          || (msg_id =? 0x49) || (msg_id =? 0x4d)
       then utf8_valid msg_data
  else if (msg_id =? 0x45) || (msg_id =? 0x46)
       then utf8_valid (sl msg_data 0 8) && utf8_valid (Py.slice msg_data 8 None)
  else true.

(** The exception the decoder of [msg_id] raises when it does not get
    through. *)
Definition decode_error (msg_id : Z) : Py.exn :=
  if msg_id =? 0x00 then Py.IndexError else Py.UnicodeDecodeError.

(** The message ids [handle_apc_msg] has a branch for. *)
Definition known_ids : list Z :=
  [0x00; 0x40; 0x41; 0x42; 0x43; 0x44; 0x45; 0x46; 0x47; 0x48; 0x49; 0x4a;
   0x4b; 0x4c; 0x4d; 0x4e; 0x5c; 0x6c; 0x6d; 0x6e; 0x6f; 0x70; 0x71; 0x72;
   0x76; 0x79; 0x7a; 0x7e; 0x7f].

(** The names of the flags of [table] that are set in [raw], appended
    to [acc] in table order: a run of
    [if raw & mask == mask: ....append(name)]. *)
Definition flag_names (raw : Z) (table : list (Z * string))
    (acc : list string) : list string :=
  fold_left (fun l p => snoc_if l (Z.land raw p.1 =? p.1) p.2) table acc.

(** The frame a device sends for [msg_id] and [msg_data]: the body and
    the check bytes of the body. *)
Definition device_frame (msg_id : Z) (msg_data : list Z) : list Z :=
  let f8 := update FletcherBase Fletcher_new (msg_id :: msg_data) in
  (msg_id :: msg_data) ++ [cb0 f8; cb1 f8].

(** The text [run] stores under ["comm_state"] for a state. *)
Definition status_text (st : CommState) : string :=
  match st with
  | MODE0 | MODE1 => "online"
  | INIT | INIT_RESET => "offline"
  end.

(** ["comm_state"] says what [prev_state] stands for. *)
Definition comm_state_ok (a : ApcComm) : Prop :=
  ups_state a !! "comm_state" = Some (VStr (status_text (prev_state a))).

(** The four fields [calculate_challenge] reads. *)
Definition identity_keys : list string :=
  ["series_id_raw"; "header_raw"; "serial_nb_raw"; "password_1"].

(** ** Concrete inputs for the handshake and the command line *)

(** An engine in [MODE0] holding the fields [d], with keep-alive in
    its slot. *)
Definition engine_in_mode0 (port : Serial) (d : dict) : ApcComm :=
  {| ser := port; state := MODE0; prev_state := MODE0;
     next_apc_msg := The_APC_CMD_NEXT; running := true;
     ups_state := d |}.

(** A terminal message [0x7f] with sixteen zero bytes, followed by the
    device's answer to the challenge. *)
Definition handshake_port : Serial :=
  {| rx := [device_frame 0x7f (repeat 0 16); [0x7e; 0x00]]; tx := [] |}.

(** An engine about to run the handshake. *)
Definition handshake_engine : ApcComm :=
  engine_in_mode0 handshake_port identity_example.

(** ** [apcserial.py]: [convert_to_bp] and the command line [ApcCLI] *)

(** [ApcComm.convert_to_bp] for an [int] value and a non-negative
    fractional bit position, the way [do_set] calls it:
    [int(value * 2**frac_pos).to_bytes(2, byteorder='big')]. *)
Definition convert_to_bp (value : Z) (frac_pos : nat) : Py.exn + list Z :=
  Py.to_bytes_big 2 (value * 2 ^ Z.of_nat frac_pos).

(** [s.split(" ")]: cut at every single space; empty pieces are kept. *)
Fixpoint split_space (s : string) : list string :=
  match s with
  | EmptyString => [EmptyString]
  | String c s' =>
      if Ascii.eqb c " "%char then EmptyString :: split_space s'
      else match split_space s' with
           | piece :: pieces => String c piece :: pieces
           | [] => [String c EmptyString]
           end
  end.

(** Sequencing of calls that may raise. *)
Definition and_then {A B} (r : Py.exn + A) (k : A -> Py.exn + B)
  : Py.exn + B :=
  match r with
  | inl e => inl e
  | inr a => k a
  end.

(** [args[i]] *)
Definition arg_at (args : list string) (i : nat) : Py.exn + string :=
  match args !! i with
  | Some s => inr s
  | None => inl Py.IndexError
  end.

(** [v.to_bytes(length=n, byteorder='big', signed=False)] with a length
    that is itself a parsed integer. *)
Definition to_bytes_len (n v : Z) : Py.exn + list Z :=
  if n <? 0 then inl Py.ValueError else Py.to_bytes_big (Z.to_nat n) v.

(** The chain of [if args[1] == ...] under ['outlet_cmd']; [None] is the
    final [else].  The second test for ['CANCEL'] is kept as written. *)
Definition outlet_cmd (opt : string) : option Z :=
  if String.eqb opt "CANCEL" then Some (1 + 256)
  else if String.eqb opt "ON" then Some (0 + 2 + 32 + 256 + 16384)
  else if String.eqb opt "ON_DELAY" then Some (0 + 2 + 32 + 64 + 256 + 16384)
  else if String.eqb opt "OFF" then Some (0 + 4 + 256 + 16384)
  else if String.eqb opt "OFF_DELAY" then Some (0 + 4 + 128 + 256 + 16384)
  else if String.eqb opt "SHUTDOWN" then Some (0 + 8 + 256 + 16384)
  else if String.eqb opt "REBOOT" then Some (0 + 16 + 256 + 16384)
  else if String.eqb opt "CANCEL" then Some (1 + 256 + 16384)
  else None.

(** The chains that choose a two-byte payload by name. *)
Definition start_stop (opt : string) : option (list Z) :=
  if String.eqb opt "START" then Some [0x00; 0x01]
  else if String.eqb opt "STOP" then Some [0x00; 0x02]
  else None.

Definition ups_cmd (opt : string) : option (list Z) :=
  if String.eqb opt "RESET" then Some [0x00; 0x08] else None.

Definition user_interface_cmd (opt : string) : option (list Z) :=
  if String.eqb opt "SHORT_TEST" then Some [0x00; 0x01]
  else if String.eqb opt "CONT_TEST" then Some [0x00; 0x02]
  else if String.eqb opt "MUTE_ON" then Some [0x00; 0x04]
  else if String.eqb opt "MUTE_OFF" then Some [0x00; 0x08]
  else if String.eqb opt "ACK_ALARM" then Some [0x00; 0x20]
  else None.

(** [test_interval_choices] of the ['battery_test_interval'] branch. *)
Definition test_interval_choices : list string :=
  ["DISABLED"; "STARTUP"; "EACH 7 DAYS SINCE STARTUP";
   "EACH 14 DAYS SINCE STARTUP"; "EACH 7 DAYS SINCE LAST";
   "EACH 14 DAYS SINCE LAST"].

Section ApcCLI.

(** [int(s)] and [int(s, 16)] on a string: the parsed integer, or [None]
    where Python raises [ValueError]. *)
Variable int_of : string -> option Z.
Variable int_of_hex : string -> option Z.

Definition parse (p : string -> option Z) (s : string) : Py.exn + Z :=
  match p s with
  | Some v => inr v
  | None => inl Py.ValueError
  end.

(** A branch of [do_set] that picks its payload by name: the frame
    handed to [send_msg], or [None] after [print("Unknown option")]. *)
Definition send_choice (table : string -> option (list Z))
    (msg_id offset : Z) (args : list string)
  : Py.exn + option (list Z) :=
  and_then (arg_at args 1) (fun opt =>
  match table opt with
  | Some data =>
      and_then (create_msg_data msg_id offset data) (fun raw_msg =>
      inr (Some raw_msg))
  | None => inr None
  end).

(** [ApcCLI.do_set]: the frame it hands to [send_msg], [None] where it
    only prints, or the exception it raises.  What it prints is not
    followed. *)
Definition do_set (arg : string) : Py.exn + option (list Z) :=
  let args := split_space arg in
  and_then (arg_at args 0) (fun name =>
  if String.eqb name "runtime_limit_outletoff" then
    and_then (arg_at args 1) (fun text =>
    and_then (parse int_of text) (fun v =>
    and_then (convert_to_bp v 0) (fun data =>
    and_then (create_msg_data 0x4c 14 data) (fun raw_msg =>
    inr (Some raw_msg)))))
  else if String.eqb name "outlet_cmd" then
    and_then (arg_at args 1) (fun opt =>
    match outlet_cmd opt with
    | Some cmd =>
        and_then (Py.to_bytes_big 2 cmd) (fun cmd =>
        and_then (create_msg_data 0x71 0x08 cmd) (fun raw_msg =>
        inr (Some raw_msg)))
    | None => inr None
    end)
  else if String.eqb name "battery_replacetest_cmd" then
    send_choice start_stop 0x6d 4 args
  else if String.eqb name "runtime_calibration_cmd" then
    send_choice start_stop 0x6d 8 args
  else if String.eqb name "battery_test_interval" then
    and_then (arg_at args 1) (fun text =>
    and_then (parse int_of text) (fun val =>
    let choice :=
      if (0 <=? val) && (val <? Z.of_nat (length test_interval_choices))
      then val else 0 in
    and_then (Py.bytearray [0x00; 1 ^ choice]) (fun data =>
    and_then (create_msg_data 0x4a 0 data) (fun raw_msg =>
    inr (Some raw_msg)))))
  else if String.eqb name "ups_cmd" then
    send_choice ups_cmd 0x71 0 args
  else if String.eqb name "user_interface_cmd" then
    send_choice user_interface_cmd 0x6f 2 args
  else inr None).

(** [ApcCLI.do_write] *)
Definition do_write (arg : string) : Py.exn + option (list Z) :=
  let args := split_space arg in
  if Nat.eqb (length args) 4 then
    and_then (arg_at args 0) (fun a0 =>
    and_then (parse int_of_hex a0) (fun msg_id =>
    and_then (arg_at args 1) (fun a1 =>
    and_then (parse int_of_hex a1) (fun msg_offset =>
    and_then (arg_at args 2) (fun a2 =>
    and_then (parse int_of_hex a2) (fun msg_len =>
    and_then (arg_at args 3) (fun a3 =>
    and_then (parse int_of_hex a3) (fun v =>
    and_then (to_bytes_len msg_len v) (fun msg_data =>
    and_then (create_msg_data msg_id msg_offset msg_data) (fun raw_msg =>
    inr (Some raw_msg)))))))))))
  else inr None.

End ApcCLI.

(** [ApcCLI.send_msg]: what [send_apc_msg] answers for the frame. *)
Definition send_msg (raw_msg : list Z) (a : ApcComm)
  : send_progress * ApcComm :=
  send_apc_msg (Frame raw_msg) a.

(** [int(s)] on a non-empty string of ASCII decimal digits, and
    [int(s, 16)] on a non-empty string of lower-case hexadecimal digits: the part
    of Python's parser the examples need.  Outside it ([None] here)
    Python may still accept the string, with a sign or blanks. *)
Definition int_of_digits (s : string) : option Z :=
  match s with
  | EmptyString => None
  | _ => (fun u => Z.of_N (N.of_uint u)) <$> DecimalString.NilEmpty.uint_of_string s
  end.

Definition int_of_hex_digits (s : string) : option Z :=
  match s with
  | EmptyString => None
  | _ => Z.of_N <$> hex_value s
  end.

(** * Proofs *)

(** ** The monad *)

Lemma bind_Ret {S A B} (c : M S A) (k : A -> M S B) (st st' : S) (a : A) :
  c st = Ret a st' -> bind c k st = k a st'.
Proof. intros H. unfold bind. rewrite H. reflexivity. Qed.

Lemma bind_Raise {S A B} (c : M S A) (k : A -> M S B) (st st' : S) e :
  c st = Raise e st' -> bind c k st = Raise e st'.
Proof. intros H. unfold bind. rewrite H. reflexivity. Qed.

Lemma getitem_Some (d : dict) (key : string) (v : value) :
  d !! key = Some v -> getitem key d = Ret v d.
Proof. intros H. unfold getitem. rewrite H. reflexivity. Qed.

Lemma getitem_None (d : dict) (key : string) :
  d !! key = None -> getitem key d = Raise Py.KeyError d.
Proof. intros H. unfold getitem. rewrite H. reflexivity. Qed.

(** ** Bytes and slices *)

Lemma is_byte_true (b : Z) : Py.is_byte b = true <-> 0 <= b < 256.
Proof.
  unfold Py.is_byte. rewrite andb_true_iff, Z.leb_le, Z.ltb_lt. reflexivity.
Qed.

Lemma slice_single {A} (l : list A) (n : nat) (x : A) :
  l !! n = Some x ->
  Py.slice l (1 * Z.of_nat n) (Some (1 * (Z.of_nat n + 1))) = [x].
Proof.
  intros Hx. pose proof (lookup_lt_Some _ _ _ Hx) as Hlt.
  unfold Py.slice, Py.adjust_index.
  destruct (Z.ltb_spec (1 * Z.of_nat n) 0); [lia|].
  destruct (Z.ltb_spec (1 * (Z.of_nat n + 1)) 0); [lia|].
  replace (Z.to_nat _) with 1%nat by lia.
  replace (Z.to_nat _) with n by lia.
  rewrite (drop_S _ _ _ Hx). reflexivity.
Qed.

(** ** The checksum engine *)

Lemma update_body_base (pre suf : list Z) (x : Z) (f : Fletcher) :
  update_body FletcherBase (pre ++ x :: suf) f (Z.of_nat (length pre))
  = {| c0 := (c0 f + x) mod 255;
       c1 := (c1 f + (c0 f + x) mod 255) mod 255;
       cb0 := cb0 f; cb1 := cb1 f |}.
Proof.
  unfold update_body. cbn [bytes_read modulus FletcherBase].
  rewrite (slice_single _ _ x).
  - cbn [Py.from_bytes_little]. rewrite Z.mul_0_r, Z.add_0_r. reflexivity.
  - rewrite lookup_app_r by lia. rewrite Nat.sub_diag. reflexivity.
Qed.

Lemma update_loop_base (suf pre : list Z) (f : Fletcher) :
  let f' := fold_left (update_body FletcherBase (pre ++ suf))
                      (Z.of_nat <$> seq (length pre) (length suf)) f in
  (c0 f', c1 f') = fold_left spec_accumulate suf (c0 f, c1 f).
Proof.
  revert pre f. induction suf as [|x suf IH]; intros pre f; [reflexivity|].
  cbn [length seq fmap list_fmap fold_left].
  rewrite update_body_base.
  specialize (IH (pre ++ [x])). rewrite <- (assoc_L (++)) in IH.
  cbn [app] in IH. rewrite length_app in IH. cbn [length] in IH.
  replace (length pre + 1)%nat with (S (length pre)) in IH by lia.
  rewrite IH. reflexivity.
Qed.

Lemma iterations_base (bs : list Z) :
  Py.range ((Z.of_nat (length bs) - 1) / bytes_read FletcherBase + 1)
  = Z.of_nat <$> seq 0 (length bs).
Proof.
  unfold Py.range. cbn [bytes_read FletcherBase]. rewrite Z.div_1_r.
  replace (Z.to_nat _) with (length bs) by lia. reflexivity.
Qed.

(** [update] of the base class folds the two running sums over the
    bytes, one byte at a time. *)
Lemma update_sums (f : Fletcher) (bs : list Z) :
  (c0 (update FletcherBase f bs), c1 (update FletcherBase f bs))
  = fold_left spec_accumulate bs (c0 f, c1 f).
Proof.
  unfold update. rewrite iterations_base. cbn [c0 c1].
  apply (update_loop_base bs []).
Qed.

Lemma update_cb0 (f : Fletcher) (bs : list Z) :
  cb0 (update FletcherBase f bs)
  = 255 - (c0 (update FletcherBase f bs) + c1 (update FletcherBase f bs)) mod 255.
Proof. reflexivity. Qed.

Lemma update_cb1 (f : Fletcher) (bs : list Z) :
  cb1 (update FletcherBase f bs)
  = 255 - (c0 (update FletcherBase f bs) + cb0 (update FletcherBase f bs)) mod 255.
Proof. reflexivity. Qed.

Lemma update_cb_range (f : Fletcher) (bs : list Z) :
  1 <= cb0 (update FletcherBase f bs) <= 255
  /\ 1 <= cb1 (update FletcherBase f bs) <= 255.
Proof.
  rewrite update_cb1, update_cb0.
  split; match goal with |- context [?a mod 255] =>
    pose proof (Z.mod_pos_bound a 255 ltac:(lia)) end; lia.
Qed.

Lemma shiftl8_add_lor (hi lo : Z) :
  0 <= lo < 256 -> Z.shiftl hi 8 + lo = Z.lor (Z.shiftl hi 8) lo.
Proof.
  intros Hlo. symmetry. rewrite <- Z.add_nocarry_lor by
    (apply Z.bits_inj'; intros n Hn; rewrite Z.land_spec, Z.bits_0;
     destruct (Z.ltb_spec n 8);
     [ rewrite Z.shiftl_spec_low by lia; reflexivity
     | rewrite (Z.bits_above_log2 lo n), andb_false_r; [reflexivity|lia|];
       destruct (Z.eq_dec lo 0) as [->|]; [cbn; lia|];
       apply Z.lt_le_trans with 8; [apply Z.log2_lt_pow2; lia | lia] ]).
  reflexivity.
Qed.

(** C2 (amended): over any byte sequence and from any engine state,
    [update] accumulates [c0 = (c0 + byte) mod 255] and
    [c1 = (c1 + c0) mod 255] one byte at a time; its check bytes are
    [cb0 = 255 - (c0 + c1) mod 255] and [cb1 = 255 - (c0 + cb0) mod 255]
    with no outer reduction, so each lies in 1..255 and agrees with the
    specification's formula modulo 255 only; the embedded checksum
    [(cb0 << 8) + cb1] equals [(cb0 << 8) | cb1]. *)
Theorem update_check_bytes (f : Fletcher) (bs : list Z) :
  let f' := update FletcherBase f bs in
  (c0 f', c1 f') = fold_left spec_accumulate bs (c0 f, c1 f)
  /\ cb0 f' = 255 - (c0 f' + c1 f') mod 255
  /\ cb1 f' = 255 - (c0 f' + cb0 f') mod 255
  /\ 1 <= cb0 f' <= 255
  /\ 1 <= cb1 f' <= 255
  /\ spec_cb0 (c0 f') (c1 f') = cb0 f' mod 255
  /\ spec_cb1 (c0 f') (spec_cb0 (c0 f') (c1 f')) = cb1 f' mod 255
  /\ check_value FletcherBase f' = Z.lor (Z.shiftl (cb0 f') 8) (cb1 f').
Proof.
  intros f'. subst f'.
  pose proof (update_cb_range f bs) as [Hb0 Hb1].
  split; [apply update_sums|].
  split; [apply update_cb0|].
  split; [apply update_cb1|].
  split; [exact Hb0|]. split; [exact Hb1|].
  assert (Hs0 : spec_cb0 (c0 (update FletcherBase f bs))
                         (c1 (update FletcherBase f bs))
                = cb0 (update FletcherBase f bs) mod 255).
  { unfold spec_cb0. rewrite update_cb0. reflexivity. }
  split; [exact Hs0|].
  split.
  - rewrite Hs0. unfold spec_cb1. rewrite Z.add_mod_idemp_r by lia.
    rewrite update_cb1. reflexivity.
  - unfold check_value. cbn [bitshift FletcherBase].
    apply shiftl8_add_lor. lia.
Qed.

(** C2, counterexample: on the one-byte input [00] the sums are 0, the
    code's check bytes are 255 and 255 (checksum [0xFFFF]), while the
    formulas with the outer [mod 255] give 0 and 0. *)
Lemma update_check_bytes_counterexample :
  cb0 (update FletcherBase Fletcher_new [0x00]) = 255
  /\ spec_cb0 (c0 (update FletcherBase Fletcher_new [0x00]))
              (c1 (update FletcherBase Fletcher_new [0x00])) = 0
  /\ cb0 (update FletcherBase Fletcher_new [0x00])
     <> spec_cb0 (c0 (update FletcherBase Fletcher_new [0x00]))
                 (c1 (update FletcherBase Fletcher_new [0x00]))
  /\ cb1 (update FletcherBase Fletcher_new [0x00])
     <> spec_cb1 (c0 (update FletcherBase Fletcher_new [0x00]))
                 (cb0 (update FletcherBase Fletcher_new [0x00])).
Proof. vm_compute. repeat split; congruence. Qed.

(** C3: the three known vectors of [testFletcher.py] give check bytes
    [0x3190], [0x19a6] and [0x5eb8], combined as [(cb0 << 8) + cb1]. *)
Theorem known_vectors :
  sample_result sample_1 = 0x3190
  /\ sample_result sample_2 = 0x19a6
  /\ sample_result sample_13 = 0x5eb8.
Proof. vm_compute. repeat split; reflexivity. Qed.

(** ** The frame codec *)

Lemma slice_drop_last2 {A} (l : list A) (a b : A) :
  sl (l ++ [a; b]) 0 (-2) = l.
Proof.
  unfold Py.slice, Py.adjust_index. rewrite length_app. cbn [length].
  cbn [Z.ltb Z.compare].
  replace (Z.to_nat _) with (length l) by lia.
  replace (Z.to_nat _) with 0%nat by lia.
  cbn [drop]. apply take_app_length.
Qed.

Lemma slice_last2 {A} (l : list A) (a b : A) :
  Py.slice (l ++ [a; b]) (-2) None = [a; b].
Proof.
  unfold Py.slice, Py.adjust_index. rewrite length_app. cbn [length].
  cbn [Z.ltb Z.compare].
  replace (Z.to_nat (_ - _)) with 2%nat by lia.
  replace (Z.to_nat _) with (length l) by lia.
  rewrite drop_app_length. reflexivity.
Qed.

Lemma slice_between {A} (x : A) (l : list A) (a b : A) :
  sl (x :: l ++ [a; b]) 1 (-2) = l.
Proof.
  unfold Py.slice, Py.adjust_index. cbn [length]. rewrite length_app.
  cbn [length Z.ltb Z.compare].
  replace (Z.to_nat (_ - _)) with (length l) by lia.
  replace (Z.to_nat _) with 1%nat by lia.
  cbn [drop]. rewrite drop_0. apply take_app_length.
Qed.

Lemma slice_prefix_all {A} (l : list A) (n : Z) :
  Z.of_nat (length l) <= n -> sl l 0 n = l.
Proof.
  intros Hn. unfold Py.slice, Py.adjust_index. cbn [Z.ltb Z.compare].
  destruct (Z.ltb_spec n 0); [lia|].
  replace (Z.to_nat (_ - _)) with (length l) by lia.
  replace (Z.to_nat _) with 0%nat by lia.
  cbn [drop]. apply firstn_all.
Qed.

Lemma to_bytes_big_2 (hi lo : Z) :
  0 <= hi < 256 -> 0 <= lo < 256 ->
  Py.to_bytes_big 2 (Z.shiftl hi 8 + lo) = inr [hi; lo].
Proof.
  intros Hhi Hlo. unfold Py.to_bytes_big.
  rewrite Z.shiftl_mul_pow2 by lia. change (2 ^ 8) with 256.
  change (256 ^ Z.of_nat 2) with 65536.
  destruct (Z.leb_spec 0 (hi * 256 + lo)); [|lia].
  destruct (Z.ltb_spec (hi * 256 + lo) 65536); [|lia].
  cbn [andb Py.be_digits app]. f_equal.
  assert (Hq : (hi * 256 + lo) / 256 = hi).
  { rewrite Z.div_add_l by lia. rewrite (Z.div_small lo) by lia. lia. }
  rewrite Hq, (Z.mod_small hi) by lia.
  rewrite Z.add_comm, Z.mod_add by lia. rewrite Z.mod_small by lia.
  reflexivity.
Qed.

(** A frame that carries the check bytes of everything before them
    passes [verify_msg_checksum]. *)
Lemma verify_own_checksum (body : list Z) :
  let f8 := update FletcherBase Fletcher_new body in
  verify_msg_checksum (body ++ [cb0 f8; cb1 f8]) = true.
Proof.
  intros f8. unfold verify_msg_checksum.
  rewrite slice_last2, slice_drop_last2. fold f8.
  unfold Py.from_bytes_big. cbn [fold_left].
  rewrite Z.shiftl_mul_pow2 by lia. change (2 ^ 8) with 256.
  rewrite Z.eqb_refl. reflexivity.
Qed.

(** The captured frame verifies; with one bit flipped it does not. *)
Lemma sample_1_frame_verifies :
  verify_msg_checksum sample_1_frame = true
  /\ verify_msg_checksum sample_1_corrupted = false.
Proof. split; reflexivity. Qed.

(** What [create_msg_data] builds: the body [id, offset, length] +
    payload, followed by the check bytes of the first 15 body bytes. *)
Lemma create_msg_data_frame (msg_id offset : Z) (payload : list Z) :
  Py.is_byte msg_id = true -> Py.is_byte offset = true ->
  (length payload < 256)%nat ->
  let body := [msg_id; offset; Z.of_nat (length payload)] ++ payload in
  let f8 := update FletcherBase Fletcher_new (sl body 0 15) in
  create_msg_data msg_id offset payload = inr (body ++ [cb0 f8; cb1 f8]).
Proof.
  intros Hid Hoff Hlen body f8. unfold create_msg_data, Py.bytearray.
  cbn [forallb]. rewrite Hid, Hoff.
  assert (Hl : Py.is_byte (Z.of_nat (length payload)) = true)
    by (apply is_byte_true; lia).
  rewrite Hl. cbn [andb]. unfold calc_checksum. fold body. fold f8.
  pose proof (update_cb_range Fletcher_new (sl body 0 15)) as [Hb0 Hb1].
  fold f8 in Hb0, Hb1. rewrite to_bytes_big_2 by lia. reflexivity.
Qed.

(** The parts [handle_apc_msg] extracts from such a frame. *)
Lemma frame_parts (msg_id offset : Z) (payload : list Z) (hi lo : Z) :
  let frame :=
    ([msg_id; offset; Z.of_nat (length payload)] ++ payload) ++ [hi; lo] in
  frame !! 0%nat = Some msg_id
  /\ sl frame 1 (-2) = offset :: Z.of_nat (length payload) :: payload.
Proof.
  split; [reflexivity|].
  exact (slice_between msg_id
           (offset :: Z.of_nat (length payload) :: payload) hi lo).
Qed.

(** Round trip for payloads of at most 12 bytes, where the 15-byte
    window of [calc_checksum] covers the whole frame body. *)
Lemma create_msg_data_roundtrip_short (msg_id offset : Z) (payload : list Z) :
  Py.is_byte msg_id = true -> Py.is_byte offset = true ->
  (length payload <= 12)%nat ->
  exists frame,
    create_msg_data msg_id offset payload = inr frame
    /\ frame !! 0%nat = Some msg_id
    /\ sl frame 1 (-2) = offset :: Z.of_nat (length payload) :: payload
    /\ verify_msg_checksum frame = true.
Proof.
  intros Hid Hoff Hlen.
  rewrite (create_msg_data_frame msg_id offset payload Hid Hoff) by lia.
  rewrite slice_prefix_all by (rewrite length_app; cbn [length]; lia).
  eexists. split; [reflexivity|].
  split; [apply frame_parts|]. split; [apply frame_parts|].
  apply verify_own_checksum.
Qed.

(** C1: [create_msg_data] gives a 13-byte payload a checksum taken
    over the first 15 bytes of the 16-byte frame body only; the
    resulting frame still splits into its id, offset, length and
    payload, but [verify_msg_checksum], which sums the whole body,
    rejects it. *)
Theorem create_msg_data_long_payload_fails_verification :
  create_msg_data 0x4d 0 [0; 0; 0; 0; 0; 0; 0; 0; 0; 0; 0; 0; 1]
  = inr [0x4d; 0; 13; 0; 0; 0; 0; 0; 0; 0; 0; 0; 0; 0; 0; 1; 116; 49]
  /\ [0x4d; 0; 13; 0; 0; 0; 0; 0; 0; 0; 0; 0; 0; 0; 0; 1; 116; 49] !! 0%nat
     = Some 0x4d
  /\ sl [0x4d; 0; 13; 0; 0; 0; 0; 0; 0; 0; 0; 0; 0; 0; 0; 1; 116; 49] 1 (-2)
     = [0; 13; 0; 0; 0; 0; 0; 0; 0; 0; 0; 0; 0; 0; 1]
  /\ verify_msg_checksum
       [0x4d; 0; 13; 0; 0; 0; 0; 0; 0; 0; 0; 0; 0; 0; 0; 1; 116; 49] = false
  /\ calc_checksum [0x4d; 0; 13; 0; 0; 0; 0; 0; 0; 0; 0; 0; 0; 0; 0; 1]
     = check_value FletcherBase
         (update FletcherBase Fletcher_new
            [0x4d; 0; 13; 0; 0; 0; 0; 0; 0; 0; 0; 0; 0; 0; 0])
  /\ calc_checksum [0x4d; 0; 13; 0; 0; 0; 0; 0; 0; 0; 0; 0; 0; 0; 0; 1]
     <> check_value FletcherBase
          (update FletcherBase Fletcher_new
             [0x4d; 0; 13; 0; 0; 0; 0; 0; 0; 0; 0; 0; 0; 0; 0; 1]).
Proof. vm_compute. repeat split; congruence. Qed.

(** ** The challenge *)

Lemma slice_take {A} (l : list A) (n : nat) :
  sl l 0 (Z.of_nat n) = take n l.
Proof.
  unfold Py.slice, Py.adjust_index. cbn [Z.ltb Z.compare].
  destruct (Z.ltb_spec (Z.of_nat n) 0); [lia|].
  replace (Z.to_nat (Z.min (Z.of_nat (length l)) 0)) with 0%nat by lia.
  rewrite drop_0.
  destruct (Nat.le_gt_cases (length l) n).
  - replace (Z.to_nat _) with (length l) by lia.
    rewrite firstn_all. symmetry. apply firstn_all2. lia.
  - replace (Z.to_nat _) with n by lia. reflexivity.
Qed.

Lemma challenge_round_range (xs : list Z) (b : Z * Z) :
  0 <= fst b < 256 -> 0 <= snd b < 256 ->
  0 <= fst (fold_left challenge_round xs b) < 256
  /\ 0 <= snd (fold_left challenge_round xs b) < 256.
Proof.
  revert b. induction xs as [|x xs IH]; intros b H0 H1; [split; assumption|].
  cbn [fold_left]. apply IH; unfold challenge_round; cbn [fst snd];
    match goal with |- context [?a mod 255] =>
      pose proof (Z.mod_pos_bound a 255 ltac:(lia)) end; lia.
Qed.

(** C4: with the identity fields stored, [calculate_challenge] seeds
    [b0] with the second series-id byte and [b1] with the first, folds
    [b0 = (b0 + x) mod 255; b1 = (b1 + b0) mod 255] over the header
    bytes, then the serial-number bytes, then the first two password
    bytes, in that order, and returns [[0x01, 0x01, b0, b1]]; the state
    is unchanged.  (The lengths 8 and 14 play no role.) *)
Theorem calculate_challenge_spec
    (d : dict) (id0 id1 : Z) (header serial_nb password : list Z) :
  d !! "series_id_raw" = Some (VBytes [id0; id1]) ->
  d !! "header_raw" = Some (VBytes header) ->
  d !! "serial_nb_raw" = Some (VBytes serial_nb) ->
  d !! "password_1" = Some (VBytes password) ->
  Py.is_byte id0 = true -> Py.is_byte id1 = true ->
  calculate_challenge d
  = Ret [0x01; 0x01;
         fst (fold_left challenge_round
                (header ++ serial_nb ++ take 2 password) (id1, id0));
         snd (fold_left challenge_round
                (header ++ serial_nb ++ take 2 password) (id1, id0))] d.
Proof.
  intros Hid Hhdr Hser Hpw Hb0 Hb1.
  unfold calculate_challenge.
  rewrite (bind_Ret _ _ _ _ _ (getitem_Some _ _ _ Hid)).
  cbn [as_bytes bind ret index lookup list_lookup].
  rewrite (bind_Ret _ _ _ _ _ (getitem_Some _ _ _ Hid)).
  cbn [as_bytes bind ret index lookup list_lookup].
  rewrite (bind_Ret _ _ _ _ _ (getitem_Some _ _ _ Hhdr)).
  cbn [as_bytes bind ret].
  rewrite (bind_Ret _ _ _ _ _ (getitem_Some _ _ _ Hser)).
  cbn [as_bytes bind ret].
  rewrite (bind_Ret _ _ _ _ _ (getitem_Some _ _ _ Hpw)).
  cbn [as_bytes bind ret].
  change 2 with (Z.of_nat 2). rewrite slice_take.
  rewrite <- !fold_left_app.
  set (b := fold_left challenge_round _ _).
  apply is_byte_true in Hb0, Hb1.
  destruct (challenge_round_range (header ++ serial_nb ++ take 2 password)
              (id1, id0)) as [R0 R1]; [cbn [fst]; lia | cbn [snd]; lia |].
  fold b in R0, R1. apply is_byte_true in R0, R1.
  unfold lift_exn, Py.bytearray. cbn [forallb].
  rewrite R0, R1. reflexivity.
Qed.

(** C4, witness: the challenge for [identity_example] is [01 01 c3 a3]. *)
Lemma calculate_challenge_spec_witness :
  calculate_challenge identity_example
  = Ret [0x01; 0x01; 195; 163] identity_example.
Proof.
  apply (calculate_challenge_spec identity_example 0x03 0xed
           [0x0a; 0x10; 0x80; 0x03; 0xed; 0x07; 0x09; 0x00]
           [0x33; 0x53; 0x31; 0x36; 0x30; 0x37; 0x58; 0x30; 0x30; 0x35;
            0x38; 0x38; 0x20; 0x20]
           [0x12; 0x34; 0x56; 0x78]); reflexivity.
Defined.

(** ** [handle_apc_msg] *)

Lemma handle_apc_msg_None (a : ApcComm) :
  handle_apc_msg None a = Ret false (set_next_apc_msg The_APC_CMD_RESET a).
Proof. reflexivity. Qed.

Lemma handle_apc_msg_empty (a : ApcComm) :
  handle_apc_msg (Some []) a
  = Ret false (set_next_apc_msg The_APC_CMD_RESET a).
Proof. reflexivity. Qed.

Lemma handle_apc_msg_mismatch (raw_msg : list Z) (a : ApcComm) :
  raw_msg <> [] ->
  forallb Py.is_byte raw_msg = true ->
  verify_msg_checksum raw_msg = false ->
  handle_apc_msg (Some raw_msg) a
  = Ret true (set_next_apc_msg The_APC_CMD_BACK a).
Proof.
  intros Hne Hbytes Hbad. destruct raw_msg as [|x l]; [congruence|].
  unfold handle_apc_msg, Py.bytearray. rewrite Hbytes.
  cbn [lift_exn bind ret index lookup list_lookup].
  rewrite Hbad. reflexivity.
Qed.

Lemma on_ups_state_same_link {A} (c : M dict A) (a : ApcComm) :
  same_link a (res_state (on_ups_state c a))
  /\ next_apc_msg (res_state (on_ups_state c a)) = next_apc_msg a.
Proof.
  unfold on_ups_state, zoom, same_link.
  destruct (c (ups_state a)); cbn; auto.
Qed.

(** Outside [MODE0] a checksum-valid message only touches [ups_state]
    and the slot. *)
Lemma handle_apc_msg_valid (raw_msg : list Z) (a : ApcComm) :
  raw_msg <> [] ->
  forallb Py.is_byte raw_msg = true ->
  verify_msg_checksum raw_msg = true ->
  state a <> MODE0 ->
  same_link a (res_state (handle_apc_msg (Some raw_msg) a))
  /\ match handle_apc_msg (Some raw_msg) a with
     | Ret ok a' => ok = true /\ next_apc_msg a' = The_APC_CMD_NEXT
     | Raise _ a' => next_apc_msg a' = next_apc_msg a
     end.
Proof.
  intros Hne Hbytes Hok Hst. destruct raw_msg as [|x l]; [congruence|].
  unfold handle_apc_msg, Py.bytearray. rewrite Hbytes.
  cbn [lift_exn bind ret index lookup list_lookup].
  rewrite Hok. cbn [negb].
  destruct (x =? 127).
  - unfold branch_0x7f, on_ups_state, zoom, setitem, modify, bind, gets, ret.
    cbn [state set_ups_state ups_state].
    destruct (decide (state a = MODE0)); [contradiction|].
    unfold same_link. cbn. auto.
  - destruct (on_ups_state_same_link
                (decode_fields x (sl (x :: l) 1 (-2))) a) as [HL HN].
    unfold same_link in *. unfold bind, ret, modify.
    destruct (on_ups_state _ a) as [[] a'|e a']; cbn in *; tauto.
Qed.

(** Outside [MODE0], [handle_apc_msg] never writes, reads, or changes
    the connection state, whatever it is given. *)
Lemma handle_apc_msg_same_link (raw_msg : option (list Z)) (a : ApcComm) :
  state a <> MODE0 ->
  same_link a (res_state (handle_apc_msg raw_msg a)).
Proof.
  intros Hst. destruct raw_msg as [[|x l]|];
    [unfold same_link; cbn; auto | | unfold same_link; cbn; auto].
  destruct (forallb Py.is_byte (x :: l)) eqn:Hbytes.
  - destruct (verify_msg_checksum (x :: l)) eqn:Hv.
    + apply handle_apc_msg_valid; [discriminate|assumption..].
    + rewrite handle_apc_msg_mismatch by (discriminate || assumption).
      unfold same_link; cbn; auto.
  - unfold handle_apc_msg, Py.bytearray. rewrite Hbytes.
    unfold same_link; cbn; auto.
Qed.

(** ** One poll cycle *)

Lemma run_status_spec (a : ApcComm) :
  exists d, run_status a
  = Ret tt (set_prev_state (state a) (set_ups_state d a)).
Proof.
  unfold run_status, bind, gets, modify, ret.
  destruct (negb (bool_decide (state a = prev_state a))).
  - destruct (bool_decide (state a = MODE0) || bool_decide (state a = MODE1));
      unfold on_ups_state, zoom, setitem, modify; eexists; reflexivity.
  - exists (ups_state a). destruct a; reflexivity.
Qed.

Lemma write_receive {B} (o : pyobj) (k : list Z -> M ApcComm B) (a : ApcComm) :
  (write o ;; rcv_data <- receive_msg ;; k rcv_data) a
  = k (next_window a)
      (set_ser {| rx := tail (rx (ser a)); tx := tx (ser a) ++ [o] |} a).
Proof.
  unfold bind, write, modify, receive_msg, next_window.
  destruct a as [[r t] ? ? ? ? ?]. cbn. destruct r; reflexivity.
Qed.

Lemma mode1_exchange_spec (a : ApcComm) :
  state a = MODE1 ->
  mode1_exchange a = Ret (next_window a) (after_exchange a).
Proof.
  intros Hst. unfold mode1_exchange, after_exchange, outgoing. rewrite Hst.
  unfold bind at 1. unfold gets at 1. rewrite write_receive.
  unfold bind, gets, modify, ret. cbn [next_apc_msg set_ser].
  destruct (is_None (next_apc_msg a)); reflexivity.
Qed.

(** The branch of [run] for the current state: the exchange, then
    [handle_apc_msg], then the state update. *)
Lemma run_branch_spec (a : ApcComm) :
  run_branch a
  = match handle_apc_msg (Some (next_window a)) (after_exchange a) with
    | Ret ok a' => Ret tt (settle (state a) ok a')
    | Raise e a' => Raise e a'
    end.
Proof.
  unfold run_branch. unfold bind at 1. unfold gets at 1.
  destruct (state a) eqn:Hst.
  - rewrite write_receive. unfold after_exchange, outgoing. rewrite Hst.
    unfold bind, modify. destruct (handle_apc_msg _ _) as [[] ?|]; reflexivity.
  - rewrite write_receive. unfold after_exchange, outgoing. rewrite Hst.
    unfold bind, modify. destruct (handle_apc_msg _ _) as [[] ?|]; reflexivity.
  - unfold bind at 1. unfold gets at 1. rewrite write_receive.
    unfold after_exchange, outgoing. rewrite Hst.
    unfold bind, modify, ret. destruct (handle_apc_msg _ _) as [[] ?|]; reflexivity.
  - unfold bind at 1. rewrite (mode1_exchange_spec a Hst).
    unfold mode1_handle, bind, modify, ret.
    destruct (handle_apc_msg _ _) as [[] ?|]; reflexivity.
Qed.

Lemma run_cycle_spec (a : ApcComm) :
  match handle_apc_msg (Some (next_window a)) (after_exchange a) with
  | Ret ok a' =>
      exists d, run_cycle a
      = Ret tt (set_prev_state (state (settle (state a) ok a'))
                  (set_ups_state d (settle (state a) ok a')))
  | Raise e a' => run_cycle a = Raise e a'
  end.
Proof.
  unfold run_cycle. unfold bind. rewrite run_branch_spec.
  destruct (handle_apc_msg _ _) as [ok a'|e a']; [|reflexivity].
  destruct (run_status_spec (settle (state a) ok a')) as [d ->].
  exists d. reflexivity.
Qed.

Lemma after_exchange_link (a : ApcComm) :
  state (after_exchange a) = state a
  /\ running (after_exchange a) = running a
  /\ rx (ser (after_exchange a)) = tail (rx (ser a))
  /\ tx (ser (after_exchange a)) = tx (ser a) ++ [outgoing a].
Proof.
  unfold after_exchange.
  destruct (state a) eqn:Hst; try destruct (is_None (next_apc_msg a));
    cbn; auto.
Qed.

(** A cycle whose receive comes back empty. *)
Lemma run_cycle_empty (a : ApcComm) :
  next_window a = [] ->
  exists a', run_cycle a = Ret tt a'
    /\ state a' = bounce (state a)
    /\ next_apc_msg a' = The_APC_CMD_RESET
    /\ running a' = running a
    /\ rx (ser a') = tail (rx (ser a))
    /\ tx (ser a') = tx (ser a) ++ [outgoing a].
Proof.
  intros Hw. pose proof (run_cycle_spec a) as H.
  rewrite Hw, handle_apc_msg_empty in H. destruct H as [d ->].
  destruct (after_exchange_link a) as (Hs & Hr & Hrx & Htx).
  eexists. split; [reflexivity|].
  destruct (state a); cbn; rewrite ?Hr, ?Hrx, ?Htx; auto.
Qed.

(** A cycle whose response is present but fails the checksum. *)
Lemma run_cycle_mismatch (a : ApcComm) :
  next_window a <> [] ->
  forallb Py.is_byte (next_window a) = true ->
  verify_msg_checksum (next_window a) = false ->
  exists a', run_cycle a = Ret tt a'
    /\ state a' = match state a with
                  | INIT | INIT_RESET => MODE0
                  | st => st
                  end
    /\ next_apc_msg a' = The_APC_CMD_BACK.
Proof.
  intros Hne Hb Hv. pose proof (run_cycle_spec a) as H.
  rewrite (handle_apc_msg_mismatch _ _ Hne Hb Hv) in H. destruct H as [d ->].
  destruct (after_exchange_link a) as (Hs & _).
  eexists. split; [reflexivity|].
  destruct (state a) eqn:E; cbn; rewrite ?Hs; auto.
Qed.

(** ** Claims on the poll cycle *)




(** C6 (amended): [handle_apc_msg] returns failure on [None] and on an
    empty buffer, queueing the reset control byte; on a non-empty
    buffer whose checksum verification fails it queues the back control
    byte and returns success.  A cycle with an empty response therefore
    moves the state machine to [INIT] (to [INIT_RESET] from [INIT]); a
    cycle with a checksum mismatch never resets it and leaves [MODE0]
    and [MODE1] unchanged, but from [INIT] and [INIT_RESET] the success
    return advances it to [MODE0]. *)
Theorem handle_apc_msg_invalid_responses (raw_msg : list Z) (a : ApcComm) :
  raw_msg <> [] ->
  forallb Py.is_byte raw_msg = true ->
  verify_msg_checksum raw_msg = false ->
  handle_apc_msg None a = Ret false (set_next_apc_msg The_APC_CMD_RESET a)
  /\ handle_apc_msg (Some []) a
     = Ret false (set_next_apc_msg The_APC_CMD_RESET a)
  /\ handle_apc_msg (Some raw_msg) a
     = Ret true (set_next_apc_msg The_APC_CMD_BACK a)
  /\ (next_window a = [] ->
      exists a', run_cycle a = Ret tt a'
        /\ next_apc_msg a' = The_APC_CMD_RESET
        /\ state a' = match state a with
                      | INIT => INIT_RESET
                      | _ => INIT
                      end)
  /\ (next_window a = raw_msg ->
      exists a', run_cycle a = Ret tt a'
        /\ next_apc_msg a' = The_APC_CMD_BACK
        /\ state a' = match state a with
                      | INIT | INIT_RESET => MODE0
                      | st => st
                      end).
Proof.
  intros Hne Hb Hv.
  split; [apply handle_apc_msg_None|].
  split; [apply handle_apc_msg_empty|].
  split; [apply handle_apc_msg_mismatch; assumption|].
  split.
  - intros Hw. destruct (run_cycle_empty a Hw) as (a' & -> & Hs & Hn & _).
    exists a'. auto.
  - intros Hw. rewrite <- Hw in Hne, Hb, Hv.
    destruct (run_cycle_mismatch a Hne Hb Hv) as (a' & -> & Hs & Hn).
    exists a'. auto.
Qed.

(** C6, witness: the corrupted sample handed to a fresh engine. *)
Lemma handle_apc_msg_invalid_responses_witness :
  handle_apc_msg (Some sample_1_corrupted)
    (ApcComm_new {| rx := [sample_1_corrupted]; tx := [] |})
  = Ret true (set_next_apc_msg The_APC_CMD_BACK
                (ApcComm_new {| rx := [sample_1_corrupted]; tx := [] |})).
Proof.
  apply (handle_apc_msg_invalid_responses sample_1_corrupted
           (ApcComm_new {| rx := [sample_1_corrupted]; tx := [] |}));
    [discriminate | reflexivity | reflexivity].
Defined.

(** C6, counterexample: in [INIT], a response that is the first sample
    frame with one checksum bit flipped fails verification, yet the
    cycle advances the state machine to [MODE0]; likewise from
    [INIT_RESET]. *)
Lemma checksum_mismatch_advances_counterexample :
  verify_msg_checksum sample_1_corrupted = false
  /\ state <$> final_state
       (run_cycle (ApcComm_new {| rx := [sample_1_corrupted]; tx := [] |}))
     = Some MODE0
  /\ state <$> final_state
       (run_cycle (set_state INIT_RESET
          (ApcComm_new {| rx := [sample_1_corrupted]; tx := [] |})))
     = Some MODE0
  /\ INIT <> MODE0.
Proof. vm_compute. repeat split; congruence. Qed.

(** ** Runs with an all-empty transport *)

Lemma always_empty_window (a : ApcComm) :
  always_empty (ser a) = true -> next_window a = [].
Proof.
  unfold always_empty, next_window. destruct (rx (ser a)) as [|d r]; [reflexivity|].
  cbn [forallb]. intros [Hd _]%andb_true_iff.
  apply bool_decide_eq_true in Hd. exact Hd.
Qed.

Lemma always_empty_tail (p p' : Serial) :
  always_empty p = true -> rx p' = tail (rx p) -> always_empty p' = true.
Proof.
  unfold always_empty. intros H ->. destruct (rx p) as [|d r]; [reflexivity|].
  cbn [forallb] in H. apply andb_true_iff in H as [_ H]. exact H.
Qed.

Lemma run_all_empty (n : nat) (a : ApcComm) :
  running a = true ->
  always_empty (ser a) = true ->
  exists a', run n a = Ret tt a'
    /\ state a' = Nat.iter n bounce (state a)
    /\ (n <> 0%nat -> next_apc_msg a' = The_APC_CMD_RESET)
    /\ (n <> 0%nat -> exists more, tx (ser a') = tx (ser a) ++ outgoing a :: more).
Proof.
  revert a. induction n as [|n IH]; intros a Hrun Hemp.
  - exists a. cbn. repeat split; congruence.
  - cbn [run]. unfold bind at 1. unfold gets at 1. rewrite Hrun.
    destruct (run_cycle_empty a (always_empty_window a Hemp))
      as (a1 & E1 & Hs1 & Hn1 & Hr1 & Hrx1 & Htx1).
    unfold bind. rewrite E1.
    destruct (IH a1) as (a' & E' & Hs' & Hn' & Htx').
    { congruence. }
    { exact (always_empty_tail _ _ Hemp Hrx1). }
    exists a'. split; [exact E'|]. split.
    { rewrite Hs', Hs1. symmetry. apply Nat.iter_succ_r. }
    split; intros _.
    + destruct n; [|apply Hn'; discriminate].
      cbn in E'. injection E' as <-. exact Hn1.
    + destruct n.
      * cbn in E'. injection E' as <-. exists []. exact Htx1.
      * destruct Htx' as [more Hm]; [discriminate|].
        rewrite Hm, Htx1, <- (assoc_L (++)). cbn [app]. eauto.
Qed.

Lemma iter_bounce_INIT (n : nat) :
  Nat.iter n bounce INIT = if Nat.even n then INIT else INIT_RESET.
Proof.
  induction n as [|n IH]; [reflexivity|].
  rewrite Nat.even_succ, <- Nat.negb_even, Nat.iter_succ, IH.
  destruct (Nat.even n); reflexivity.
Qed.


(** C7: started in [INIT] with a transport whose every receive is
    empty, the engine is in [INIT_RESET] after one cycle and alternates
    between [INIT_RESET] and [INIT] from then on: after [n] cycles it
    is in [INIT] for even [n] and in [INIT_RESET] for odd [n], and so
    never in [MODE0] or [MODE1]. *)
Theorem all_empty_oscillates (n : nat) (a : ApcComm) :
  state a = INIT ->
  running a = true ->
  always_empty (ser a) = true ->
  exists a', run n a = Ret tt a'
    /\ state a' = (if Nat.even n then INIT else INIT_RESET)
    /\ state a' <> MODE0 /\ state a' <> MODE1.
Proof.
  intros Hst Hrun Hemp.
  destruct (run_all_empty n a Hrun Hemp) as (a' & E & Hs & _).
  exists a'. split; [exact E|].
  rewrite Hst, iter_bounce_INIT in Hs. rewrite Hs.
  destruct (Nat.even n); repeat split; discriminate.
Qed.

(** C7, witness: five cycles of a fresh engine on a silent line. *)
Lemma all_empty_oscillates_witness :
  exists a', run 5 (ApcComm_new {| rx := [[]; []; []]; tx := [] |}) = Ret tt a'
    /\ state a' = INIT_RESET
    /\ state a' <> MODE0 /\ state a' <> MODE1.
Proof.
  apply (all_empty_oscillates 5 (ApcComm_new {| rx := [[]; []; []]; tx := [] |}));
    reflexivity.
Defined.

(** ** The command mailbox *)

(** Outside [MODE0] a cycle writes exactly one object, [outgoing a],
    whether it completes or raises. *)
Lemma run_cycle_tx (a : ApcComm) :
  state a <> MODE0 ->
  tx (ser (res_state (run_cycle a))) = tx (ser a) ++ [outgoing a].
Proof.
  intros Hst. pose proof (run_cycle_spec a) as H.
  destruct (after_exchange_link a) as (Hs & _ & _ & Htx).
  pose proof (handle_apc_msg_same_link (Some (next_window a))
                (after_exchange a)) as HL.
  destruct (handle_apc_msg _ _) as [ok a'|e a'].
  - destruct H as [d ->]. destruct HL as (Hser & _); [congruence|].
    cbn in Hser |- *. rewrite <- Htx, <- Hser.
    destruct (state a), ok; reflexivity.
  - rewrite H. destruct HL as (Hser & _); [congruence|].
    cbn in Hser |- *. rewrite Hser. exact Htx.
Qed.

(** C8: called in any state but [MODE1], [send_apc_msg] returns [False]
    at once and leaves the engine, pending-command slot included,
    exactly as it was; only in [MODE1] does it store the frame in the
    slot, and the next cycle then writes that frame and nothing else. *)
Theorem send_apc_msg_mailbox (raw_msg : pyobj) (a : ApcComm) :
  (state a <> MODE1 -> send_apc_msg raw_msg a = (Returned false, a))
  /\ (state a = MODE1 ->
      send_apc_msg raw_msg a = (Waiting, set_next_apc_msg raw_msg a)
      /\ next_apc_msg (snd (send_apc_msg raw_msg a)) = raw_msg
      /\ tx (ser (res_state (run_cycle (snd (send_apc_msg raw_msg a)))))
         = tx (ser a) ++ [raw_msg]).
Proof.
  unfold send_apc_msg. split; intros Hst.
  - rewrite bool_decide_eq_false_2 by exact Hst. reflexivity.
  - rewrite bool_decide_eq_true_2 by exact Hst. cbn [negb snd].
    split; [reflexivity|]. split; [reflexivity|].
    rewrite run_cycle_tx by (cbn; congruence).
    unfold outgoing. cbn. rewrite Hst. reflexivity.
Qed.

(** C8, witness: a submission to a fresh engine (in [INIT]) and one to
    an engine in [MODE1]. *)
Lemma send_apc_msg_mailbox_witness :
  send_apc_msg (Frame caller_frame) (ApcComm_new {| rx := []; tx := [] |})
  = (Returned false, ApcComm_new {| rx := []; tx := [] |})
  /\ tx (ser (res_state (run_cycle (snd (send_apc_msg (Frame caller_frame)
            (engine_in_mode1 {| rx := []; tx := [] |} The_APC_CMD_NEXT))))))
     = [Frame caller_frame].
Proof.
  split.
  - apply (proj1 (send_apc_msg_mailbox (Frame caller_frame)
                    (ApcComm_new {| rx := []; tx := [] |}))).
    vm_compute. discriminate.
  - apply (proj2 (send_apc_msg_mailbox (Frame caller_frame)
                    (engine_in_mode1 {| rx := []; tx := [] |}
                       The_APC_CMD_NEXT))).
    reflexivity.
Defined.

(** ** Totality of the decoder *)

(** The id-[0x00] decoder indexes [msg_data[0]] ... [msg_data[7]]: on
    any shorter payload it raises. *)
Lemma branch_0x00_short_payload (msg_data : list Z) (d : dict) :
  (length msg_data < 8)%nat ->
  exists d', branch_0x00 msg_data d = Raise Py.IndexError d'.
Proof.
  intros Hlen.
  do 8 (destruct msg_data as [|? msg_data]; [eexists; reflexivity|]).
  cbn [length] in Hlen. lia.
Qed.

(** C9: [handle_apc_msg] is not total on checksum-valid buffers.  The
    frame [00 ff ff] (id [0x00], empty payload) passes verification and
    the decoder raises [IndexError] at [msg_data[0]]; the frame
    [42 7b 42] (id [0x42], second half of the UPS name) passes
    verification and, on an engine that has not seen id [0x41], the
    decoder raises [KeyError] at [self.ups_state['ups_type'] += ...].
    In both cases nothing was returned and nothing was changed. *)
Theorem handle_apc_msg_not_total (port : Serial) (a : ApcComm) :
  verify_msg_checksum [0x00; 0xff; 0xff] = true
  /\ handle_apc_msg (Some [0x00; 0xff; 0xff]) a = Raise Py.IndexError a
  /\ verify_msg_checksum [0x42; 0x7b; 0x42] = true
  /\ handle_apc_msg (Some [0x42; 0x7b; 0x42]) (ApcComm_new port)
     = Raise Py.KeyError (ApcComm_new port).
Proof.
  split; [reflexivity|]. split; [destruct a; reflexivity|].
  split; reflexivity.
Qed.

(** ** A caller left waiting *)



(** * Further properties of the code *)

(** ** More on slices *)

Lemma slice_nonneg {A} (l : list A) (a b : Z) :
  0 <= a -> 0 <= b ->
  sl l a b = take (Z.to_nat b - Z.to_nat a) (drop (Z.to_nat a) l).
Proof.
  intros Ha Hb. unfold Py.slice, Py.adjust_index.
  destruct (Z.ltb_spec a 0); [lia|]. destruct (Z.ltb_spec b 0); [lia|].
  destruct (Z.le_gt_cases (Z.of_nat (length l)) a) as [Hge|Hlt].
  - rewrite !drop_ge by lia. rewrite !take_nil. reflexivity.
  - replace (Z.to_nat (Z.min (Z.of_nat (length l)) a)) with (Z.to_nat a) by lia.
    destruct (Z.le_gt_cases b (Z.of_nat (length l))).
    + f_equal. lia.
    + rewrite !take_ge by (rewrite length_drop; lia). reflexivity.
Qed.

(** ** The checksum engine, any class *)

Lemma update_body_sums (cls : FletcherClass) (bs : list Z) (f g : Fletcher) (i : Z) :
  c0 f = c0 g -> c1 f = c1 g ->
  c0 (update_body cls bs f i) = c0 (update_body cls bs g i)
  /\ c1 (update_body cls bs f i) = c1 (update_body cls bs g i).
Proof. intros H0 H1. unfold update_body. cbn [c0 c1]. rewrite H0, H1. auto. Qed.

Lemma update_loop_sums (cls : FletcherClass) (bs : list Z) (ixs : list Z)
    (f g : Fletcher) :
  c0 f = c0 g -> c1 f = c1 g ->
  c0 (fold_left (update_body cls bs) ixs f)
  = c0 (fold_left (update_body cls bs) ixs g)
  /\ c1 (fold_left (update_body cls bs) ixs f)
     = c1 (fold_left (update_body cls bs) ixs g).
Proof.
  revert f g. induction ixs as [|i ixs IH]; intros f g H0 H1; [auto|].
  cbn [fold_left]. apply IH; apply update_body_sums; assumption.
Qed.

Lemma update_loop_ext (cls : FletcherClass) (bs bs' : list Z) (ixs ixs' : list Z)
    (f : Fletcher) :
  Forall2 (fun i i' =>
     Py.slice bs (bytes_read cls * i) (Some (bytes_read cls * (i + 1)))
     = Py.slice bs' (bytes_read cls * i') (Some (bytes_read cls * (i' + 1))))
    ixs ixs' ->
  fold_left (update_body cls bs) ixs f = fold_left (update_body cls bs') ixs' f.
Proof.
  intros H. revert f. induction H as [|i i' ixs ixs' Hi _ IH]; intros f; [reflexivity|].
  cbn [fold_left]. rewrite <- IH. f_equal. unfold update_body. rewrite Hi.
  reflexivity.
Qed.

Lemma range_add (q r : nat) :
  Py.range (Z.of_nat q + Z.of_nat r)
  = Py.range (Z.of_nat q) ++ ((fun j => Z.of_nat q + j) <$> Py.range (Z.of_nat r)).
Proof.
  unfold Py.range. rewrite <- Nat2Z.inj_add, !Nat2Z.id, seq_app, fmap_app.
  f_equal. rewrite <- list_fmap_compose. cbn [plus].
  replace q with (q + 0)%nat at 1 by lia.
  rewrite <- (fmap_add_seq q 0 r), <- list_fmap_compose.
  apply list_fmap_ext. intros _ j _. cbn. lia.
Qed.

Lemma iterations_aligned (k : Z) (q : nat) (n : Z) :
  0 < k -> (k * Z.of_nat q + n - 1) / k + 1 = Z.of_nat q + ((n - 1) / k + 1).
Proof.
  intros Hk. replace (k * Z.of_nat q + n - 1) with (Z.of_nat q * k + (n - 1)) by lia.
  rewrite Z.div_add_l by lia. lia.
Qed.

Lemma iterations_nat (k n : Z) :
  0 < k -> 0 <= n -> 0 <= (n - 1) / k + 1.
Proof.
  intros Hk Hn. destruct (Z.eq_dec n 0) as [->|].
  - assert ((0 - 1) / k = -1); [|lia].
    symmetry. apply (Z.div_unique_pos (0 - 1) k (-1) (k - 1)); lia.
  - assert (0 <= (n - 1) / k) by (apply Z.div_pos; lia). lia.
Qed.

(** X1: [update] is incremental across a split that falls on a chunk
    boundary: feeding [a] and then [b] is feeding [a ++ b]. *)
Theorem update_incremental (cls : FletcherClass) (f : Fletcher) (a b : list Z) :
  0 < bytes_read cls ->
  (bytes_read cls | Z.of_nat (length a)) ->
  update cls (update cls f a) b = update cls f (a ++ b).
Proof.
  intros Hk [q Hq]. set (k := bytes_read cls) in *.
  assert (Hq0 : 0 <= q) by nia.
  assert (Hqn : q = Z.of_nat (Z.to_nat q)) by lia.
  assert (Ha : Z.of_nat (length a) = k * Z.of_nat (Z.to_nat q)) by lia.
  set (qn := Z.to_nat q) in *.
  pose proof (iterations_nat k (Z.of_nat (length b)) Hk ltac:(lia)) as Hrb.
  set (rb := (Z.of_nat (length b) - 1) / k + 1) in *.
  assert (Hia : (Z.of_nat (length a) - 1) / k + 1 = Z.of_nat qn).
  { replace (Z.of_nat (length a) - 1) with (k * Z.of_nat qn + 0 - 1) by lia.
    rewrite iterations_aligned by lia.
    assert ((0 - 1) / k = -1); [|lia].
    symmetry. apply (Z.div_unique_pos (0 - 1) k (-1) (k - 1)); lia. }
  assert (Hiab : (Z.of_nat (length (a ++ b)) - 1) / k + 1
                 = Z.of_nat qn + Z.of_nat (Z.to_nat rb)).
  { rewrite length_app, Nat2Z.inj_add, Ha.
    replace (k * Z.of_nat qn + Z.of_nat (length b) - 1)
      with (k * Z.of_nat qn + Z.of_nat (length b) - 1) by lia.
    rewrite iterations_aligned by lia. fold rb. lia. }
  assert (Hloop :
    fold_left (update_body cls (a ++ b)) (Py.range (Z.of_nat qn + Z.of_nat (Z.to_nat rb))) f
    = fold_left (update_body cls b) (Py.range rb)
        (fold_left (update_body cls a) (Py.range (Z.of_nat qn)) f)).
  { rewrite range_add, fold_left_app.
    rewrite (update_loop_ext cls (a ++ b) a (Py.range (Z.of_nat qn))
               (Py.range (Z.of_nat qn))).
    2:{ apply Forall2_same_length_lookup_2; [reflexivity|].
        intros i x y Hx Hy. rewrite Hx in Hy. injection Hy as <-.
        unfold Py.range in Hx. rewrite list_lookup_fmap in Hx.
        destruct (seq 0 (Z.to_nat (Z.of_nat qn)) !! i) as [j|] eqn:Hj; [|discriminate].
        injection Hx as <-. apply lookup_seq in Hj as [-> Hlt]. cbn [plus] in *.
        fold k. rewrite !slice_nonneg by nia.
        replace (Z.to_nat (k * Z.of_nat i)) with (Z.to_nat k * i)%nat by nia.
        replace (Z.to_nat (k * (Z.of_nat i + 1)) - Z.to_nat k * i)%nat
          with (Z.to_nat k) by nia.
        rewrite drop_app_le by nia. rewrite take_app_le; [reflexivity|].
        rewrite length_drop. nia. }
    rewrite (update_loop_ext cls (a ++ b) b
               ((fun j => Z.of_nat qn + j) <$> Py.range (Z.of_nat (Z.to_nat rb)))
               (Py.range rb)); [reflexivity|].
    rewrite Z2Nat.id by lia.
    apply Forall2_fmap_l, Forall_Forall2_diag, Forall_forall.
    intros j Hj. unfold Py.range in Hj.
    apply list_elem_of_fmap in Hj as (jn & -> & _).
    cbn [compose]. fold k. rewrite !slice_nonneg by nia.
    replace (Z.to_nat (k * (Z.of_nat qn + Z.of_nat jn)))
      with (length a + Z.to_nat k * jn)%nat by nia.
    replace (Z.to_nat (k * (Z.of_nat qn + Z.of_nat jn + 1)) - (length a + Z.to_nat k * jn))%nat
      with (Z.to_nat k) by nia.
    replace (Z.to_nat (k * Z.of_nat jn)) with (Z.to_nat k * jn)%nat by nia.
    replace (Z.to_nat (k * (Z.of_nat jn + 1)) - Z.to_nat k * jn)%nat
      with (Z.to_nat k) by nia.
    rewrite drop_app_add. reflexivity. }
  unfold update at 1 3. fold k. fold rb. rewrite Hiab, Hloop.
  unfold update. fold k. rewrite Hia.
  set (fa := fold_left (update_body cls a) (Py.range (Z.of_nat qn)) f).
  destruct (update_loop_sums cls b (Py.range rb)
              {| c0 := c0 fa; c1 := c1 fa;
                 cb0 := modulus cls - (c0 fa + c1 fa) mod modulus cls;
                 cb1 := modulus cls
                        - (c0 fa + (modulus cls - (c0 fa + c1 fa) mod modulus cls))
                          mod modulus cls |}
              fa eq_refl eq_refl) as [E0 E1].
  cbn [c0 c1]. rewrite E0, E1. reflexivity.
Qed.

(** Without alignment the split matters: [Fletcher32] reads [01 02] as
    one word but [01] and [02] as two. *)
Lemma update_incremental_needs_alignment :
  update Fletcher32 (update Fletcher32 Fletcher_new [1]) [2]
  <> update Fletcher32 Fletcher_new [1; 2].
Proof. vm_compute. congruence. Qed.

(** X1, witness: [Fletcher32] fed [12 34] and then [56]. *)
Lemma update_incremental_witness :
  update Fletcher32 (update Fletcher32 Fletcher_new [0x12; 0x34]) [0x56]
  = update Fletcher32 Fletcher_new [0x12; 0x34; 0x56].
Proof.
  apply (update_incremental Fletcher32 Fletcher_new [0x12; 0x34] [0x56]).
  - reflexivity.
  - exists 1. reflexivity.
Defined.

(** ** The checksum engine, base class: what it can and cannot see *)

Lemma spec_accumulate_c0 (bs : list Z) (c : Z * Z) :
  fst (fold_left spec_accumulate bs c) mod 255 = (fst c + byte_sum bs) mod 255.
Proof.
  revert c. induction bs as [|x bs IH]; intros c.
  - cbn. rewrite Z.add_0_r. reflexivity.
  - cbn [fold_left byte_sum fold_right]. rewrite IH.
    unfold spec_accumulate. cbn [fst]. rewrite Z.add_mod_idemp_l by lia.
    rewrite Z.add_assoc. reflexivity.
Qed.

Lemma spec_accumulate_range (bs : list Z) (c : Z * Z) :
  0 <= fst c < 255 -> 0 <= snd c < 255 ->
  0 <= fst (fold_left spec_accumulate bs c) < 255
  /\ 0 <= snd (fold_left spec_accumulate bs c) < 255.
Proof.
  revert c. induction bs as [|x bs IH]; intros c H0 H1; [auto|].
  cbn [fold_left]. apply IH; unfold spec_accumulate; cbn [fst snd];
    apply Z.mod_pos_bound; lia.
Qed.

(** The first running sum of a fresh engine is the byte sum modulo 255. *)
Lemma update_c0_sum (bs : list Z) :
  c0 (update FletcherBase Fletcher_new bs) = byte_sum bs mod 255.
Proof.
  pose proof (update_sums Fletcher_new bs) as H.
  apply (f_equal fst) in H. cbn [fst] in H. rewrite H.
  destruct (spec_accumulate_range bs (c0 Fletcher_new, c1 Fletcher_new))
    as [R _]; [cbn; lia..|].
  rewrite <- (Z.mod_small _ 255 R), spec_accumulate_c0. reflexivity.
Qed.

Lemma spec_accumulate_congruent (a b : list Z) (c : Z * Z) :
  Forall2 (fun x y => x mod 255 = y mod 255) a b ->
  fold_left spec_accumulate a c = fold_left spec_accumulate b c.
Proof.
  intros H. revert c. induction H as [|x y a b Hxy _ IH]; intros c; [reflexivity|].
  cbn [fold_left]. rewrite IH. f_equal. unfold spec_accumulate.
  assert (E : (fst c + x) mod 255 = (fst c + y) mod 255).
  { rewrite <- (Z.add_mod_idemp_r (fst c) x), <- (Z.add_mod_idemp_r (fst c) y) by lia.
    rewrite Hxy. reflexivity. }
  rewrite E. reflexivity.
Qed.

Lemma update_determined_by_sums (cls : FletcherClass) (f g : Fletcher)
    (a b : list Z) :
  c0 (update cls f a) = c0 (update cls g b) ->
  c1 (update cls f a) = c1 (update cls g b) ->
  update cls f a = update cls g b.
Proof.
  unfold update.
  set (fa := fold_left _ _ f). set (gb := fold_left _ _ g).
  cbn [c0 c1]. intros -> ->. reflexivity.
Qed.

(** The engine only sees bytes modulo 255. *)
Lemma update_congruent_bytes (f : Fletcher) (a b : list Z) :
  Forall2 (fun x y => x mod 255 = y mod 255) a b ->
  update FletcherBase f a = update FletcherBase f b.
Proof.
  intros H.
  pose proof (update_sums f a) as Ha. pose proof (update_sums f b) as Hb.
  rewrite (spec_accumulate_congruent a b _ H), <- Hb in Ha.
  apply update_determined_by_sums; congruence.
Qed.

(** The check value of the base class is never zero and always fits in
    two bytes, with no zero byte. *)
Lemma check_value_range (f : Fletcher) (bs : list Z) :
  257 <= check_value FletcherBase (update FletcherBase f bs) <= 65535.
Proof.
  pose proof (update_cb_range f bs) as [H0 H1].
  unfold check_value. cbn [bitshift FletcherBase].
  rewrite Z.shiftl_mul_pow2 by lia. change (2 ^ 8) with 256. lia.
Qed.

(** ** The frame codec: what verification accepts *)

Lemma verify_split (body : list Z) (hi lo : Z) :
  verify_msg_checksum (body ++ [hi; lo])
  = (hi * 256 + lo =? check_value FletcherBase (update FletcherBase Fletcher_new body)).
Proof.
  unfold verify_msg_checksum. rewrite slice_last2, slice_drop_last2.
  unfold Py.from_bytes_big, check_value. cbn [fold_left bitshift FletcherBase].
  destruct (_ =? _); reflexivity.
Qed.

(** X2: Replacing body bytes by bytes congruent modulo 255 (such as [00] by
    [ff]) never changes the verdict of [verify_msg_checksum]. *)
Theorem verify_msg_checksum_congruent (body body' : list Z) (hi lo : Z) :
  Forall2 (fun x y => x mod 255 = y mod 255) body body' ->
  verify_msg_checksum (body' ++ [hi; lo])
  = verify_msg_checksum (body ++ [hi; lo]).
Proof.
  intros H. rewrite !verify_split, (update_congruent_bytes _ _ _ H). reflexivity.
Qed.

(** X2, witness: the first sample with its offset byte [00] replaced
    by [ff]. *)
Lemma verify_msg_checksum_congruent_witness :
  verify_msg_checksum
    ([0x7f;0xff;0x00;0x00;0x00;0x19;0xc9;0x00;0x13;0x00;0x4e;0x00;0x00;0x01;0x79;0x00;0x00]
     ++ [0x31; 0x90])
  = verify_msg_checksum (sample_1 ++ [0x31; 0x90]).
Proof.
  apply (verify_msg_checksum_congruent sample_1
    [0x7f;0xff;0x00;0x00;0x00;0x19;0xc9;0x00;0x13;0x00;0x4e;0x00;0x00;0x01;0x79;0x00;0x00]).
  repeat constructor.
Defined.

Lemma byte_sum_cons (b : Z) (bs : list Z) : byte_sum (b :: bs) = b + byte_sum bs.
Proof. reflexivity. Qed.

Lemma byte_sum_insert (body : list Z) (i : nat) (x y : Z) :
  body !! i = Some x ->
  byte_sum (<[i := y]> body) = byte_sum body - x + y.
Proof.
  revert i. induction body as [|b body IH]; intros [|i] Hx; try discriminate.
  - injection Hx as ->.
    change (<[0%nat := y]> (x :: body)) with (y :: body).
    rewrite !byte_sum_cons. lia.
  - change (<[S i := y]> (b :: body)) with (b :: <[i := y]> body).
    rewrite !byte_sum_cons, (IH i Hx). lia.
Qed.

Lemma check_value_injective (f g : Fletcher) (a b : list Z) :
  check_value FletcherBase (update FletcherBase f a)
  = check_value FletcherBase (update FletcherBase g b) ->
  c0 (update FletcherBase f a) mod 255 = c0 (update FletcherBase g b) mod 255.
Proof.
  intros H. pose proof (update_cb_range f a) as [A0 A1].
  pose proof (update_cb_range g b) as [B0 B1].
  unfold check_value in H. cbn [bitshift FletcherBase] in H.
  rewrite !Z.shiftl_mul_pow2 in H by lia. change (2 ^ 8) with 256 in H.
  assert (E0 : cb0 (update FletcherBase f a) = cb0 (update FletcherBase g b)) by lia.
  assert (E1 : cb1 (update FletcherBase f a) = cb1 (update FletcherBase g b)) by lia.
  rewrite (update_cb1 f a), (update_cb1 g b), E0 in E1.
  assert (E : (c0 (update FletcherBase f a) + cb0 (update FletcherBase g b)) mod 255
              = (c0 (update FletcherBase g b) + cb0 (update FletcherBase g b)) mod 255)
    by lia.
  set (u := c0 (update FletcherBase f a)) in *.
  set (v := c0 (update FletcherBase g b)) in *.
  set (w := cb0 (update FletcherBase g b)) in *.
  clearbody u v w. clear -E. Z.div_mod_to_equations. lia.
Qed.

(** X3: A single corrupted body byte is always detected, unless the new
    byte is congruent to the old one modulo 255. *)
Theorem verify_msg_checksum_detects_byte
    (body : list Z) (hi lo : Z) (i : nat) (x y : Z) :
  verify_msg_checksum (body ++ [hi; lo]) = true ->
  body !! i = Some x ->
  x mod 255 <> y mod 255 ->
  verify_msg_checksum (<[i := y]> body ++ [hi; lo]) = false.
Proof.
  intros Hok Hx Hxy. rewrite verify_split in *.
  apply Z.eqb_eq in Hok. apply Z.eqb_neq. intros Hbad.
  rewrite Hok in Hbad. apply check_value_injective in Hbad.
  rewrite !update_c0_sum, !Z.mod_mod in Hbad by lia.
  rewrite (byte_sum_insert _ _ _ _ Hx) in Hbad.
  apply Hxy. set (s := byte_sum body) in *. clearbody s.
  clear -Hbad. Z.div_mod_to_equations. lia.
Qed.

(** X3, witness: the first sample with byte 6 changed from [c9] to [cb]. *)
Lemma verify_msg_checksum_detects_byte_witness :
  verify_msg_checksum (<[6%nat := 0xcb]> sample_1 ++ [0x31; 0x90]) = false.
Proof.
  apply (verify_msg_checksum_detects_byte sample_1 0x31 0x90 6 0xc9 0xcb);
    [reflexivity | reflexivity | vm_compute; congruence].
Defined.

(** X4: Buffers too short to hold a body: of the buffers of at most two
    bytes only [ff ff] verifies. *)
Theorem verify_msg_checksum_short (raw_msg : list Z) :
  forallb Py.is_byte raw_msg = true ->
  (length raw_msg <= 2)%nat ->
  verify_msg_checksum raw_msg = bool_decide (raw_msg = [0xff; 0xff]).
Proof.
  intros Hb Hlen.
  destruct raw_msg as [|x [|y [|z l]]]; [reflexivity| | |cbn in Hlen; lia].
  - cbn [forallb] in Hb. apply andb_true_iff in Hb as [Hx%is_byte_true _].
    rewrite bool_decide_eq_false_2 by discriminate.
    unfold verify_msg_checksum.
    change (Py.slice [x] (-2) None) with [x].
    change (sl [x] 0 (-2)) with (@nil Z).
    change (Py.from_bytes_big [x]) with (0 * 256 + x).
    change (Z.shiftl _ 8 + _) with 65535.
    destruct (Z.eqb_spec (0 * 256 + x) 65535); [lia|reflexivity].
  - cbn [forallb] in Hb.
    apply andb_true_iff in Hb as [Hx%is_byte_true Hb].
    apply andb_true_iff in Hb as [Hy%is_byte_true _].
    change [x; y] with ([] ++ [x; y]). rewrite verify_split.
    change (check_value _ _) with 65535. cbn [app].
    destruct (Z.eqb_spec (x * 256 + y) 65535) as [E|E].
    + assert (x = 255 /\ y = 255) as [-> ->] by lia.
      rewrite bool_decide_eq_true_2; reflexivity.
    + rewrite bool_decide_eq_false_2; [reflexivity|].
      intros [= -> ->]. lia.
Qed.

(** X4, witness: the two-byte buffer [7f 00]. *)
Lemma verify_msg_checksum_short_witness :
  verify_msg_checksum [0x7f; 0x00] = bool_decide ([0x7f; 0x00] = [0xff; 0xff]).
Proof.
  apply (verify_msg_checksum_short [0x7f; 0x00]); [reflexivity | cbn; lia].
Defined.

(** ** The frame codec: what encoding returns *)

(** X5: [create_msg_data] returns a frame of [len(msg_data) + 5] bytes when
    the id and the offset are bytes and the payload has fewer than 256
    bytes; otherwise it raises [ValueError].  It never raises
    [OverflowError]: the check value always fits in two bytes. *)
Theorem create_msg_data_outcome (msg_id offset : Z) (msg_data : list Z) :
  if Py.is_byte msg_id && Py.is_byte offset
     && (Z.of_nat (length msg_data) <? 256)
  then exists frame,
         create_msg_data msg_id offset msg_data = inr frame
         /\ length frame = (length msg_data + 5)%nat
         /\ take 3 frame = [msg_id; offset; Z.of_nat (length msg_data)]
         /\ forallb Py.is_byte (drop (length msg_data + 3) frame) = true
  else create_msg_data msg_id offset msg_data = inl Py.ValueError.
Proof.
  destruct (Py.is_byte msg_id) eqn:Hid; cbn [andb].
  2:{ unfold create_msg_data, Py.bytearray. cbn [forallb]. rewrite Hid. reflexivity. }
  destruct (Py.is_byte offset) eqn:Hoff; cbn [andb].
  2:{ unfold create_msg_data, Py.bytearray. cbn [forallb]. rewrite Hid, Hoff.
      reflexivity. }
  destruct (Z.ltb_spec (Z.of_nat (length msg_data)) 256) as [Hlt|Hge].
  - rewrite (create_msg_data_frame msg_id offset msg_data Hid Hoff) by lia.
    eexists. split; [reflexivity|].
    split; [rewrite !length_app; cbn [length]; lia|].
    split; [reflexivity|].
    rewrite <- (assoc_L (++)). cbn [app].
    change (msg_id :: offset :: Z.of_nat (length msg_data) :: msg_data ++ ?t)
      with ([msg_id; offset; Z.of_nat (length msg_data)] ++ (msg_data ++ t)).
    rewrite app_assoc.
    replace (length msg_data + 3)%nat
      with (length ([msg_id; offset; Z.of_nat (length msg_data)] ++ msg_data))
      by (rewrite length_app; cbn [length]; lia).
    rewrite drop_app_length.
    match goal with |- context [update FletcherBase Fletcher_new ?b] =>
      pose proof (update_cb_range Fletcher_new b) as [R0 R1] end.
    cbn [forallb]. rewrite !(proj2 (is_byte_true _)) by lia. reflexivity.
  - unfold create_msg_data, Py.bytearray. cbn [forallb]. rewrite Hid, Hoff.
    assert (E : Py.is_byte (Z.of_nat (length msg_data)) = false).
    { unfold Py.is_byte. apply andb_false_iff. right. apply Z.ltb_ge. lia. }
    rewrite E. reflexivity.
Qed.

(** ** The digests *)

Lemma str_from_2 (a b : Ascii.ascii) (rest : string) :
  str_from (String a (String b rest)) 2 = rest.
Proof.
  unfold str_from, Py.slice, Py.adjust_index.
  cbn [String.list_ascii_of_string length Z.ltb Z.compare].
  replace (Z.to_nat (Z.min _ 2)) with 2%nat by lia.
  cbn [drop]. rewrite firstn_all2 by (rewrite length_drop; cbn [length]; lia).
  apply String.string_of_list_ascii_of_string.
Qed.

Lemma hex_value_to_string (n : N) :
  hex_value (HexadecimalString.NilZero.string_of_uint (N.to_hex_uint n)) = Some n
  /\ HexadecimalString.NilZero.string_of_uint (N.to_hex_uint n) <> "".
Proof.
  assert (Hn : N.to_hex_uint n <> Hexadecimal.Nil).
  { destruct n as [|p]; [discriminate|]. cbn.
    intros H. pose proof (HexadecimalPos.Unsigned.of_to p) as E.
    rewrite H in E. discriminate. }
  split.
  - unfold hex_value, HexadecimalString.NilZero.string_of_uint.
    destruct (N.to_hex_uint n) eqn:E; [congruence|..];
      rewrite <- E, HexadecimalString.NilEmpty.usu; cbn [fmap option_fmap option_map];
      rewrite HexadecimalN.Unsigned.of_to; reflexivity.
  - unfold HexadecimalString.NilZero.string_of_uint.
    destruct (N.to_hex_uint n); [congruence|..]; discriminate.
Qed.

Lemma hex_value_leading_zero (digits : string) (n : N) :
  hex_value digits = Some n -> hex_value (String "0"%char digits) = Some n.
Proof.
  unfold hex_value. cbn [HexadecimalString.NilEmpty.uint_of_string].
  destruct (HexadecimalString.NilEmpty.uint_of_string digits) as [d|]; [|discriminate].
  cbn. intros [= <-]. reflexivity.
Qed.

(** Shape of a digest of a non-negative number. *)
Lemma even_hex (v : Z) :
  0 <= v ->
  let t := hex v in
  exists digits,
    (if Z.of_nat (String.length t) mod 2 =? 0
     then "0x" +:+ str_from t 2 else "0x0" +:+ str_from t 2)
    = "0x" +:+ digits
    /\ Nat.Even (String.length digits)
    /\ digits <> ""
    /\ hex_value digits = Some (Z.to_N v).
Proof.
  intros Hv t. subst t. unfold hex. destruct (Z.ltb_spec v 0); [lia|].
  destruct (hex_value_to_string (Z.to_N v)) as [Hval Hne].
  set (s := HexadecimalString.NilZero.string_of_uint _) in *.
  change ("0x" +:+ s) with (String "0"%char (String "x"%char s)).
  rewrite str_from_2. cbn [String.length].
  destruct (Z.eqb_spec (Z.of_nat (S (S (String.length s))) mod 2) 0) as [E|E].
  - exists s. split; [reflexivity|]. split; [|auto].
    exists (Z.to_nat (Z.of_nat (String.length s) / 2)).
    clear -E. Z.div_mod_to_equations. lia.
  - exists (String "0"%char s). split; [reflexivity|]. split.
    { cbn [String.length].
      exists (Z.to_nat ((Z.of_nat (String.length s) + 1) / 2)).
      clear -E. Z.div_mod_to_equations. lia. }
    split; [discriminate|]. apply hex_value_leading_zero. exact Hval.
Qed.

(** X6: Both digests are ["0x"] followed by a non-empty, even number of
    lower-case hexadecimal digits that denote the digested number:
    [(c1 << bitshift) + c0] for [hexdigest], [(cb0 << bitshift) + cb1]
    for [cb_hexdigest]. *)
Theorem digests_whole_bytes (cls : FletcherClass) (f : Fletcher) :
  0 <= Z.shiftl (c1 f) (bitshift cls) + c0 f ->
  0 <= Z.shiftl (cb0 f) (bitshift cls) + cb1 f ->
  (exists digits,
     hexdigest cls f = "0x" +:+ digits
     /\ Nat.Even (String.length digits) /\ digits <> ""
     /\ hex_value digits
        = Some (Z.to_N (Z.shiftl (c1 f) (bitshift cls) + c0 f)))
  /\ (exists digits,
       cb_hexdigest cls f = "0x" +:+ digits
       /\ Nat.Even (String.length digits) /\ digits <> ""
       /\ hex_value digits
          = Some (Z.to_N (Z.shiftl (cb0 f) (bitshift cls) + cb1 f))).
Proof.
  intros H1 H2. split; [apply (even_hex _ H1) | apply (even_hex _ H2)].
Qed.

(** X6, witness: the digests of the first sample. *)
Lemma digests_whole_bytes_witness :
  (exists digits,
     hexdigest FletcherBase (update FletcherBase Fletcher_new sample_1)
     = "0x" +:+ digits
     /\ Nat.Even (String.length digits) /\ digits <> ""
     /\ hex_value digits
        = Some (Z.to_N (Z.shiftl (c1 (update FletcherBase Fletcher_new sample_1)) 8
                        + c0 (update FletcherBase Fletcher_new sample_1))))
  /\ (exists digits,
       cb_hexdigest FletcherBase (update FletcherBase Fletcher_new sample_1)
       = "0x" +:+ digits
       /\ Nat.Even (String.length digits) /\ digits <> ""
       /\ hex_value digits = Some (Z.to_N (sample_result sample_1))).
Proof.
  apply (digests_whole_bytes FletcherBase
           (update FletcherBase Fletcher_new sample_1)); vm_compute; discriminate.
Defined.

(** ** Decoders as lists of assignments *)

Lemma lookup_overlay (ov : list entry) (d : dict) (key : string) :
  overlay ov d !! key = match last_value ov key with
                        | Some v => Some v
                        | None => d !! key
                        end.
Proof.
  induction ov as [|[[k c] v] ov IH]; [reflexivity|].
  cbn [overlay foldr last_value]. fold (overlay ov d).
  unfold apply_entry. cbn [fst snd].
  destruct (String.eqb_spec k key) as [->|Hne]; destruct c.
  - apply lookup_insert_eq.
  - exact IH.
  - rewrite lookup_insert_ne by exact Hne. exact IH.
  - exact IH.
Qed.

Lemma overlay_app (p q : list entry) (d : dict) :
  overlay (p ++ q) d = overlay p (overlay q d).
Proof. unfold overlay. apply foldr_app. Qed.

Lemma overlay_idempotent (ov : list entry) (d : dict) :
  overlay ov (overlay ov d) = overlay ov d.
Proof.
  apply map_eq. intros key. rewrite !lookup_overlay.
  destruct (last_value ov key); reflexivity.
Qed.

Lemma overlay_guard_true (ov : list entry) (d : dict) :
  overlay (guard true ov) d = overlay ov d.
Proof.
  induction ov as [|[[k c] v] ov IH]; [reflexivity|].
  cbn [guard map overlay foldr] in *. unfold overlay, guard in IH. rewrite IH.
  reflexivity.
Qed.

Lemma overlay_guard_false (ov : list entry) (d : dict) :
  overlay (guard false ov) d = d.
Proof.
  induction ov as [|[[k c] v] ov IH]; [reflexivity|].
  cbn [guard map overlay foldr] in *. unfold overlay, guard in IH. rewrite IH.
  reflexivity.
Qed.

Lemma step_ret (pre : list entry) : step pre (ret tt) [] None.
Proof. intros d. reflexivity. Qed.

Lemma step_setitem (pre : list entry) (key : string) (v : value) :
  step pre (setitem key v) [(key, true, v)] None.
Proof. intros d. reflexivity. Qed.

Lemma step_bind (pre p1 p2 : list entry) (c : M dict unit)
    (k : unit -> M dict unit) (r : option Py.exn) :
  step pre c p1 None -> step (p1 ++ pre) (k tt) p2 r ->
  step pre (bind c k) (p2 ++ p1) r.
Proof.
  intros H1 H2 d. unfold bind. rewrite H1. cbn [outcome].
  rewrite H2, <- (assoc_L (++)). reflexivity.
Qed.

Lemma step_bind_ret {A} (pre post : list entry) (x : A)
    (k : A -> M dict unit) (r : option Py.exn) :
  step pre (k x) post r -> step pre (bind (ret x) k) post r.
Proof. intros H d. exact (H d). Qed.

Lemma step_bind_raise {A} (pre : list entry) (e : Py.exn)
    (k : A -> M dict unit) :
  step pre (bind (raise e) k) [] (Some e).
Proof. intros d. reflexivity. Qed.

Lemma step_cond_append (pre : list entry) (b : bool) (key name : string)
    (l : list string) :
  last_value pre key = Some (VList l) ->
  step pre (if b then list_append key name else ret tt)
       [(key, true, VList (snoc_if l b name))] None.
Proof.
  intros Hl d. cbn [app overlay foldr]. fold (overlay pre d).
  unfold apply_entry. cbn [fst snd].
  assert (Hd : overlay pre d !! key = Some (VList l))
    by (rewrite lookup_overlay, Hl; reflexivity).
  unfold snoc_if. destruct b.
  - unfold list_append. rewrite (bind_Ret _ _ _ _ _ (getitem_Some _ _ _ Hd)).
    reflexivity.
  - rewrite app_nil_r, (insert_id _ _ _ Hd). reflexivity.
Qed.

Lemma step_ite (pre p1 p2 : list entry) (b : bool) (c1 c2 : M dict unit) :
  step pre c1 p1 None -> step pre c2 p2 None ->
  step pre (if b then c1 else c2) (guard b p1 ++ guard (negb b) p2) None.
Proof.
  intros H1 H2 d. rewrite <- (assoc_L (++)), !overlay_app.
  destruct b; cbn [negb].
  - rewrite H1, overlay_guard_true, overlay_guard_false, overlay_app. reflexivity.
  - rewrite H2, overlay_guard_true, overlay_guard_false, overlay_app. reflexivity.
Qed.

(** What a [step] from the empty list says about the decoder. *)
Lemma step_run (c : M dict unit) (ov : list entry) (r : option Py.exn) (d : dict) :
  step [] c ov r -> c d = outcome r (overlay ov d).
Proof. intros H. specialize (H d). rewrite app_nil_r in H. exact H. Qed.

Ltac last_value_now :=
  cbv [last_value app guard map fst snd andb negb
       String.eqb Ascii.eqb Bool.eqb];
  reflexivity.

Ltac step_prim :=
  lazymatch goal with
  | |- step _ (ret tt) _ _ => apply step_ret
  | |- step _ (setitem _ _) _ _ => apply step_setitem
  | |- step _ (if _ then list_append _ _ else ret tt) _ _ =>
      eapply step_cond_append; last_value_now
  | |- step _ (if _ then _ else _) _ _ =>
      eapply step_ite; step_prim
  end.

Ltac steps :=
  lazymatch goal with
  | |- step _ (bind (ret _) _) _ _ =>
      apply step_bind_ret; cbv beta; steps
  | |- step _ (bind (raise _) _) _ _ =>
      apply step_bind_raise
  | |- step _ (bind _ _) _ _ =>
      eapply step_bind; [step_prim | cbv beta; steps]
  | |- _ => step_prim
  end.

Ltac open_branch :=
  cbv beta zeta delta
    [branch_0x00 branch_0x40 branch_0x41 branch_0x43 branch_0x45 branch_0x46
     branch_0x47 branch_0x48 branch_0x49 branch_0x4a branch_0x4b branch_0x4c
     branch_0x4d branch_0x4e branch_0x5c branch_0x6c branch_0x6d branch_0x6e
     branch_0x6f branch_0x70 branch_0x71 branch_0x72 branch_0x76 branch_0x79
     branch_0x7a branch_0x7e flag when_eq].

Ltac solve_branch :=
  open_branch;
  cbv beta iota zeta delta [decode index lookup list_lookup decodable decode_error
                       Z.eqb Pos.eqb orb Nat.leb length];
  repeat match goal with
         | |- context [utf8_valid ?b] => destruct (utf8_valid b)
         end;
  cbv beta iota delta [andb];
  (eexists; split; [steps | last_value_now]).

(** Every decoder but the two second halves is a list of assignments
    that does not depend on the state, ended by the exception of
    [decode_error] when the message is not [decodable]; none of the
    assignments is to ["comm_state"]. *)
Lemma decode_fields_step (msg_id : Z) (msg_data : list Z) :
  msg_id <> 0x42 -> msg_id <> 0x44 ->
  exists ov,
    step [] (decode_fields msg_id msg_data) ov
         (if decodable msg_id msg_data then None
          else Some (decode_error msg_id))
    /\ last_value ov "comm_state" = None.
Proof.
  intros H42 H44. unfold decode_fields.
  destruct (Z.eqb_spec msg_id 0) as [->|H0].
  { do 8 (destruct msg_data as [|? msg_data]; [solve_branch|]). solve_branch. }
  repeat (match goal with
          | |- context [msg_id =? ?c] =>
              destruct (Z.eqb_spec msg_id c) as [->|?];
              [first [congruence | solve_branch]|]
          end).
  unfold decodable, decode_error.
  repeat match goal with
         | H : msg_id <> ?c |- context [msg_id =? ?c] =>
             rewrite (proj2 (Z.eqb_neq msg_id c) H)
         end.
  cbn [orb]. exists []. split; [apply step_ret | reflexivity].
Qed.

(** ** What the decoders do to the state *)

(** Outcome of a decoder other than the two second halves: it returns
    exactly when the message is [decodable], raises [decode_error]
    otherwise, and in both cases leaves ["comm_state"] alone. *)
Lemma decode_fields_outcome (msg_id : Z) (msg_data : list Z) (d : dict) :
  msg_id <> 0x42 -> msg_id <> 0x44 ->
  exists d',
    decode_fields msg_id msg_data d
    = (if decodable msg_id msg_data then Ret tt d'
       else Raise (decode_error msg_id) d')
    /\ d' !! "comm_state" = d !! "comm_state".
Proof.
  intros H42 H44.
  destruct (decode_fields_step msg_id msg_data H42 H44) as (ov & Hstep & Hk).
  exists (overlay ov d). rewrite (step_run _ _ _ d Hstep).
  split; [destruct (decodable msg_id msg_data); reflexivity|].
  rewrite lookup_overlay, Hk. reflexivity.
Qed.

(** Decoding the same message a second time changes nothing. *)
Lemma decode_fields_idempotent (msg_id : Z) (msg_data : list Z) (d d1 : dict) :
  msg_id <> 0x42 -> msg_id <> 0x44 ->
  decode_fields msg_id msg_data d = Ret tt d1 ->
  decode_fields msg_id msg_data d1 = Ret tt d1.
Proof.
  intros H42 H44 H1.
  destruct (decode_fields_step msg_id msg_data H42 H44) as (ov & Hstep & _).
  rewrite (step_run _ _ _ d Hstep) in H1. rewrite (step_run _ _ _ d1 Hstep).
  destruct (decodable msg_id msg_data); [|discriminate].
  cbn [outcome] in *. injection H1 as <-. rewrite overlay_idempotent.
  reflexivity.
Qed.

(** An id without a branch decodes to nothing. *)
Lemma decode_fields_unknown (msg_id : Z) (msg_data : list Z) :
  msg_id ∉ known_ids -> decode_fields msg_id msg_data = ret tt.
Proof.
  intros Hid. unfold decode_fields.
  repeat match goal with
         | |- context [msg_id =? ?c] =>
             rewrite (proj2 (Z.eqb_neq msg_id c))
               by (intros ->; apply Hid; unfold known_ids; set_solver)
         end.
  reflexivity.
Qed.

(** X7: A checksum-valid message with an id that has no branch is accepted:
    [handle_apc_msg] returns [True], re-arms keep-alive and changes
    nothing else. *)
Theorem handle_apc_msg_unknown_id (raw_msg : list Z) (msg_id : Z) (a : ApcComm) :
  raw_msg !! 0%nat = Some msg_id ->
  forallb Py.is_byte raw_msg = true ->
  verify_msg_checksum raw_msg = true ->
  msg_id ∉ known_ids ->
  handle_apc_msg (Some raw_msg) a
  = Ret true (set_next_apc_msg The_APC_CMD_NEXT a).
Proof.
  intros H0 Hb Hv Hid. destruct raw_msg as [|x l]; [discriminate|].
  injection H0 as ->.
  unfold handle_apc_msg, Py.bytearray. rewrite Hb.
  cbn [lift_exn bind ret index lookup list_lookup]. rewrite Hv. cbn [negb].
  rewrite (proj2 (Z.eqb_neq msg_id 127))
    by (intros ->; apply Hid; unfold known_ids; set_solver).
  rewrite decode_fields_unknown by exact Hid.
  destruct a. reflexivity.
Qed.

(** X7, witness: the frame [50 5f 50], whose id has no branch. *)
Lemma handle_apc_msg_unknown_id_witness :
  handle_apc_msg (Some [0x50; 0x5f; 0x50]) (ApcComm_new {| rx := []; tx := [] |})
  = Ret true (set_next_apc_msg The_APC_CMD_NEXT
                (ApcComm_new {| rx := []; tx := [] |})).
Proof.
  apply (handle_apc_msg_unknown_id [0x50; 0x5f; 0x50] 0x50
           (ApcComm_new {| rx := []; tx := [] |}));
    [reflexivity | reflexivity | reflexivity |].
  unfold known_ids. intros H. repeat (apply elem_of_cons in H as [H|H]; [discriminate|]).
  inversion H.
Defined.

(** How [handle_apc_msg] goes on after a successful checksum
    verification, for every id but [0x7f]. *)
Lemma handle_apc_msg_decode (x : Z) (l : list Z) (a : ApcComm) :
  forallb Py.is_byte (x :: l) = true ->
  verify_msg_checksum (x :: l) = true ->
  x <> 0x7f ->
  handle_apc_msg (Some (x :: l)) a
  = match decode_fields x (sl (x :: l) 1 (-2)) (ups_state a) with
    | Ret _ d' => Ret true (set_next_apc_msg The_APC_CMD_NEXT (set_ups_state d' a))
    | Raise e d' => Raise e (set_ups_state d' a)
    end.
Proof.
  intros Hb Hv Hx. unfold handle_apc_msg, Py.bytearray. rewrite Hb.
  cbn [lift_exn bind ret index lookup list_lookup]. rewrite Hv. cbn [negb].
  rewrite (proj2 (Z.eqb_neq x 127) Hx).
  unfold bind, on_ups_state, zoom, ret, modify.
  destruct (decode_fields x _ (ups_state a)); reflexivity.
Qed.

(** X8: A checksum-valid message with any id but [0x42], [0x44] and [0x7f]:
    [handle_apc_msg] returns [True] with keep-alive re-armed exactly
    when the message is [decodable], and raises [decode_error]
    otherwise; it touches nothing but [ups_state] and the slot, and in
    [ups_state] never ["comm_state"].  In particular the numeric
    decoders accept payloads of any length. *)
Theorem handle_apc_msg_outcome (raw_msg : list Z) (msg_id : Z) (a : ApcComm) :
  raw_msg !! 0%nat = Some msg_id ->
  forallb Py.is_byte raw_msg = true ->
  verify_msg_checksum raw_msg = true ->
  msg_id <> 0x42 -> msg_id <> 0x44 -> msg_id <> 0x7f ->
  exists d',
    handle_apc_msg (Some raw_msg) a
    = (if decodable msg_id (sl raw_msg 1 (-2))
       then Ret true (set_next_apc_msg The_APC_CMD_NEXT (set_ups_state d' a))
       else Raise (decode_error msg_id) (set_ups_state d' a))
    /\ d' !! "comm_state" = ups_state a !! "comm_state".
Proof.
  intros H0 Hb Hv H42 H44 H7f. destruct raw_msg as [|x l]; [discriminate|].
  injection H0 as ->.
  rewrite (handle_apc_msg_decode _ _ a Hb Hv H7f).
  destruct (decode_fields_outcome msg_id (sl (msg_id :: l) 1 (-2))
              (ups_state a) H42 H44) as (d' & -> & Hk).
  exists d'. split; [|exact Hk].
  destruct (decodable msg_id _); reflexivity.
Qed.

(** X8, witness: the frame [6d 25 6d], an empty battery message. *)
Lemma handle_apc_msg_outcome_witness :
  exists d',
    handle_apc_msg (Some [0x6d; 0x25; 0x6d]) (ApcComm_new {| rx := []; tx := [] |})
    = Ret true (set_next_apc_msg The_APC_CMD_NEXT
                  (set_ups_state d' (ApcComm_new {| rx := []; tx := [] |})))
    /\ d' !! "comm_state" = Some (VStr "offline").
Proof.
  apply (handle_apc_msg_outcome [0x6d; 0x25; 0x6d] 0x6d
           (ApcComm_new {| rx := []; tx := [] |}));
    [reflexivity | reflexivity | reflexivity | discriminate..].
Defined.

(** X9: Handling the same message again, right after it was handled with
    success, changes nothing (ids [0x42], [0x44] and [0x7f] apart). *)
Theorem handle_apc_msg_idempotent
    (raw_msg : list Z) (msg_id : Z) (a a1 : ApcComm) :
  raw_msg !! 0%nat = Some msg_id ->
  msg_id <> 0x42 -> msg_id <> 0x44 -> msg_id <> 0x7f ->
  handle_apc_msg (Some raw_msg) a = Ret true a1 ->
  handle_apc_msg (Some raw_msg) a1 = Ret true a1.
Proof.
  intros H0 H42 H44 H7f H1. destruct raw_msg as [|x l]; [discriminate|].
  injection H0 as ->.
  destruct (forallb Py.is_byte (msg_id :: l)) eqn:Hb.
  2:{ unfold handle_apc_msg, Py.bytearray in H1. rewrite Hb in H1. discriminate. }
  destruct (verify_msg_checksum (msg_id :: l)) eqn:Hv.
  - rewrite (handle_apc_msg_decode _ _ a Hb Hv H7f) in H1.
    rewrite (handle_apc_msg_decode _ _ a1 Hb Hv H7f).
    destruct (decode_fields msg_id _ (ups_state a)) as [[] d1|] eqn:E;
      [|discriminate].
    injection H1 as <-. cbn [ups_state set_next_apc_msg set_ups_state].
    rewrite (decode_fields_idempotent _ _ _ _ H42 H44 E). reflexivity.
  - rewrite handle_apc_msg_mismatch in * by (discriminate || assumption).
    injection H1 as <-. reflexivity.
Qed.

(** X9, witness: the frame [6d 25 6d] handled twice. *)
Lemma handle_apc_msg_idempotent_witness :
  handle_apc_msg (Some [0x6d; 0x25; 0x6d])
    (res_state (handle_apc_msg (Some [0x6d; 0x25; 0x6d])
                  (ApcComm_new {| rx := []; tx := [] |})))
  = Ret true
      (res_state (handle_apc_msg (Some [0x6d; 0x25; 0x6d])
                    (ApcComm_new {| rx := []; tx := [] |}))).
Proof.
  apply (handle_apc_msg_idempotent [0x6d; 0x25; 0x6d] 0x6d
           (ApcComm_new {| rx := []; tx := [] |}));
    [reflexivity | discriminate | discriminate | discriminate
    | vm_compute; reflexivity].
Defined.

(** ** Device frames *)

Lemma device_frame_parts (msg_id : Z) (msg_data : list Z) :
  device_frame msg_id msg_data !! 0%nat = Some msg_id
  /\ sl (device_frame msg_id msg_data) 1 (-2) = msg_data
  /\ verify_msg_checksum (device_frame msg_id msg_data) = true.
Proof.
  unfold device_frame. split; [reflexivity|]. split.
  - apply slice_between.
  - apply (verify_own_checksum (msg_id :: msg_data)).
Qed.

Lemma device_frame_bytes (msg_id : Z) (msg_data : list Z) :
  forallb Py.is_byte (msg_id :: msg_data) = true ->
  forallb Py.is_byte (device_frame msg_id msg_data) = true.
Proof.
  intros Hb. unfold device_frame. rewrite forallb_app, Hb.
  pose proof (update_cb_range Fletcher_new (msg_id :: msg_data)) as [R0 R1].
  cbn [forallb andb]. rewrite !(proj2 (is_byte_true _)) by lia. reflexivity.
Qed.

(** Handling a device frame is decoding its payload. *)
Lemma handle_apc_msg_device_frame (msg_id : Z) (msg_data : list Z) (a : ApcComm) :
  forallb Py.is_byte (msg_id :: msg_data) = true ->
  msg_id <> 0x7f ->
  handle_apc_msg (Some (device_frame msg_id msg_data)) a
  = match decode_fields msg_id msg_data (ups_state a) with
    | Ret _ d' => Ret true (set_next_apc_msg The_APC_CMD_NEXT (set_ups_state d' a))
    | Raise e d' => Raise e (set_ups_state d' a)
    end.
Proof.
  intros Hb Hid.
  destruct (device_frame_parts msg_id msg_data) as (_ & Hp & Hv).
  pose proof (device_frame_bytes msg_id msg_data Hb) as HB.
  revert Hp Hv HB. unfold device_frame.
  set (chk := [cb0 _; cb1 _]). cbn [app]. intros Hp Hv HB.
  rewrite (handle_apc_msg_decode _ _ a HB Hv Hid), Hp. reflexivity.
Qed.

(** ** The two-part strings *)

(** X10: The UPS name arrives in two halves, ids [0x41] and [0x42].  Handled
    in that order they are concatenated; a second half handled again is
    appended again. *)
Theorem ups_type_halves (first second : list Z) (a : ApcComm) :
  forallb Py.is_byte first = true ->
  forallb Py.is_byte second = true ->
  utf8_valid first = true ->
  utf8_valid second = true ->
  exists a1 a2 a3,
    handle_apc_msg (Some (device_frame 0x41 first)) a = Ret true a1
    /\ handle_apc_msg (Some (device_frame 0x42 second)) a1 = Ret true a2
    /\ ups_state a2 !! "ups_type"
       = Some (VStr (string_of_bytes first +:+ string_of_bytes second))
    /\ handle_apc_msg (Some (device_frame 0x42 second)) a2 = Ret true a3
    /\ ups_state a3 !! "ups_type"
       = Some (VStr ((string_of_bytes first +:+ string_of_bytes second)
                     +:+ string_of_bytes second)).
Proof.
  intros Hb1 Hb2 Hu1 Hu2.
  assert (H42 : forall d s,
    d !! "ups_type" = Some (VStr s) ->
    decode_fields 0x42 second d
    = Ret tt (<["ups_type" := VStr (s +:+ string_of_bytes second)]> d)).
  { intros d s Hd. change (decode_fields 0x42 second) with (branch_0x42 second).
    unfold branch_0x42, iadd_str.
    rewrite (bind_Ret _ _ _ _ _ (getitem_Some _ _ _ Hd)).
    unfold decode. rewrite Hu2. reflexivity. }
  assert (H41 : forall d,
    decode_fields 0x41 first d
    = Ret tt (<["ups_type" := VStr (string_of_bytes first)]> d)).
  { intros d. change (decode_fields 0x41 first) with (branch_0x41 first).
    unfold branch_0x41, decode. rewrite Hu1. reflexivity. }
  eexists _, _, _.
  rewrite (handle_apc_msg_device_frame 0x41 first a)
    by (cbn [forallb]; rewrite ?Hb1; (reflexivity || discriminate)).
  rewrite H41. split; [reflexivity|].
  rewrite (handle_apc_msg_device_frame 0x42 second)
    by (cbn [forallb]; rewrite ?Hb2; (reflexivity || discriminate)).
  cbn [ups_state set_next_apc_msg set_ups_state].
  rewrite (H42 _ _ (lookup_insert_eq _ _ _)).
  split; [reflexivity|]. cbn [ups_state set_next_apc_msg set_ups_state].
  split; [apply lookup_insert_eq|].
  rewrite (handle_apc_msg_device_frame 0x42 second)
    by (cbn [forallb]; rewrite ?Hb2; (reflexivity || discriminate)).
  cbn [ups_state set_next_apc_msg set_ups_state].
  rewrite (H42 _ _ (lookup_insert_eq _ _ _)).
  split; [reflexivity|]. cbn [ups_state set_next_apc_msg set_ups_state].
  apply lookup_insert_eq.
Qed.

(** X10, witness: the halves [53 4d] and [54]. *)
Lemma ups_type_halves_witness :
  exists a1 a2 a3,
    handle_apc_msg (Some (device_frame 0x41 [0x53; 0x4d]))
      (ApcComm_new {| rx := []; tx := [] |}) = Ret true a1
    /\ handle_apc_msg (Some (device_frame 0x42 [0x54])) a1 = Ret true a2
    /\ ups_state a2 !! "ups_type"
       = Some (VStr (string_of_bytes [0x53; 0x4d] +:+ string_of_bytes [0x54]))
    /\ handle_apc_msg (Some (device_frame 0x42 [0x54])) a2 = Ret true a3
    /\ ups_state a3 !! "ups_type"
       = Some (VStr ((string_of_bytes [0x53; 0x4d] +:+ string_of_bytes [0x54])
                     +:+ string_of_bytes [0x54])).
Proof.
  apply (ups_type_halves [0x53; 0x4d] [0x54]
           (ApcComm_new {| rx := []; tx := [] |})); reflexivity.
Defined.

(** ** Status flags of the battery message *)

(** X11: Id [0x6d]: both status lists are read off bytes 6 and 7.  The
    replace-test status gets its twelve flags, then ten flags more in a
    second pass (six of them a second time); the runtime-calibration
    status gets six flags of the replace-test word, while bytes 10 and
    11 only end up in [runtime_calibration_status_raw].  The decoder
    returns for a payload of any length. *)
Theorem battery_message_flags (msg_data : list Z) (d : dict) :
  let status := Py.from_bytes_big (sl msg_data 6 8) in
  exists d',
    decode_fields 0x6d msg_data d = Ret tt d'
    /\ d' !! "battery_replacetest_status"
       = Some (VList
           (flag_names status
              [(64, "SOURCE PROTOCOL"); (128, "SOURCE UI");
               (256, "SOURCE INTERNAL"); (512, "INVALID STATE");
               (1024, "INTERNAL FAULT"); (2048, "SOC UNACCEPTABLE");
               (4096, "LOAD CHANGED"); (8192, "AC INPUT NOT ACCEPTABLE");
               (16384, "LOAD TOO LOW"); (32768, "OVERCHARGE IN PROGRESS")]
              (flag_names status
                 [(1, "PENDING"); (2, "IN PROGRESS"); (4, "PASSED");
                  (8, "FAILED"); (16, "REFUSED"); (32, "ABORTED");
                  (64, "SOURCE PROTOCOL"); (128, "SOURCE UI");
                  (256, "SOURCE INTERNAL"); (512, "INVALID STATE");
                  (1024, "INTERNAL FAULT"); (2048, "SOC UNACCEPTABLE")]
                 (snoc_if [] (status =? 0) "UNKNOWN"))))
    /\ d' !! "runtime_calibration_status"
       = Some (VList
           (flag_names status
              [(1, "PENDING"); (2, "IN PROGRESS"); (4, "PASSED");
               (8, "FAILED"); (16, "REFUSED"); (32, "ABORTED")] []))
    /\ d' !! "runtime_calibration_status_raw"
       = Some (VInt (Py.from_bytes_big (sl msg_data 10 12))).
Proof.
  intros status. subst status.
  match goal with
  | |- exists d', _ /\ _ = ?v1 /\ _ = ?v2 /\ _ = ?v3 =>
      assert (exists ov,
        step [] (branch_0x6d msg_data) ov None
        /\ last_value ov "battery_replacetest_status" = v1
        /\ last_value ov "runtime_calibration_status" = v2
        /\ last_value ov "runtime_calibration_status_raw" = v3)
        as (ov & Hstep & H1 & H2 & H3)
  end.
  { eexists. split; [open_branch; steps|].
    split; [|split];
      cbv [last_value app guard map fst snd andb negb
           String.eqb Ascii.eqb Bool.eqb flag_names fold_left]; reflexivity. }
  exists (overlay ov d).
  change (decode_fields 0x6d msg_data) with (branch_0x6d msg_data).
  rewrite (step_run _ _ _ d Hstep). split; [reflexivity|].
  rewrite !lookup_overlay, H1, H2, H3. auto.
Qed.

(** ** The connection status *)

Lemma calculate_challenge_reads (d : dict) :
  res_state (calculate_challenge d) = d.
Proof.
  unfold calculate_challenge, bind, getitem, as_bytes, index, lift_exn, ret, raise.
  repeat match goal with
         | |- context [match ?x with _ => _ end] =>
             lazymatch x with
             | context [match _ with _ => _ end] => fail
             | _ => destruct x; try reflexivity
             end
         end.
Qed.

Lemma branch_0x7f_ups_state (msg_data : list Z) (a : ApcComm) :
  ups_state (res_state (branch_0x7f msg_data a))
  = <["challenge_status" := VBytes (sl msg_data 14 16)]> (ups_state a).
Proof.
  unfold branch_0x7f, bind, on_ups_state, zoom, setitem, modify, gets, ret.
  cbn [state set_ups_state ups_state].
  destruct (decide (state a = MODE0)) as [Hm|Hm]; [|reflexivity].
  pose proof (calculate_challenge_reads
                (<["challenge_status" := VBytes (sl msg_data 14 16)]> (ups_state a))) as Hc.
  destruct (calculate_challenge _) as [challenge d'|e d']; cbn in Hc; subst d';
    [|reflexivity].
  unfold lift_exn.
  destruct (create_msg_data 126 12 challenge) as [e2|frame]; [reflexivity|].
  unfold write, receive_msg, modify, ret. cbn.
  destruct (rx (ser a)) as [|[|b rest] more]; cbn; try reflexivity;
    destruct (b =? 126); reflexivity.
Qed.

Lemma second_half_keeps (key : string) (msg_data : list Z) (d : dict) (other : string) :
  other <> key ->
  res_state (iadd_str key (decode msg_data) d) !! other = d !! other.
Proof.
  intros Hne. unfold iadd_str, bind, getitem, decode.
  destruct (d !! key) as [v|]; [|reflexivity].
  destruct (utf8_valid msg_data); [|reflexivity].
  destruct v; try reflexivity.
  cbn. rewrite lookup_insert_ne by congruence. reflexivity.
Qed.

Lemma decode_fields_comm_state (msg_id : Z) (msg_data : list Z) (d : dict) :
  res_state (decode_fields msg_id msg_data d) !! "comm_state" = d !! "comm_state".
Proof.
  destruct (Z.eq_dec msg_id 0x42) as [->|H42].
  { apply second_half_keeps. discriminate. }
  destruct (Z.eq_dec msg_id 0x44) as [->|H44].
  { apply (second_half_keeps "ups_sku"). discriminate. }
  destruct (decode_fields_outcome msg_id msg_data d H42 H44) as (d' & -> & Hk).
  destruct (decodable msg_id msg_data); exact Hk.
Qed.

(** [handle_apc_msg] never assigns ["comm_state"]. *)
Lemma handle_apc_msg_comm_state (raw_msg : option (list Z)) (a : ApcComm) :
  ups_state (res_state (handle_apc_msg raw_msg a)) !! "comm_state"
  = ups_state a !! "comm_state".
Proof.
  destruct raw_msg as [[|x l]|]; [reflexivity| |reflexivity].
  destruct (forallb Py.is_byte (x :: l)) eqn:Hb.
  2:{ unfold handle_apc_msg, Py.bytearray. rewrite Hb. reflexivity. }
  destruct (verify_msg_checksum (x :: l)) eqn:Hv.
  2:{ rewrite handle_apc_msg_mismatch by (discriminate || assumption). reflexivity. }
  destruct (Z.eq_dec x 0x7f) as [->|H7f].
  - unfold handle_apc_msg, Py.bytearray. rewrite Hb.
    cbn [lift_exn bind ret index lookup list_lookup]. rewrite Hv. cbn [negb Z.eqb Pos.eqb].
    pose proof (branch_0x7f_ups_state (sl (127 :: l) 1 (-2)) a) as H.
    unfold bind, modify, ret.
    destruct (branch_0x7f _ a) as [[] a'|e a']; cbn in H |- *; rewrite H;
      apply lookup_insert_ne; discriminate.
  - rewrite (handle_apc_msg_decode _ _ a Hb Hv H7f).
    pose proof (decode_fields_comm_state x (sl (x :: l) 1 (-2)) (ups_state a)) as H.
    destruct (decode_fields _ _ _); exact H.
Qed.

Lemma run_status_exact (a : ApcComm) :
  run_status a
  = Ret tt (set_prev_state (state a)
      (if bool_decide (state a = prev_state a) then a
       else set_ups_state
              (<["comm_state" := VStr (status_text (state a))]> (ups_state a)) a)).
Proof.
  unfold run_status, bind, gets, modify, ret.
  destruct (bool_decide (state a = prev_state a)); cbn [negb]; [reflexivity|].
  destruct a as [port st pst slot alive fields]. cbn [state].
  destruct st; reflexivity.
Qed.

Lemma settle_link (st : CommState) (ok : bool) (a : ApcComm) :
  ups_state (settle st ok a) = ups_state a
  /\ prev_state (settle st ok a) = prev_state a.
Proof. destruct st, ok; auto. Qed.

Lemma after_exchange_dict (a : ApcComm) :
  ups_state (after_exchange a) = ups_state a
  /\ prev_state (after_exchange a) = prev_state a.
Proof.
  unfold after_exchange.
  destruct (state a); try destruct (is_None (next_apc_msg a)); auto.
Qed.

Lemma handle_apc_msg_prev_state (raw_msg : option (list Z)) (a : ApcComm) :
  prev_state (res_state (handle_apc_msg raw_msg a)) = prev_state a.
Proof.
  destruct raw_msg as [[|x l]|]; [reflexivity| |reflexivity].
  unfold handle_apc_msg, Py.bytearray.
  destruct (forallb Py.is_byte (x :: l)); [|reflexivity].
  cbn [lift_exn bind ret index lookup list_lookup].
  destruct (verify_msg_checksum (x :: l)); cbn [negb]; [|reflexivity].
  destruct (x =? 127).
  - unfold branch_0x7f, bind, on_ups_state, zoom, setitem, modify, gets, ret.
    cbn [state set_ups_state ups_state].
    destruct (decide (state a = MODE0)) as [Hm|Hm]; [|reflexivity].
    destruct (calculate_challenge _) as [challenge d'|e d']; [|reflexivity].
    unfold lift_exn.
    destruct (create_msg_data 126 12 challenge) as [e2|frame]; [reflexivity|].
    unfold write, receive_msg, modify, ret. cbn.
    destruct (rx (ser a)) as [|[|b rest] more]; cbn; try reflexivity;
      destruct (b =? 126); reflexivity.
  - unfold bind, on_ups_state, zoom, ret, modify.
    destruct (decode_fields _ _ _); reflexivity.
Qed.

(** One cycle keeps ["comm_state"] in step: if it stood for
    [prev_state] before, then after a completed cycle [prev_state] is
    the state and ["comm_state"] is ["online"] exactly in [MODE0] and
    [MODE1]; if the cycle raises, both are left as they were. *)
Lemma run_cycle_comm_state (a : ApcComm) :
  comm_state_ok a ->
  match run_cycle a with
  | Ret _ a' =>
      prev_state a' = state a'
      /\ ups_state a' !! "comm_state" = Some (VStr (status_text (state a')))
  | Raise _ a' =>
      prev_state a' = prev_state a
      /\ ups_state a' !! "comm_state" = ups_state a !! "comm_state"
  end.
Proof.
  unfold comm_state_ok. intros Hok.
  unfold run_cycle, bind. rewrite run_branch_spec.
  pose proof (handle_apc_msg_comm_state (Some (next_window a)) (after_exchange a)) as Hc.
  pose proof (handle_apc_msg_prev_state (Some (next_window a)) (after_exchange a)) as Hp.
  destruct (after_exchange_dict a) as [Hd Hpp]. rewrite Hd in Hc. rewrite Hpp in Hp.
  destruct (handle_apc_msg _ _) as [ok a1|e a1]; cbn [res_state] in Hc, Hp.
  - rewrite run_status_exact.
    destruct (settle_link (state a) ok a1) as [Hsd Hsp].
    set (s := settle (state a) ok a1) in *.
    destruct (bool_decide_reflect (state s = prev_state s)) as [E|E].
    + split; [reflexivity|].
      cbn. rewrite Hsd, Hc, Hok, E, Hsp, Hp. reflexivity.
    + split; [reflexivity|]. cbn. apply lookup_insert_eq.
  - auto.
Qed.

(** X12: [ups_state['comm_state']] follows the connection.  If it says
    what [prev_state] stands for (["online"] for [MODE0] and [MODE1],
    ["offline"] otherwise), as it does in a fresh engine, it still does
    after any number of cycles of [run], whether the loop is alive or
    has died with an exception; and after every cycle that completes,
    [prev_state] is the state and ["comm_state"] says what the state
    stands for. *)
Theorem comm_state_tracks_state (n : nat) (a : ApcComm) :
  comm_state_ok a ->
  comm_state_ok (res_state (run n a))
  /\ (forall a', run_cycle a = Ret tt a' ->
        prev_state a' = state a'
        /\ ups_state a' !! "comm_state" = Some (VStr (status_text (state a')))).
Proof.
  intros Hok. split.
  - revert a Hok. induction n as [|n IH]; intros a Hok; [exact Hok|].
    cbn [run]. unfold bind at 1. unfold gets at 1.
    destruct (running a); [|exact Hok].
    pose proof (run_cycle_comm_state a Hok) as H. unfold bind.
    destruct (run_cycle a) as [[] a1|e a1].
    + apply IH. unfold comm_state_ok. destruct H as [-> ->]. reflexivity.
    + unfold comm_state_ok in *. cbn. destruct H as [-> ->]. exact Hok.
  - intros a' E. pose proof (run_cycle_comm_state a Hok) as H.
    rewrite E in H. exact H.
Qed.

(** X12, witness: three cycles on a fresh engine that receives the
    first sample. *)
Lemma comm_state_tracks_state_witness :
  comm_state_ok
    (res_state (run 3 (ApcComm_new {| rx := [sample_1_frame]; tx := [] |}))).
Proof.
  apply (proj1 (comm_state_tracks_state 3
                  (ApcComm_new {| rx := [sample_1_frame]; tx := [] |})
                  eq_refl)).
Defined.

(** ** The handshake *)

(** The [0x7f] branch in [MODE0], step by step. *)
Lemma branch_0x7f_mode0 (msg_data : list Z) (a : ApcComm) :
  state a = MODE0 ->
  branch_0x7f msg_data a
  = let a1 := set_ups_state
                (<["challenge_status" := VBytes (sl msg_data 14 16)]> (ups_state a)) a in
    match calculate_challenge (ups_state a1) with
    | Raise e _ => Raise e a1
    | Ret challenge _ =>
        match create_msg_data 0x7e 12 challenge with
        | inl e => Raise e a1
        | inr frame =>
            let a2 := set_ser {| rx := tail (rx (ser a));
                                 tx := tx (ser a) ++ [Frame frame] |} a1 in
            match next_window a with
            | b :: _ => if b =? 0x7e then Ret true (set_state MODE1 a2)
                        else Ret false a2
            | [] => Ret false a2
            end
        end
    end.
Proof.
  intros Hst.
  unfold branch_0x7f, bind, on_ups_state, zoom, setitem, modify, gets, ret.
  cbn [state set_ups_state ups_state]. rewrite Hst.
  destruct (decide (MODE0 = MODE0)) as [_|Hne]; [|congruence].
  cbv zeta.
  pose proof (calculate_challenge_reads
                (<["challenge_status" := VBytes (sl msg_data 14 16)]> (ups_state a))) as Hc.
  destruct (calculate_challenge _) as [challenge d'|e d']; cbn in Hc; subst d';
    [|reflexivity].
  unfold lift_exn.
  destruct (create_msg_data 126 12 challenge) as [e2|frame]; [reflexivity|].
  unfold write, receive_msg, modify, ret, next_window.
  destruct a as [[r t] st pst slot alive fields]. cbn.
  destruct r as [|[|b rest] more]; cbn; try reflexivity.
  destruct (b =? 126); reflexivity.
Qed.

Ltac in_list :=
  unfold identity_keys, known_ids;
  repeat first [apply list_elem_of_here | apply list_elem_of_further].

(** X13: when one of the four identity fields [calculate_challenge]
    reads is missing from [ups_state] (the ones present being byte
    strings, [series_id_raw] of at least two bytes), it raises
    [KeyError] and leaves [ups_state] as it was. *)
Theorem calculate_challenge_missing_field (d : dict) :
  (forall key, key ∈ identity_keys ->
     d !! key = None \/ exists b, d !! key = Some (VBytes b)) ->
  (forall b, d !! "series_id_raw" = Some (VBytes b) -> (2 <= length b)%nat) ->
  (exists key, key ∈ identity_keys /\ d !! key = None) ->
  calculate_challenge d = Raise Py.KeyError d.
Proof.
  intros Hall Hsid (key & Hkey & Hnone).
  unfold calculate_challenge.
  destruct (Hall "series_id_raw") as [E1|[b1 E1]]; [in_list| |].
  { rewrite (bind_Raise _ _ _ _ _ (getitem_None _ _ E1)). reflexivity. }
  pose proof (Hsid _ E1) as Hlen.
  destruct b1 as [|x0 [|x1 b1]]; [cbn in Hlen; lia..|].
  rewrite (bind_Ret _ _ _ _ _ (getitem_Some _ _ _ E1)).
  cbn [as_bytes bind ret index lookup list_lookup].
  rewrite (bind_Ret _ _ _ _ _ (getitem_Some _ _ _ E1)).
  cbn [as_bytes bind ret index lookup list_lookup].
  destruct (Hall "header_raw") as [E2|[b2 E2]]; [in_list| |].
  { rewrite (bind_Raise _ _ _ _ _ (getitem_None _ _ E2)). reflexivity. }
  rewrite (bind_Ret _ _ _ _ _ (getitem_Some _ _ _ E2)).
  cbn [as_bytes bind ret].
  destruct (Hall "serial_nb_raw") as [E3|[b3 E3]]; [in_list| |].
  { rewrite (bind_Raise _ _ _ _ _ (getitem_None _ _ E3)). reflexivity. }
  rewrite (bind_Ret _ _ _ _ _ (getitem_Some _ _ _ E3)).
  cbn [as_bytes bind ret].
  destruct (Hall "password_1") as [E4|[b4 E4]]; [in_list| |].
  { rewrite (bind_Raise _ _ _ _ _ (getitem_None _ _ E4)). reflexivity. }
  exfalso. unfold identity_keys in Hkey.
  repeat (apply elem_of_cons in Hkey as [->|Hkey]; [congruence|]).
  inversion Hkey.
Qed.

(** X13, witness: the example identity without its password. *)
Lemma calculate_challenge_missing_field_witness :
  calculate_challenge (delete "password_1" identity_example)
  = Raise Py.KeyError (delete "password_1" identity_example).
Proof.
  apply (calculate_challenge_missing_field (delete "password_1" identity_example)).
  - intros key Hkey. unfold identity_keys in Hkey.
    repeat (apply elem_of_cons in Hkey as [->|Hkey];
            [first [left; reflexivity | right; eexists; reflexivity]|]).
    inversion Hkey.
  - intros b Hb. vm_compute in Hb. injection Hb as <-. cbn. lia.
  - exists "password_1". split; [in_list | reflexivity].
Defined.

Lemma handle_apc_msg_0x7f (msg_data : list Z) (a : ApcComm) :
  forallb Py.is_byte msg_data = true ->
  handle_apc_msg (Some (device_frame 0x7f msg_data)) a
  = match branch_0x7f msg_data a with
    | Ret true a' => Ret true (set_next_apc_msg The_APC_CMD_NEXT a')
    | Ret false a' => Ret false a'
    | Raise e a' => Raise e a'
    end.
Proof.
  intros Hb.
  destruct (device_frame_parts 0x7f msg_data) as (_ & Hp & Hv).
  assert (HB : forallb Py.is_byte (device_frame 0x7f msg_data) = true)
    by (apply device_frame_bytes; cbn [forallb]; rewrite Hb; reflexivity).
  revert Hp Hv HB. unfold device_frame.
  set (chk := [cb0 _; cb1 _]). cbn [app]. intros Hp Hv HB.
  unfold handle_apc_msg, Py.bytearray. rewrite HB.
  cbn [lift_exn bind ret index lookup list_lookup]. rewrite Hv, Hp.
  cbn [negb Z.eqb Pos.eqb]. unfold bind, modify, ret.
  destruct (branch_0x7f msg_data a) as [[] a'|e a']; reflexivity.
Qed.


(** The challenge value, for use in the handshake. *)
Lemma calculate_challenge_fold
    (d : dict) (id0 id1 : Z) (header serial_nb password : list Z) :
  d !! "series_id_raw" = Some (VBytes [id0; id1]) ->
  d !! "header_raw" = Some (VBytes header) ->
  d !! "serial_nb_raw" = Some (VBytes serial_nb) ->
  d !! "password_1" = Some (VBytes password) ->
  0 <= id0 < 256 -> 0 <= id1 < 256 ->
  let b := fold_left challenge_round
             (header ++ serial_nb ++ take 2 password) (id1, id0) in
  calculate_challenge d = Ret [0x01; 0x01; fst b; snd b] d.
Proof.
  intros Hid Hhdr Hser Hpw Hb0 Hb1 b.
  unfold calculate_challenge.
  rewrite (bind_Ret _ _ _ _ _ (getitem_Some _ _ _ Hid)).
  cbn [as_bytes bind ret index lookup list_lookup].
  rewrite (bind_Ret _ _ _ _ _ (getitem_Some _ _ _ Hid)).
  cbn [as_bytes bind ret index lookup list_lookup].
  rewrite (bind_Ret _ _ _ _ _ (getitem_Some _ _ _ Hhdr)).
  cbn [as_bytes bind ret].
  rewrite (bind_Ret _ _ _ _ _ (getitem_Some _ _ _ Hser)).
  cbn [as_bytes bind ret].
  rewrite (bind_Ret _ _ _ _ _ (getitem_Some _ _ _ Hpw)).
  cbn [as_bytes bind ret].
  change 2 with (Z.of_nat 2). rewrite slice_take.
  rewrite <- !fold_left_app. fold b.
  destruct (challenge_round_range (header ++ serial_nb ++ take 2 password)
              (id1, id0)) as [R0 R1]; [cbn [fst]; lia | cbn [snd]; lia |].
  fold b in R0, R1. apply is_byte_true in R0, R1.
  unfold lift_exn, Py.bytearray. cbn [forallb].
  rewrite R0, R1. reflexivity.
Qed.

(** X14: The handshake.  In [MODE0], with the identity fields stored, the
    terminal message [0x7f] makes the cycle write a second frame, the
    challenge response [7e 0c 04 01 01 b0 b1] with its check bytes,
    which passes [verify_msg_checksum].  If the next bytes received
    start with [0x7e] the engine enters [MODE1] with keep-alive armed;
    otherwise, or if nothing comes, it falls back to [INIT] and the
    slot keeps what it held.  The reply is consumed but neither
    verified nor decoded. *)
Theorem handshake (a : ApcComm) (msg_data : list Z) (rest : list (list Z))
    (id0 id1 : Z) (header serial_nb password : list Z) :
  state a = MODE0 ->
  rx (ser a) = device_frame 0x7f msg_data :: rest ->
  forallb Py.is_byte msg_data = true ->
  ups_state a !! "series_id_raw" = Some (VBytes [id0; id1]) ->
  ups_state a !! "header_raw" = Some (VBytes header) ->
  ups_state a !! "serial_nb_raw" = Some (VBytes serial_nb) ->
  ups_state a !! "password_1" = Some (VBytes password) ->
  Py.is_byte id0 = true -> Py.is_byte id1 = true ->
  let b := fold_left challenge_round
             (header ++ serial_nb ++ take 2 password) (id1, id0) in
  exists frame a',
    create_msg_data 0x7e 12 [0x01; 0x01; fst b; snd b] = inr frame
    /\ take 7 frame = [0x7e; 12; 4; 0x01; 0x01; fst b; snd b]
    /\ verify_msg_checksum frame = true
    /\ run_cycle a = Ret tt a'
    /\ tx (ser a') = tx (ser a) ++ [next_apc_msg a; Frame frame]
    /\ rx (ser a') = tail rest
    /\ match rest with
       | (first_byte :: _) :: _ =>
           if first_byte =? 0x7e
           then state a' = MODE1 /\ next_apc_msg a' = The_APC_CMD_NEXT
           else state a' = INIT /\ next_apc_msg a' = next_apc_msg a
       | _ => state a' = INIT /\ next_apc_msg a' = next_apc_msg a
       end.
Proof.
  intros Hst Hrx Hbytes Hid Hhdr Hser Hpw Hb0 Hb1 b.
  assert (Hrange := challenge_round_range (header ++ serial_nb ++ take 2 password)
                      (id1, id0)).
  apply is_byte_true in Hb0 as Hr0. apply is_byte_true in Hb1 as Hr1.
  destruct Hrange as [R0 R1]; [cbn [fst]; lia | cbn [snd]; lia |].
  fold b in R0, R1.
  pose proof (create_msg_data_frame 0x7e 12 [0x01; 0x01; fst b; snd b]
                eq_refl eq_refl ltac:(cbn; lia)) as Hcreate.
  cbv zeta in Hcreate.
  rewrite slice_prefix_all in Hcreate by (cbn; lia).
  set (body := [0x7e; 12; Z.of_nat (length [0x01; 0x01; fst b; snd b])]
               ++ [0x01; 0x01; fst b; snd b]) in *.
  set (frame := body ++ [cb0 (update FletcherBase Fletcher_new body);
                         cb1 (update FletcherBase Fletcher_new body)]) in *.
  assert (Hverify : verify_msg_checksum frame = true)
    by apply verify_own_checksum.
  (* the engine after the first exchange *)
  assert (Hwin : next_window a = device_frame 0x7f msg_data)
    by (unfold next_window; rewrite Hrx; reflexivity).
  set (ae := after_exchange a).
  assert (Hae : ae = set_ser {| rx := rest; tx := tx (ser a) ++ [next_apc_msg a] |} a).
  { subst ae. unfold after_exchange, outgoing. rewrite Hst, Hrx. reflexivity. }
  (* the challenge *)
  assert (Hchal : calculate_challenge
                    (<["challenge_status" := VBytes (sl msg_data 14 16)]> (ups_state ae))
                  = Ret [0x01; 0x01; fst b; snd b]
                      (<["challenge_status" := VBytes (sl msg_data 14 16)]> (ups_state ae))).
  { rewrite Hae. cbn [ups_state set_ser].
    apply calculate_challenge_fold; try assumption;
      rewrite lookup_insert_ne by discriminate; assumption. }
  pose proof (run_cycle_spec a) as Hcycle. fold ae in Hcycle.
  rewrite Hwin, (handle_apc_msg_0x7f _ _ Hbytes) in Hcycle.
  rewrite branch_0x7f_mode0 in Hcycle by (rewrite Hae; exact Hst).
  cbv zeta in Hcycle. cbn [ups_state set_ups_state] in Hcycle.
  rewrite Hchal, Hcreate in Hcycle.
  exists frame. 
  assert (Hnw : next_window ae = match rest with [] => [] | r :: _ => r end)
    by (rewrite Hae; reflexivity).
  rewrite Hnw in Hcycle.
  destruct rest as [|[|first_byte reply] more].
  - destruct Hcycle as [d ->]. eexists. split; [exact Hcreate|].
    split; [reflexivity|]. split; [exact Hverify|]. split; [reflexivity|].
    rewrite Hae, Hst. cbn. rewrite <- (assoc_L (++)). auto.
  - destruct Hcycle as [d ->]. eexists. split; [exact Hcreate|].
    split; [reflexivity|]. split; [exact Hverify|]. split; [reflexivity|].
    rewrite Hae, Hst. cbn. rewrite <- (assoc_L (++)). auto.
  - destruct (first_byte =? 126).
    + destruct Hcycle as [d ->]. eexists. split; [exact Hcreate|].
      split; [reflexivity|]. split; [exact Hverify|]. split; [reflexivity|].
      rewrite Hae, Hst. cbn. rewrite <- (assoc_L (++)). auto.
    + destruct Hcycle as [d ->]. eexists. split; [exact Hcreate|].
      split; [reflexivity|]. split; [exact Hverify|]. split; [reflexivity|].
      rewrite Hae, Hst. cbn. rewrite <- (assoc_L (++)). auto.
Qed.

(** X14, witness: the example identity answered with [7e 00]; the
    challenge is [01 01 c3 a3]. *)
Lemma handshake_witness :
  exists frame a',
    create_msg_data 0x7e 12 [0x01; 0x01; 195; 163] = inr frame
    /\ take 7 frame = [0x7e; 12; 4; 0x01; 0x01; 195; 163]
    /\ verify_msg_checksum frame = true
    /\ run_cycle handshake_engine = Ret tt a'
    /\ tx (ser a') = [The_APC_CMD_NEXT; Frame frame]
    /\ rx (ser a') = []
    /\ state a' = MODE1 /\ next_apc_msg a' = The_APC_CMD_NEXT.
Proof.
  exact (handshake handshake_engine
           (repeat 0 16) [[0x7e; 0x00]] 0x03 0xed
           [0x0a; 0x10; 0x80; 0x03; 0xed; 0x07; 0x09; 0x00]
           [0x33; 0x53; 0x31; 0x36; 0x30; 0x37; 0x58; 0x30; 0x30; 0x35;
            0x38; 0x38; 0x20; 0x20]
           [0x12; 0x34; 0x56; 0x78]
           eq_refl eq_refl eq_refl eq_refl eq_refl eq_refl eq_refl eq_refl eq_refl).
Defined.

Lemma create_msg_data_head (msg_id offset : Z) (msg_data frame : list Z) :
  create_msg_data msg_id offset msg_data = inr frame ->
  take 2 frame = [msg_id; offset].
Proof.
  unfold create_msg_data, Py.bytearray.
  destruct (forallb Py.is_byte _); [|discriminate].
  destruct (Py.to_bytes_big 2 _); [discriminate|].
  intros [= <-]. reflexivity.
Qed.

(** X15: [MODE1] is entered only through the handshake: a cycle that starts
    outside [MODE1] and ends in it started in [MODE0], received a
    checksum-valid message with id [0x7f], wrote the slot and then a
    frame with id [0x7e] and offset 12, and consumed a second receive
    window that started with [0x7e]. *)
Theorem mode1_entered_by_handshake (a a' : ApcComm) :
  state a <> MODE1 ->
  run_cycle a = Ret tt a' ->
  state a' = MODE1 ->
  state a = MODE0
  /\ (exists msg, next_window a = 0x7f :: msg)
  /\ verify_msg_checksum (next_window a) = true
  /\ (exists reply more,
        rx (ser a) = next_window a :: (0x7e :: reply) :: more
        /\ rx (ser a') = more)
  /\ (exists frame,
        take 2 frame = [0x7e; 12]
        /\ tx (ser a') = tx (ser a) ++ [next_apc_msg a; Frame frame]).
Proof.
  intros Hnot Hrun Hend.
  pose proof (run_cycle_spec a) as Hcycle.
  destruct (after_exchange_link a) as (Hs & _ & Hrx & Htx).
  destruct (handle_apc_msg (Some (next_window a)) (after_exchange a))
    as [ok a1|e a1] eqn:Hh; [|congruence].
  destruct Hcycle as [d Hcycle]. rewrite Hrun in Hcycle.
  injection Hcycle as ->. cbn [state set_prev_state set_ups_state] in Hend.
  destruct (state a) eqn:Hst; try congruence;
    try (destruct ok; cbn in Hend; discriminate).
  destruct ok; [|cbn in Hend; discriminate].
  cbn [settle] in Hend |- *. cbn [ser set_prev_state set_ups_state].
  split; [reflexivity|].
  (* the response *)
  destruct (next_window a) as [|x l] eqn:Hw; [cbn in Hh; discriminate|].
  revert Hh. unfold handle_apc_msg, Py.bytearray.
  destruct (forallb Py.is_byte (x :: l)) eqn:Hbytes; [|discriminate].
  cbn [lift_exn bind ret index lookup list_lookup].
  destruct (verify_msg_checksum (x :: l)) eqn:Hv; cbn [negb].
  2:{ unfold bind, modify, ret. intros [= <-]. cbn in Hend. congruence. }
  destruct (Z.eqb_spec x 127) as [->|Hx].
  2:{ destruct (on_ups_state_same_link
                  (decode_fields x (sl (x :: l) 1 (-2))) (after_exchange a))
        as [(_ & HL & _) _].
      unfold bind, ret, modify.
      destruct (on_ups_state _ (after_exchange a)) as [[] a2|e a2];
        [|discriminate]. cbn in HL.
      intros [= <-]. cbn in Hend. congruence. }
  unfold bind at 1. rewrite branch_0x7f_mode0 by assumption. cbv zeta.
  destruct (calculate_challenge _) as [challenge d'|e d']; [|discriminate].
  destruct (create_msg_data 126 12 challenge) as [e|frame] eqn:Hf; [discriminate|].
  apply create_msg_data_head in Hf.
  unfold next_window in Hw |- *. rewrite Hrx, Htx.
  unfold outgoing. rewrite Hst.
  destruct (rx (ser a)) as [|w1 [|[|b reply] more]] eqn:Hr; cbn [tail];
    try discriminate.
  destruct (Z.eqb_spec b 126) as [->|Hb]; [|discriminate].
  unfold modify, ret. intros [= <-]. cbn.
  split; [eauto|]. split; [reflexivity|].
  split; [exists reply, more; split; congruence|].
  exists frame. split; [assumption|]. rewrite <- (assoc_L (++)). reflexivity.
Qed.

(** X15, witness: the cycle of the handshake example. *)
Lemma mode1_entered_by_handshake_witness :
  state handshake_engine = MODE0
  /\ (exists msg, next_window handshake_engine = 0x7f :: msg)
  /\ verify_msg_checksum (next_window handshake_engine) = true
  /\ (exists reply more,
        rx (ser handshake_engine)
        = next_window handshake_engine :: (0x7e :: reply) :: more
        /\ rx (ser (res_state (run_cycle handshake_engine))) = more)
  /\ (exists frame,
        take 2 frame = [0x7e; 12]
        /\ tx (ser (res_state (run_cycle handshake_engine)))
           = tx (ser handshake_engine)
             ++ [next_apc_msg handshake_engine; Frame frame]).
Proof.
  apply (mode1_entered_by_handshake handshake_engine
           (res_state (run_cycle handshake_engine)));
    [discriminate | vm_compute; reflexivity | vm_compute; reflexivity].
Defined.

(** ** Binary-point encoding *)

Lemma be_digits_length (n : nat) (v : Z) : length (Py.be_digits n v) = n.
Proof.
  revert v. induction n as [|n IH]; intros v; [reflexivity|].
  cbn [Py.be_digits]. rewrite length_app, IH. cbn [length]. lia.
Qed.

Lemma be_digits_bytes (n : nat) (v : Z) :
  forallb Py.is_byte (Py.be_digits n v) = true.
Proof.
  revert v. induction n as [|n IH]; intros v; [reflexivity|].
  cbn [Py.be_digits]. rewrite forallb_app, IH. cbn [forallb andb].
  rewrite (proj2 (is_byte_true _)); [reflexivity|].
  apply Z.mod_pos_bound; lia.
Qed.

Lemma from_bytes_big_snoc (bs : list Z) (b : Z) :
  Py.from_bytes_big (bs ++ [b]) = Py.from_bytes_big bs * 256 + b.
Proof. unfold Py.from_bytes_big. rewrite fold_left_app. reflexivity. Qed.

Lemma from_bytes_big_be_digits (n : nat) (v : Z) :
  Py.from_bytes_big (Py.be_digits n v) = v mod 256 ^ Z.of_nat n.
Proof.
  revert v. induction n as [|n IH]; intros v.
  - cbn. rewrite Z.mod_1_r. reflexivity.
  - cbn [Py.be_digits]. rewrite from_bytes_big_snoc, IH.
    rewrite Nat2Z.inj_succ, Z.pow_succ_r by lia.
    rewrite (Z.rem_mul_r v 256 (256 ^ Z.of_nat n)) by lia. lia.
Qed.

Lemma to_bytes_big_inr (n : nat) (v : Z) (data : list Z) :
  Py.to_bytes_big n v = inr data ->
  0 <= v < 256 ^ Z.of_nat n /\ data = Py.be_digits n v.
Proof.
  unfold Py.to_bytes_big.
  destruct (Z.leb_spec 0 v); [|discriminate].
  destruct (Z.ltb_spec v (256 ^ Z.of_nat n)); [|discriminate].
  intros [= <-]. split; [lia | reflexivity].
Qed.

(** X16: [convert_to_bp] and [convert_from_bp] are inverse on the values
    that fit: when [value * 2**frac_pos] lies in [0, 65536) the encoder
    returns two bytes that [convert_from_bp] reads back as the same
    number (and [int] of it is [value]); otherwise it raises
    [OverflowError]. *)
Theorem convert_to_bp_roundtrip (value : Z) (frac_pos : nat) :
  let scaled := value * 2 ^ Z.of_nat frac_pos in
  if (0 <=? scaled) && (scaled <? 65536)
  then exists data,
         convert_to_bp value frac_pos = inr data
         /\ length data = 2%nat
         /\ forallb Py.is_byte data = true
         /\ convert_from_bp data (Z.of_nat frac_pos) false
            = VFloat scaled (Z.of_nat frac_pos)
         /\ py_int (convert_from_bp data (Z.of_nat frac_pos) false)
            = VInt value
  else convert_to_bp value frac_pos = inl Py.OverflowError.
Proof.
  intros scaled. unfold convert_to_bp, Py.to_bytes_big. fold scaled.
  change (256 ^ Z.of_nat 2) with 65536.
  destruct ((0 <=? scaled) && (scaled <? 65536)) eqn:Hfit; [|reflexivity].
  apply andb_true_iff in Hfit as [H0%Z.leb_le H1%Z.ltb_lt].
  eexists. split; [reflexivity|].
  split; [apply be_digits_length|]. split; [apply be_digits_bytes|].
  unfold convert_from_bp. rewrite from_bytes_big_be_digits.
  change (256 ^ Z.of_nat 2) with 65536. rewrite Z.mod_small by lia.
  split; [reflexivity|]. cbn [py_int]. f_equal. unfold scaled.
  apply Z.quot_mul. pose proof (Z.pow_pos_nonneg 2 (Z.of_nat frac_pos)). lia.
Qed.

(** ** The command line *)

Lemma and_then_inr {A B} (r : Py.exn + A) (k : A -> Py.exn + B) (b : B) :
  and_then r k = inr b -> exists a, r = inr a /\ k a = inr b.
Proof. destruct r as [e|a]; [discriminate|]. cbn. eauto. Qed.

Lemma to_bytes_big_data (n : nat) (v : Z) (data : list Z) :
  Py.to_bytes_big n v = inr data ->
  length data = n /\ forallb Py.is_byte data = true.
Proof.
  intros [_ ->]%to_bytes_big_inr.
  split; [apply be_digits_length | apply be_digits_bytes].
Qed.

(** What [create_msg_data] needs to return a frame. *)
Lemma create_msg_data_inr (msg_id offset : Z) (payload frame : list Z) :
  create_msg_data msg_id offset payload = inr frame ->
  Py.is_byte msg_id = true /\ Py.is_byte offset = true
  /\ (length payload < 256)%nat
  /\ length frame = (length payload + 5)%nat
  /\ take 3 frame = [msg_id; offset; Z.of_nat (length payload)].
Proof.
  unfold create_msg_data, Py.bytearray. cbn [forallb].
  destruct (Py.is_byte msg_id); [|discriminate].
  destruct (Py.is_byte offset); [|discriminate].
  destruct (Py.is_byte (Z.of_nat (length payload))) eqn:Hl; [|discriminate].
  apply is_byte_true in Hl. cbn [andb].
  destruct (Py.to_bytes_big 2 _) as [e|chk] eqn:Hchk; [discriminate|].
  apply to_bytes_big_data in Hchk as [Lchk _].
  intros E. assert (E' : frame
                         = [msg_id; offset; Z.of_nat (length payload)]
                           ++ payload ++ chk)
    by (rewrite (assoc_L (++)); congruence).
  subst frame.
  split; [reflexivity|]. split; [reflexivity|]. split; [lia|].
  split; [|reflexivity].
  rewrite !length_app, Lchk. cbn [length]. lia.
Qed.

(** What a frame built from a short payload looks like. *)
Lemma create_msg_data_short (msg_id offset : Z) (payload frame : list Z) :
  create_msg_data msg_id offset payload = inr frame ->
  (length payload <= 12)%nat ->
  forallb Py.is_byte payload = true ->
  length frame = (length payload + 5)%nat
  /\ take 3 frame = [msg_id; offset; Z.of_nat (length payload)]
  /\ sl frame 3 (-2) = payload
  /\ forallb Py.is_byte frame = true
  /\ verify_msg_checksum frame = true.
Proof.
  intros Hf Hlen Hbytes.
  assert (Hhead : Py.is_byte msg_id = true /\ Py.is_byte offset = true).
  { revert Hf. unfold create_msg_data, Py.bytearray. cbn [forallb].
    destruct (Py.is_byte msg_id); [|discriminate].
    destruct (Py.is_byte offset); [auto|discriminate]. }
  destruct Hhead as [Hid Hoff].
  pose proof (create_msg_data_frame msg_id offset payload Hid Hoff) as Hc.
  cbv zeta in Hc.
  rewrite slice_prefix_all in Hc by (rewrite length_app; cbn [length]; lia).
  set (body := [msg_id; offset; Z.of_nat (length payload)] ++ payload) in *.
  pose proof (update_cb_range Fletcher_new body) as [R0 R1].
  set (chk := [cb0 (update FletcherBase Fletcher_new body);
               cb1 (update FletcherBase Fletcher_new body)]) in *.
  assert (E : frame = body ++ chk) by (rewrite Hc in Hf by lia; congruence).
  assert (Hchk : forallb Py.is_byte chk = true)
    by (unfold chk; cbn [forallb]; rewrite !(proj2 (is_byte_true _)) by lia;
        reflexivity).
  assert (Lchk : length chk = 2%nat) by reflexivity.
  assert (V : verify_msg_checksum (body ++ chk) = true)
    by apply verify_own_checksum.
  clearbody chk. subst frame. clear Hf Hc.
  split; [rewrite length_app, Lchk; unfold body; rewrite length_app; cbn [length]; lia|].
  split; [reflexivity|].
  split.
  { unfold body. rewrite <- (assoc_L (++)).
    unfold Py.slice, Py.adjust_index. rewrite !length_app, Lchk. cbn [length].
    destruct (Z.ltb_spec 3 0); [lia|]. destruct (Z.ltb_spec (-2) 0); [|lia].
    rewrite Z.min_r, Z.max_r by lia.
    replace (Z.to_nat 3) with (length [msg_id; offset; Z.of_nat (length payload)])
      by reflexivity.
    rewrite drop_app_length.
    replace (Z.to_nat _) with (length payload) by lia.
    rewrite take_app_length. reflexivity. }
  split.
  - unfold body. rewrite !forallb_app, Hbytes, Hchk. cbn [forallb].
    rewrite Hid, Hoff, !(proj2 (is_byte_true _)) by lia. reflexivity.
  - exact V.
Qed.

Section ApcCLI_proofs.

Variable int_of : string -> option Z.
Variable int_of_hex : string -> option Z.

Lemma send_choice_frame (table : string -> option (list Z))
    (msg_id offset : Z) (args : list string) (frame : list Z) :
  (forall opt data, table opt = Some data ->
     length data = 2%nat /\ forallb Py.is_byte data = true) ->
  send_choice table msg_id offset args = inr (Some frame) ->
  exists data, create_msg_data msg_id offset data = inr frame
    /\ length data = 2%nat /\ forallb Py.is_byte data = true.
Proof.
  intros Htable. unfold send_choice.
  intros (opt & _ & H)%and_then_inr.
  destruct (table opt) as [data|] eqn:Hd; [|discriminate].
  apply and_then_inr in H as (raw & Hraw & [= <-]).
  exists data. split; [assumption|]. exact (Htable _ _ Hd).
Qed.

Lemma start_stop_data (opt : string) (data : list Z) :
  start_stop opt = Some data ->
  length data = 2%nat /\ forallb Py.is_byte data = true.
Proof.
  unfold start_stop.
  repeat (destruct (String.eqb opt _); [intros [= <-]; auto|]).
  discriminate.
Qed.

Lemma ups_cmd_data (opt : string) (data : list Z) :
  ups_cmd opt = Some data ->
  length data = 2%nat /\ forallb Py.is_byte data = true.
Proof.
  unfold ups_cmd.
  repeat (destruct (String.eqb opt _); [intros [= <-]; auto|]).
  discriminate.
Qed.

Lemma user_interface_cmd_data (opt : string) (data : list Z) :
  user_interface_cmd opt = Some data ->
  length data = 2%nat /\ forallb Py.is_byte data = true.
Proof.
  unfold user_interface_cmd.
  repeat (destruct (String.eqb opt _); [intros [= <-]; auto|]).
  discriminate.
Qed.

Lemma do_set_data (arg : string) (frame : list Z) :
  do_set int_of arg = inr (Some frame) ->
  exists msg_id offset data,
    create_msg_data msg_id offset data = inr frame
    /\ length data = 2%nat /\ forallb Py.is_byte data = true.
Proof.
  unfold do_set. intros (name & _ & H)%and_then_inr. revert H.
  destruct (String.eqb name "runtime_limit_outletoff").
  { intros (text & _ & H)%and_then_inr.
    apply and_then_inr in H as (v & _ & H).
    apply and_then_inr in H as (data & Hdata & H).
    apply and_then_inr in H as (raw & Hraw & [= <-]).
    exists 0x4c, 14, data. split; [assumption|].
    exact (to_bytes_big_data _ _ _ Hdata). }
  destruct (String.eqb name "outlet_cmd").
  { intros (opt & _ & H)%and_then_inr.
    destruct (outlet_cmd opt) as [cmd|]; [|discriminate].
    apply and_then_inr in H as (data & Hdata & H).
    apply and_then_inr in H as (raw & Hraw & [= <-]).
    exists 0x71, 0x08, data. split; [assumption|].
    exact (to_bytes_big_data _ _ _ Hdata). }
  destruct (String.eqb name "battery_replacetest_cmd").
  { intros (data & H)%(send_choice_frame _ _ _ _ _ start_stop_data). eauto. }
  destruct (String.eqb name "runtime_calibration_cmd").
  { intros (data & H)%(send_choice_frame _ _ _ _ _ start_stop_data). eauto. }
  destruct (String.eqb name "battery_test_interval").
  { intros (text & _ & H)%and_then_inr.
    apply and_then_inr in H as (val & _ & H). cbv zeta in H.
    apply and_then_inr in H as (data & Hdata & H).
    apply and_then_inr in H as (raw & Hraw & [= <-]).
    exists 0x4a, 0, data. split; [assumption|].
    revert Hdata. unfold Py.bytearray.
    destruct (forallb Py.is_byte _) eqn:Hb; [|discriminate].
    intros [= <-]. auto. }
  destruct (String.eqb name "ups_cmd").
  { intros (data & H)%(send_choice_frame _ _ _ _ _ ups_cmd_data). eauto. }
  destruct (String.eqb name "user_interface_cmd").
  { intros (data & H)%(send_choice_frame _ _ _ _ _ user_interface_cmd_data).
    eauto. }
  discriminate.
Qed.

(** X17: Every frame [do_set] hands to [send_msg] is one the receiving side
    of this code accepts: seven bytes, with length byte 2, and
    [verify_msg_checksum] holds of it. *)
Theorem do_set_frames_verify (arg : string) (frame : list Z) :
  do_set int_of arg = inr (Some frame) ->
  length frame = 7%nat
  /\ frame !! 2%nat = Some 2
  /\ forallb Py.is_byte frame = true
  /\ verify_msg_checksum frame = true.
Proof.
  intros (msg_id & offset & data & Hf & Hlen & Hb)%do_set_data.
  destruct (create_msg_data_short _ _ _ _ Hf) as (L & T3 & _ & B & V);
    [lia | assumption |].
  rewrite Hlen in L, T3. split; [exact L|].
  split; [|auto].
  destruct frame as [|x0 [|x1 [|x2 frame]]]; try discriminate.
  injection T3 as _ _ ->. reflexivity.
Qed.

(** X18: ['battery_test_interval'] sends the same frame whatever number is
    given: the payload byte is [1**choice], which is 1 for every
    choice. *)
Theorem battery_test_interval_ignores_choice (arg text : string) (val : Z) :
  split_space arg = ["battery_test_interval"; text] ->
  int_of text = Some val ->
  do_set int_of arg = inr (Some [0x4a; 0x00; 0x02; 0x00; 0x01; 56; 122]).
Proof.
  intros Hargs Hval. unfold do_set. rewrite Hargs.
  cbn [arg_at lookup list_lookup and_then].
  change (String.eqb "battery_test_interval" "runtime_limit_outletoff") with false.
  change (String.eqb "battery_test_interval" "outlet_cmd") with false.
  change (String.eqb "battery_test_interval" "battery_replacetest_cmd") with false.
  change (String.eqb "battery_test_interval" "runtime_calibration_cmd") with false.
  change (String.eqb "battery_test_interval" "battery_test_interval") with true.
  cbv iota. unfold parse. rewrite Hval. cbn [and_then]. cbv zeta.
  assert (E : 1 ^ (if (0 <=? val) && (val <? Z.of_nat (length test_interval_choices))
                   then val else 0) = 1).
  { destruct (Z.leb_spec 0 val); cbn [andb]; [|reflexivity].
    destruct (_ <? _); [apply Z.pow_1_l; assumption | reflexivity]. }
  rewrite E. reflexivity.
Qed.

(** X19: ['outlet_cmd']: the frame carries the command word in its two
    payload bytes; the word always targets the main outlet (bit 8) and
    has the from-serial bit (bit 14) for every option but ['CANCEL'],
    whose second branch, the one that would set it, is never reached.
    An unknown option sends nothing. *)
Theorem outlet_cmd_frame (arg opt : string) :
  split_space arg = ["outlet_cmd"; opt] ->
  match outlet_cmd opt with
  | Some cmd =>
      (exists chk0 chk1,
         do_set int_of arg
         = inr (Some [0x71; 0x08; 0x02; cmd / 256; cmd mod 256; chk0; chk1]))
      /\ Z.testbit cmd 8 = true
      /\ Z.testbit cmd 14 = negb (String.eqb opt "CANCEL")
  | None => do_set int_of arg = inr None
  end.
Proof.
  intros Hargs. unfold do_set. rewrite Hargs.
  cbn [arg_at lookup list_lookup and_then].
  change (String.eqb "outlet_cmd" "runtime_limit_outletoff") with false.
  change (String.eqb "outlet_cmd" "outlet_cmd") with true.
  cbv iota. unfold outlet_cmd.
  destruct (String.eqb opt "CANCEL") eqn:E1;
    [split; [eexists _, _; reflexivity | split; reflexivity]|].
  destruct (String.eqb opt "ON");
    [split; [eexists _, _; reflexivity | split; reflexivity]|].
  destruct (String.eqb opt "ON_DELAY");
    [split; [eexists _, _; reflexivity | split; reflexivity]|].
  destruct (String.eqb opt "OFF");
    [split; [eexists _, _; reflexivity | split; reflexivity]|].
  destruct (String.eqb opt "OFF_DELAY");
    [split; [eexists _, _; reflexivity | split; reflexivity]|].
  destruct (String.eqb opt "SHUTDOWN");
    [split; [eexists _, _; reflexivity | split; reflexivity]|].
  destruct (String.eqb opt "REBOOT");
    [split; [eexists _, _; reflexivity | split; reflexivity]|].
  reflexivity.
Qed.

(** X20: [do_write]: when it sends, the argument had four parts that parsed
    as numbers; the frame starts with the id, the offset and the length,
    carries the data in exactly [length] bytes, big-endian, and, if the
    length is at most 12, passes [verify_msg_checksum]. *)
Theorem do_write_frame (arg : string) (frame : list Z) :
  do_write int_of_hex arg = inr (Some frame) ->
  exists a0 a1 a2 a3 msg_id msg_offset msg_len v,
    split_space arg = [a0; a1; a2; a3]
    /\ int_of_hex a0 = Some msg_id /\ int_of_hex a1 = Some msg_offset
    /\ int_of_hex a2 = Some msg_len /\ int_of_hex a3 = Some v
    /\ 0 <= msg_len < 256 /\ 0 <= v < 256 ^ msg_len
    /\ length frame = (Z.to_nat msg_len + 5)%nat
    /\ take 3 frame = [msg_id; msg_offset; msg_len]
    /\ (msg_len <= 12 ->
        Py.from_bytes_big (sl frame 3 (-2)) = v
        /\ verify_msg_checksum frame = true).
Proof.
  unfold do_write.
  destruct (split_space arg) as [|a0 [|a1 [|a2 [|a3 [|a4 rest]]]]];
    try discriminate.
  cbn [length Nat.eqb arg_at lookup list_lookup and_then]. unfold parse.
  destruct (int_of_hex a0) as [msg_id|] eqn:E0; [|discriminate].
  destruct (int_of_hex a1) as [msg_offset|] eqn:E1; [|discriminate].
  destruct (int_of_hex a2) as [msg_len|] eqn:E2; [|discriminate].
  destruct (int_of_hex a3) as [v|] eqn:E3; [|discriminate].
  cbn [and_then]. unfold to_bytes_len.
  destruct (Z.ltb_spec msg_len 0) as [|Hlen0]; [discriminate|].
  intros (data & Hdata & H)%and_then_inr.
  apply and_then_inr in H as (raw & Hraw & [= <-]).
  apply to_bytes_big_inr in Hdata as Hv. destruct Hv as [Hv ->].
  rewrite Z2Nat.id in Hv by lia.
  destruct (create_msg_data_inr _ _ _ _ Hraw) as (_ & _ & Hlt & L & T3).
  rewrite be_digits_length in Hlt, L, T3. rewrite Z2Nat.id in T3 by lia.
  exists a0, a1, a2, a3, msg_id, msg_offset, msg_len, v.
  do 9 (split; [first [reflexivity | assumption | lia]|]).
  intros Hshort.
  destruct (create_msg_data_short _ _ _ _ Hraw) as (_ & _ & P & _ & V);
    [rewrite be_digits_length; lia | apply be_digits_bytes |].
  rewrite P, from_bytes_big_be_digits, Z2Nat.id, Z.mod_small by lia.
  auto.
Qed.

End ApcCLI_proofs.

(** X17, witness: [set runtime_limit_outletoff 300]. *)
Lemma do_set_frames_verify_witness :
  length [0x4c; 14; 2; 1; 44; 140; 233] = 7%nat
  /\ [0x4c; 14; 2; 1; 44; 140; 233] !! 2%nat = Some 2
  /\ forallb Py.is_byte [0x4c; 14; 2; 1; 44; 140; 233] = true
  /\ verify_msg_checksum [0x4c; 14; 2; 1; 44; 140; 233] = true.
Proof.
  apply (do_set_frames_verify int_of_digits "runtime_limit_outletoff 300").
  reflexivity.
Defined.

(** X18, witness: [set battery_test_interval 4]. *)
Lemma battery_test_interval_ignores_choice_witness :
  do_set int_of_digits "battery_test_interval 4"
  = inr (Some [0x4a; 0x00; 0x02; 0x00; 0x01; 56; 122]).
Proof.
  apply (battery_test_interval_ignores_choice int_of_digits
           "battery_test_interval 4" "4" 4); reflexivity.
Defined.

(** X19, witness: [set outlet_cmd CANCEL]. *)
Lemma outlet_cmd_frame_witness :
  (exists chk0 chk1,
     do_set int_of_digits "outlet_cmd CANCEL"
     = inr (Some [0x71; 0x08; 0x02; 1; 1; chk0; chk1]))
  /\ Z.testbit 257 8 = true
  /\ Z.testbit 257 14 = false.
Proof.
  exact (outlet_cmd_frame int_of_digits "outlet_cmd CANCEL" "CANCEL" eq_refl).
Defined.

(** X20, witness: [write 71 08 02 0101]. *)
Lemma do_write_frame_witness :
  exists a0 a1 a2 a3 msg_id msg_offset msg_len v,
    split_space "71 08 02 0101" = [a0; a1; a2; a3]
    /\ int_of_hex_digits a0 = Some msg_id
    /\ int_of_hex_digits a1 = Some msg_offset
    /\ int_of_hex_digits a2 = Some msg_len
    /\ int_of_hex_digits a3 = Some v
    /\ 0 <= msg_len < 256 /\ 0 <= v < 256 ^ msg_len
    /\ length [0x71; 0x08; 0x02; 0x01; 0x01; 34; 96] = (Z.to_nat msg_len + 5)%nat
    /\ take 3 [0x71; 0x08; 0x02; 0x01; 0x01; 34; 96]
       = [msg_id; msg_offset; msg_len]
    /\ (msg_len <= 12 ->
        Py.from_bytes_big (sl [0x71; 0x08; 0x02; 0x01; 0x01; 34; 96] 3 (-2)) = v
        /\ verify_msg_checksum [0x71; 0x08; 0x02; 0x01; 0x01; 34; 96] = true).
Proof.
  apply (do_write_frame int_of_hex_digits "71 08 02 0101"). reflexivity.
Defined.
